(** * DataViewer: filter builder and chart configuration

    A shallow embedding of the front-end logic of the DataViewer
    repository (Vue 3 components and a Pinia store):

    - [Api]            services/api.js             (the two calls modelled)
    - [DataStore]      stores/dataStore.js         (filter and chart actions)
    - [FilterBuilder]  components/FilterBuilder.vue
    - [ChartConfig]    components/ChartConfig.vue  (current version)
    - [ChartConfigV1]  components/ChartConfig.vue  (earlier version, also
                                                    in the sources)

    Every [ref] becomes a field of a state record, every handler and
    watcher callback a function on that record, and a [computed] a
    function reading it.  What the user does is an [Event]; [handle]
    applies the assignment of [v-model], the handler bound in the
    template and the watchers triggered, and a control acts only while
    its [v-if] renders it.  An [async] store action is split at its
    [await]: the answer of the HTTP client is an argument of the part
    that resumes. *)

From Stdlib Require Import ZArith NArith Ascii Bool Lia.
From Stdlib Require Import Floats.SpecFloat.
From stdpp Require Import base option list strings gmap.

Set Default Proof Using "Type".

(** ** JavaScript values and the built-ins the components call *)

Module JS.

(** A JS number is an IEEE 754 binary64 value. *)
Definition prec : Z := 53.
Definition emax : Z := 1024.
Definition number : Type := spec_float.

(** The values a form field can hold: text, a number (Vue casts the text
    of an [<input type="number">]), or the array that [parseInValues]
    stores. *)
Inductive jsval :=
| VStr (s : string)
| VNum (x : number)
| VArr (l : list string).

Definition isNaN (x : number) : bool :=
  match x with S754_nan => true | _ => false end.

(** [a <= b] on numbers. *)
Definition leb (a b : number) : bool := SFleb a b.
(** [a < b] on numbers. *)
Definition ltb (a b : number) : bool := SFltb a b.

(** ToBoolean. *)
Definition truthy (v : jsval) : bool :=
  match v with
  | VStr s => negb (String.eqb s "")
  | VNum (S754_zero _) | VNum S754_nan => false
  | VNum _ => true
  | VArr _ => true
  end.

(** [v !== ''] *)
Definition not_empty_string (v : jsval) : bool :=
  match v with
  | VStr s => negb (String.eqb s "")
  | _ => true
  end.

(** [s] as a boolean: a string is truthy when it is not empty. *)
Definition str_truthy (s : string) : bool := negb (String.eqb s "").

(** [s || null] *)
Definition or_null (s : string) : option string :=
  if str_truthy s then Some s else None.

(** A string is the UTF-8 encoding of the text, byte by byte, as the
    string literals of this file are.  The separators, digits and
    letters the components look for are ASCII, and an ASCII byte never
    occurs inside the encoding of another character. *)

(** WhiteSpace and LineTerminator of ECMAScript, by code point: TAB, LF,
    VT, FF, CR, SP, NBSP, U+1680, U+2000 to U+200A, U+2028, U+2029,
    U+202F, U+205F, U+3000 and U+FEFF. *)
Definition isWhiteSpace (cp : N) : bool :=
  ((9 <=? cp) && (cp <=? 13) || (cp =? 32) || (cp =? 160) || (cp =? 5760)
   || (8192 <=? cp) && (cp <=? 8202) || (cp =? 8232) || (cp =? 8233)
   || (cp =? 8239) || (cp =? 8287) || (cp =? 12288) || (cp =? 65279))%N.

(** The payload of a continuation byte [10xxxxxx]. *)
Definition continuation (c : ascii) : option N :=
  let n := N_of_ascii c in
  if ((128 <=? n) && (n <=? 191))%N then Some (n - 128)%N else None.

(** The code point encoded on one, two or three bytes.  (Four bytes
    encode the code points from U+10000 on, none of which is white
    space.) *)
Definition code_point1 (c1 : ascii) : option N :=
  let n := N_of_ascii c1 in
  if (n <? 128)%N then Some n else None.

Definition code_point2 (c1 c2 : ascii) : option N :=
  let n := N_of_ascii c1 in
  match continuation c2 with
  | Some x2 =>
      if ((194 <=? n) && (n <=? 223))%N then Some ((n - 192) * 64 + x2)%N
      else None
  | None => None
  end.

Definition code_point3 (c1 c2 c3 : ascii) : option N :=
  let n := N_of_ascii c1 in
  match continuation c2, continuation c3 with
  | Some x2, Some x3 =>
      let cp := ((n - 224) * 4096 + x2 * 64 + x3)%N in
      if ((224 <=? n) && (n <=? 239) && (2048 <=? cp))%N then Some cp else None
  | _, _ => None
  end.

Definition white (cp : option N) : bool :=
  match cp with
  | Some n => isWhiteSpace n
  | None => false
  end.

(** [s.trimStart()]: white space characters are dropped from the start,
    one encoded character at a time. *)
Fixpoint trimStart (s : string) : string :=
  match s with
  | EmptyString => EmptyString
  | String c1 r1 =>
      if white (code_point1 c1) then trimStart r1
      else
        match r1 with
        | EmptyString => s
        | String c2 r2 =>
            if white (code_point2 c1 c2) then trimStart r2
            else
              match r2 with
              | EmptyString => s
              | String c3 r3 =>
                  if white (code_point3 c1 c2 c3) then trimStart r3 else s
              end
        end
  end.

(** [s.trimEnd()]: the string is cut where only white space follows. *)
Fixpoint trimEnd (s : string) : string :=
  match s with
  | EmptyString => EmptyString
  | String c r =>
      if String.eqb (trimStart s) "" then EmptyString else String c (trimEnd r)
  end.

(** [s.trim()] *)
Definition trim (s : string) : string := trimEnd (trimStart s).

(** [s.split(sep)] for a one-character separator. *)
Fixpoint split (sep : ascii) (s : string) : list string :=
  match s with
  | EmptyString => [EmptyString]
  | String c r =>
      if Ascii.eqb c sep then EmptyString :: split sep r
      else match split sep r with
           | h :: t => String c h :: t
           | [] => [String c EmptyString]
           end
  end.

(** [l.join(sep)] *)
Fixpoint join (sep : string) (l : list string) : string :=
  match l with
  | [] => ""
  | [x] => x
  | x :: t => x +:+ sep +:+ join sep t
  end.

(** [s.startsWith(p)] *)
Definition startsWith (s p : string) : bool := String.prefix p s.

Fixpoint drop_chars (n : nat) (s : string) : string :=
  match n, s with
  | S k, String _ r => drop_chars k r
  | _, _ => s
  end.

(** [s.replace(pat, rep)] for a string pattern: the first occurrence only.
    ([rep] without [$] patterns, as in the one call of the source.) *)
Fixpoint replace (pat rep s : string) : string :=
  if String.prefix pat s then rep +:+ drop_chars (String.length pat) s
  else match s with
       | EmptyString => EmptyString
       | String c r => String c (replace pat rep r)
       end.

(** *** parseFloat *)

Definition digit_of (c : ascii) : option N :=
  let n := N_of_ascii c in
  if ((48 <=? n) && (n <=? 57))%N then Some (n - 48)%N else None.

Fixpoint span_digits (s : string) : list N * string :=
  match s with
  | String c r =>
      match digit_of c with
      | Some d => let '(ds, rest) := span_digits r in (d :: ds, rest)
      | None => ([], s)
      end
  | EmptyString => ([], EmptyString)
  end.

Definition digits_value (ds : list N) : N :=
  fold_left (fun acc d => (10 * acc + d)%N) ds 0%N.

(** The binary64 value nearest to [(-1)^neg * m * 10^e], ties to even. *)
Definition of_decimal (neg : bool) (m : N) (e : Z) : number :=
  match m with
  | N0 => S754_zero neg
  | Npos p =>
      let num := match e with Zpos k => (p * 10 ^ k)%positive | _ => p end in
      let den := match e with Zneg k => (10 ^ k)%positive | _ => 1%positive end in
      SFdiv prec emax (S754_finite neg num 0) (S754_finite false den 0)
  end.

Definition take_sign (s : string) : bool * string :=
  match s with
  | String "+" r => (false, r)
  | String "-" r => (true, r)
  | _ => (false, s)
  end.

(** ExponentPart, when present and well formed; 0 otherwise. *)
Definition exponent_part (s : string) : Z :=
  match s with
  | String c r =>
      if (Ascii.eqb c "e" || Ascii.eqb c "E")%bool then
        let '(neg, r') := take_sign r in
        match span_digits r' with
        | ([], _) => 0%Z
        | (ds, _) => let v := Z.of_N (digits_value ds) in if neg then (- v)%Z else v
        end
      else 0%Z
  | EmptyString => 0%Z
  end.

(** [parseFloat] on a string: leading white space is skipped, then the
    longest prefix that is a StrDecimalLiteral is converted; NaN when there
    is none. *)
Definition parseFloat_str (s : string) : number :=
  let '(neg, s1) := take_sign (trimStart s) in
  if String.prefix "Infinity" s1 then S754_infinity neg
  else
    let '(ip, s2) := span_digits s1 in
    let '(fp, s3) :=
      match s2 with
      | String "." r => span_digits r
      | _ => ([], s2)
      end in
    match ip ++ fp with
    | [] => S754_nan
    | ds => of_decimal neg (digits_value ds)
              (exponent_part s3 - Z.of_nat (length fp))
    end.

(** [parseFloat(v)]: the argument is first converted to a string.  A
    number prints to a string that parses back to itself (with [-0]
    printing as ["0"]); an array prints as its elements joined by
    commas. *)
Definition parseFloat (v : jsval) : number :=
  match v with
  | VStr s => parseFloat_str s
  | VNum (S754_zero _) => S754_zero false
  | VNum x => x
  | VArr l => parseFloat_str (join "," l)
  end.

End JS.

(** ** The part of Vue 3 the components rely on

    The project is built on Vue 3 (README).  [v-model] and [watch] are
    library code; what is modelled here is the behaviour of [v-model]
    the components' logic depends on.  A watcher on a [ref] runs after
    the handler that assigned it, when the value assigned is a different
    one; that is written out in the [handle] function of each form. *)

Module Vue.
Import JS.

(** [looseToNumber]: the text of an input as a number when it parses. *)
Definition looseToNumber (dom : string) : jsval :=
  let n := parseFloat_str dom in
  if isNaN n then VStr dom else VNum n.

(** [v-model] on an [<input>]: the [.number] modifier is applied by
    itself when the input has [type="number"], so the text is cast with
    [looseToNumber]; it is stored as it is otherwise. *)
Definition vmodel_input (type dom : string) : jsval :=
  if String.eqb type "number" then looseToNumber dom else VStr dom.

(** [v-model] of a checkbox bound to an array: checking an absent element
    appends it, unchecking a present one removes it at its first index;
    a new array is assigned in both cases. *)
Fixpoint remove_first (x : string) (l : list string) : list string :=
  match l with
  | [] => []
  | y :: t => if String.eqb x y then t else y :: remove_first x t
  end.

Definition includes (l : list string) (x : string) : bool :=
  existsb (String.eqb x) l.

Definition vmodel_checkbox (x : string) (checked : bool) (l : list string)
  : option (list string) :=
  match checked, includes l x with
  | true, false => Some (l ++ [x])
  | false, true => Some (remove_first x l)
  | _, _ => None
  end.

End Vue.

(** ** The part of HTML the forms rely on

    [v-model] reads the [value] an input element reports, not the keys
    pressed.  For [<input type="number">] the two differ: the element
    reports the text entered when it is a valid floating-point number,
    and the empty string otherwise (value sanitization of the Number
    state). *)

Module Html.
Import JS.

(** The exponent of a valid floating-point number, up to the end of the
    text: nothing, or [e] or [E], an optional sign and digits. *)
Definition exponent_ok (s : string) : bool :=
  match s with
  | EmptyString => true
  | String c r =>
      if (Ascii.eqb c "e" || Ascii.eqb c "E")%bool then
        let r' :=
          match r with
          | String "-" r' => r'
          | String "+" r' => r'
          | _ => r
          end in
        match span_digits r' with
        | (_ :: _, EmptyString) => true
        | _ => false
        end
      else false
  end.

(** A valid floating-point number: an optional [-]; digits, or digits, a
    dot and digits, or a dot and digits; an optional exponent. *)
Definition valid_floating_point_number (s : string) : bool :=
  let s1 :=
    match s with
    | String "-" r => r
    | _ => s
    end in
  let '(ip, s2) := span_digits s1 in
  match s2 with
  | String "." r =>
      let '(fp, s3) := span_digits r in
      match fp with
      | [] => false
      | _ :: _ => exponent_ok s3
      end
  | _ =>
      match ip with
      | [] => false
      | _ :: _ => exponent_ok s2
      end
  end.

(** The [value] of an [<input type="number">] after [typed] has been
    entered into it. *)
Definition number_input_value (typed : string) : string :=
  if valid_floating_point_number typed then typed else "".

(** [text] is a value that an input of type [type] can report.  Only the
    number input is constrained here. *)
Definition reports (type text : string) : Prop :=
  type = "number" → number_input_value text = text.

End Html.

(** ** services/api.js: what crosses the HTTP boundary *)

Module Api.
Import JS.

(** The object [applyFilter] emits and the store keeps; [value2] is
    present for [between] only. *)
Record Filter := mkFilter {
  column : string;
  operator : string;
  value : jsval;
  value2 : option jsval
}.

(** A value of the [options] bag of a chart configuration. *)
Inductive optval :=
| OStr (s : string)
| OBool (b : bool)
| ONum (n : Z)
| OList (l : list string).

(** The object [generateChart] of ChartConfig.vue builds.  [None] is
    [null] for the five base fields and an absent key for
    [size_column]; [options] is a JS object used as a map. *)
Record ChartConfig := mkConfig {
  chart_type : string;
  x_column : option string;
  y_column : option string;
  color_column : option string;
  title : option string;
  size_column : option string;
  options : gmap string optval
}.

(** The body of [POST /charts/generate]. *)
Record ChartRequest := mkChartRequest {
  req_source_id : string;
  req_config : ChartConfig;
  req_filters : list Filter
}.

(** The body of [POST /data/query]. *)
Record QueryRequest := mkQueryRequest {
  q_source_id : string;
  q_filters : list Filter;
  q_limit : Z;
  q_offset : Z;
  q_columns : option (list string)
}.

(** Rows and figures are opaque to the front end; they are kept as
    text. *)
Record QueryResponse := mkQueryResponse {
  data : list string;
  total_rows : Z
}.

Record ChartResponse := mkChartResponse {
  resp_chart_id : string;
  resp_chart_type : string;
  resp_figure : string
}.

(** A rejected request as the store reads it: [response?.data?.detail]
    when the server answered with one, and [message]. *)
Record Error := mkError {
  detail : option string;
  message : string
}.

(** The two endpoints the filter and chart actions call.  A call either
    rejects with an [Error] or resolves with the response body. *)
Record Client := mkClient {
  queryData : QueryRequest -> Error + QueryResponse;
  generateChart : ChartRequest -> Error + ChartResponse
}.

End Api.

(** ** stores/dataStore.js *)

Module DataStore.
Import JS.

Record Source := mkSource {
  source_id : string;
  source_type : string;
  name : string
}.

Record Chart := mkChart {
  chart_id : string;
  chart_type : string;
  figure : string;
  config : Api.ChartConfig
}.

Record Suggestion := mkSuggestion {
  s_chart_type : string;
  s_x_column : option string;
  s_y_column : option string;
  s_reason : string;
  s_priority : Z
}.

Record State := mkState {
  activeSource : option Source;
  currentData : list string;
  totalRows : Z;
  columns : list (string * string);      (* name, dtype *)
  dataTypes : gmap string string;
  activeFilters : list Api.Filter;
  charts : list Chart;
  loading : bool;
  error : option string;
  chartSuggestions : list Suggestion
}.

Definition initial : State :=
  mkState None [] 0 [] ∅ [] [] false None [].

(** What an action throws. *)
Inductive exn :=
| NoActiveSource                 (* [new Error('No active data source')] *)
| Rejected (e : Api.Error).      (* the error of the HTTP client, rethrown *)

Inductive result (A : Type) :=
| Return (a : A)
| Throw (e : exn).
Arguments Return {A} a.
Arguments Throw {A} e.

(** An action: the store after it, and what the call returned or threw. *)
Definition action (A : Type) : Type := State -> State * result A.

Definition ret {A} (a : A) : action A := fun st => (st, Return a).
Definition throw {A} (e : exn) : action A := fun st => (st, Throw e).
Definition bind {A B} (m : action A) (k : A -> action B) : action B :=
  fun st => match m st with
            | (st', Return a) => k a st'
            | (st', Throw e) => (st', Throw e)
            end.
(** [try m catch h finally f] *)
Definition try_catch_finally {A} (m : action A) (h : exn -> action A)
    (f : State -> State) : action A :=
  fun st =>
    let '(st1, r) :=
      match m st with
      | (st', Return a) => (st', Return a)
      | (st', Throw e) => h e st'
      end in
    (f st1, r).
Definition modify (f : State -> State) : action unit := fun st => (f st, Return tt).
(** [await] of a client call. *)
Definition await {A} (outcome : Api.Error + A) : action A :=
  match outcome with
  | inr a => ret a
  | inl e => throw (Rejected e)
  end.

Notation "'let*' x ':=' m 'in' k" := (bind m (fun x => k))
  (at level 10, x name, k at level 200).

Definition set_loading (b : bool) (st : State) : State :=
  mkState (activeSource st) (currentData st) (totalRows st) (columns st)
    (dataTypes st) (activeFilters st) (charts st) b (error st) (chartSuggestions st).
Definition set_error (e : option string) (st : State) : State :=
  mkState (activeSource st) (currentData st) (totalRows st) (columns st)
    (dataTypes st) (activeFilters st) (charts st) (loading st) e (chartSuggestions st).
Definition set_data (d : list string) (n : Z) (st : State) : State :=
  mkState (activeSource st) d n (columns st)
    (dataTypes st) (activeFilters st) (charts st) (loading st) (error st)
    (chartSuggestions st).
Definition set_activeFilters (fs : list Api.Filter) (st : State) : State :=
  mkState (activeSource st) (currentData st) (totalRows st) (columns st)
    (dataTypes st) fs (charts st) (loading st) (error st) (chartSuggestions st).
Definition set_charts (cs : list Chart) (st : State) : State :=
  mkState (activeSource st) (currentData st) (totalRows st) (columns st)
    (dataTypes st) (activeFilters st) cs (loading st) (error st) (chartSuggestions st).

(** [error.response?.data?.detail || error.message] *)
Definition error_text (e : exn) : string :=
  match e with
  | NoActiveSource => "No active data source"
  | Rejected e =>
      match Api.detail e with
      | Some d => if str_truthy d then d else Api.message e
      | None => Api.message e
      end
  end.

(** An [async] action runs in two steps.  It starts: the guard on the
    active source, the two flags, and the request handed to the client.
    It resumes when the client has answered, on the store as it is by
    then. *)

Definition queryData_start (limit offset : Z) (columns : option (list string))
    (st : State) : State * (exn + Api.QueryRequest) :=
  match activeSource st with
  | None => (st, inl NoActiveSource)
  | Some src =>
      let st := set_loading true st in
      let st := set_error None st in
      (st, inr (Api.mkQueryRequest (source_id src) (activeFilters st)
                  limit offset columns))
  end.

Definition queryData_resume (outcome : Api.Error + Api.QueryResponse)
  : action Api.QueryResponse :=
  try_catch_finally
    (let* response := await outcome in
     let* _ := modify (set_data (Api.data response) (Api.total_rows response)) in
     ret response)
    (fun e => let* _ := modify (set_error (Some (error_text e))) in throw e)
    (set_loading false).

Definition generateChart_start (chartConfig : Api.ChartConfig) (st : State)
  : State * (exn + Api.ChartRequest) :=
  match activeSource st with
  | None => (st, inl NoActiveSource)
  | Some src =>
      let st := set_loading true st in
      let st := set_error None st in
      (st, inr (Api.mkChartRequest (source_id src) chartConfig (activeFilters st)))
  end.

Definition generateChart_resume (chartConfig : Api.ChartConfig)
    (outcome : Api.Error + Api.ChartResponse) : action Api.ChartResponse :=
  try_catch_finally
    (let* response := await outcome in
     let* _ :=
       modify (fun st =>
         set_charts (charts st ++
           [mkChart (Api.resp_chart_id response) (Api.resp_chart_type response)
              (Api.resp_figure response) chartConfig]) st) in
     ret response)
    (fun e => let* _ := modify (set_error (Some (error_text e))) in throw e)
    (set_loading false).

Section WithClient.
(** The actions with nothing happening between the request and the
    answer. *)
Variable api : Api.Client.

Definition queryData (limit offset : Z) (columns : option (list string))
  : action Api.QueryResponse :=
  fun st =>
    match queryData_start limit offset columns st with
    | (st, inl e) => throw e st
    | (st, inr request) => queryData_resume (Api.queryData api request) st
    end.

(** The three filter actions do not await the query they start: what it
    returns or throws is dropped. *)
Definition addFilter (filter : Api.Filter) (st : State) : State :=
  fst (queryData 100 0 None
         (set_activeFilters (activeFilters st ++ [filter]) st)).

(** [splice(index, 1)] at the index the list view passes. *)
Definition removeFilter (index : nat) (st : State) : State :=
  fst (queryData 100 0 None
         (set_activeFilters (delete index (activeFilters st)) st)).

Definition clearFilters (st : State) : State :=
  fst (queryData 100 0 None (set_activeFilters [] st)).

Definition generateChart (chartConfig : Api.ChartConfig)
  : action Api.ChartResponse :=
  fun st =>
    match generateChart_start chartConfig st with
    | (st, inl e) => throw e st
    | (st, inr request) =>
        generateChart_resume chartConfig (Api.generateChart api request) st
    end.
End WithClient.

Definition removeChart (chartId : string) (st : State) : State :=
  set_charts
    (match list_find (fun c => chart_id c = chartId) (charts st) with
     | Some (index, _) => delete index (charts st)
     | None => charts st
     end) st.

Definition clearCharts (st : State) : State := set_charts [] st.

(** [getFilterOptions]: FilterBuilder.vue calls it on the store (l.253),
    and the store does not define it: the state, the getters and the
    actions of dataStore.js are all its members.  The call is a call of
    [undefined] and throws a TypeError.  This is what the [await] of
    [loadFilterOptions] delivers: [None], for a call that threw. *)
Definition getFilterOptions (column : string) : option (list jsval) := None.

End DataStore.

(** ** components/FilterBuilder.vue *)

Module FilterBuilder.
Import JS.

(** The form state: one field per [ref]. *)
Record State := mkState {
  selectedColumn : string;
  selectedOperator : string;
  filterValue : jsval;
  filterValue2 : jsval;
  filterValueText : string;
  filterOptions : list jsval;
  loadingOptions : bool;
  validationError : string
}.

Definition initial : State :=
  mkState "" "" (VStr "") (VStr "") "" [] false "".

(** The three keys of [OPERATORS], which are also the three results of
    [columnDataType]. *)
Inductive SemanticType := numeric | categorical | datetime.

Record OperatorOption := mkOp { value : string; label : string }.

Definition OPERATORS (t : SemanticType) : list OperatorOption :=
  match t with
  | numeric =>
      [ mkOp "eq" "equals (=)";
        mkOp "ne" "not equals (≠)";
        mkOp "gt" "greater than (>)";
        mkOp "lt" "less than (<)";
        mkOp "gte" "greater than or equal (≥)";
        mkOp "lte" "less than or equal (≤)";
        mkOp "between" "between" ]
  | categorical =>
      [ mkOp "eq" "equals";
        mkOp "ne" "not equals";
        mkOp "contains" "contains";
        mkOp "in" "is one of" ]
  | datetime =>
      [ mkOp "eq" "on date";
        mkOp "gt" "after";
        mkOp "lt" "before";
        mkOp "gte" "on or after";
        mkOp "lte" "on or before";
        mkOp "between" "between" ]
  end.

Section WithStore.
(** [dataStore.dataTypes]: column name to declared type; a column that
    is not in the map reads as [undefined]. *)
Variable dataTypes : gmap string string.

Definition columnDataType (s : State) : option SemanticType :=
  if str_truthy (selectedColumn s) then
    let dataType := dataTypes !! selectedColumn s in
    if decide (dataType = Some "numeric") then Some numeric
    else if decide (dataType = Some "datetime"
                    ∨ dataType = Some "datetime_candidate") then Some datetime
    else Some categorical
  else None.

Definition availableOperators (s : State) : list OperatorOption :=
  match columnDataType s with
  | None => []
  | Some t => OPERATORS t
  end.

Definition valueInputType (s : State) : string :=
  match columnDataType s with
  | Some numeric => "number"
  | Some datetime => "date"
  | _ => "text"
  end.

Definition shouldShowDropdown (s : State) : bool :=
  match columnDataType s with
  | Some categorical =>
      String.eqb (selectedOperator s) "eq" || String.eqb (selectedOperator s) "ne"
  | _ => false
  end.
End WithStore.

Definition canApply (s : State) : bool :=
  if negb (str_truthy (selectedColumn s)) || negb (str_truthy (selectedOperator s))
  then false
  else if String.eqb (selectedOperator s) "between" then
    not_empty_string (filterValue s) && not_empty_string (filterValue2 s)
    && negb (str_truthy (validationError s))
  else if String.eqb (selectedOperator s) "in" then
    not_empty_string (filterValue s) || str_truthy (filterValueText s)
  else not_empty_string (filterValue s).

Definition between_error : string := "End value must be greater than start value".

(** The callback of [watch([filterValue, filterValue2], ...)]. *)
Definition watch_values (s : State) : State :=
  if String.eqb (selectedOperator s) "between"
     && truthy (filterValue s) && truthy (filterValue2 s)
  then
    let val1 := parseFloat (filterValue s) in
    let val2 := parseFloat (filterValue2 s) in
    if negb (isNaN val1) && negb (isNaN val2) && leb val2 val1
    then mkState (selectedColumn s) (selectedOperator s) (filterValue s)
           (filterValue2 s) (filterValueText s) (filterOptions s)
           (loadingOptions s) between_error
    else mkState (selectedColumn s) (selectedOperator s) (filterValue s)
           (filterValue2 s) (filterValueText s) (filterOptions s)
           (loadingOptions s) ""
  else s.

(** [loadFilterOptions], given what [dataStore.getFilterOptions] answered:
    [None] when the call threw or answered without a list, in which case
    the options are empty. *)
Definition loadFilterOptions (answer : option (list jsval)) (s : State) : State :=
  if negb (str_truthy (selectedColumn s)) then s
  else
    let options :=
      match answer with
      | Some options => options
      | None => []
      end in
    mkState (selectedColumn s) (selectedOperator s) (filterValue s)
      (filterValue2 s) (filterValueText s) options false (validationError s).

Definition onColumnChange (dataTypes : gmap string string)
    (answer : option (list jsval)) (s : State) : State :=
  let s1 := mkState (selectedColumn s) "" (VStr "") (VStr "") "" [] (loadingOptions s) "" in
  match columnDataType dataTypes s1 with
  | Some categorical => loadFilterOptions answer s1
  | _ => s1
  end.

Definition onOperatorChange (dataTypes : gmap string string)
    (answer : option (list jsval)) (s : State) : State :=
  let s1 := mkState (selectedColumn s) (selectedOperator s) (VStr "") (VStr "") ""
              (filterOptions s) (loadingOptions s) "" in
  if shouldShowDropdown dataTypes s1 && (length (filterOptions s1) =? 0)
  then loadFilterOptions answer s1
  else s1.

(** The list [parseInValues] computes from the text. *)
Definition in_values (text : string) : list string :=
  filter (fun v => str_truthy v = true) (map trim (split "," text)).

Definition parseInValues (s : State) : State :=
  if str_truthy (filterValueText s) then
    mkState (selectedColumn s) (selectedOperator s)
      (VArr (in_values (filterValueText s)))
      (filterValue2 s) (filterValueText s) (filterOptions s)
      (loadingOptions s) (validationError s)
  else s.

(** [applyFilter]: the emitted filter, if any, and the form afterwards. *)
Definition applyFilter (s : State) : option Api.Filter * State :=
  if negb (canApply s) then (None, s)
  else
    let filter :=
      Api.mkFilter (selectedColumn s) (selectedOperator s) (filterValue s)
        (if String.eqb (selectedOperator s) "between"
         then Some (filterValue2 s) else None) in
    (Some filter,
     mkState "" "" (VStr "") (VStr "") "" (filterOptions s) (loadingOptions s) "").

(** *** What the user does in the form

    Each event is the assignment [v-model] makes, then the handler bound
    in the template, then the watcher on the two values.  The watcher runs
    when one of them has been assigned a different value.  The event of
    an input carries the [value] the element reports, which is what
    [v-model] reads; for a number input that is
    [Html.number_input_value] of the text entered. *)

Global Instance number_eq_dec : EqDecision number.
Proof. unfold number. solve_decision. Defined.
Global Instance jsval_eq_dec : EqDecision jsval.
Proof. solve_decision. Defined.

Definition flush (old new : State) : State :=
  if decide (filterValue old = filterValue new ∧ filterValue2 old = filterValue2 new)
  then new else watch_values new.

Definition with_column (c : string) (s : State) : State :=
  mkState c (selectedOperator s) (filterValue s) (filterValue2 s)
    (filterValueText s) (filterOptions s) (loadingOptions s) (validationError s).
Definition with_operator (o : string) (s : State) : State :=
  mkState (selectedColumn s) o (filterValue s) (filterValue2 s)
    (filterValueText s) (filterOptions s) (loadingOptions s) (validationError s).
Definition with_value (v : jsval) (s : State) : State :=
  mkState (selectedColumn s) (selectedOperator s) v (filterValue2 s)
    (filterValueText s) (filterOptions s) (loadingOptions s) (validationError s).
Definition with_value2 (v : jsval) (s : State) : State :=
  mkState (selectedColumn s) (selectedOperator s) (filterValue s) v
    (filterValueText s) (filterOptions s) (loadingOptions s) (validationError s).
Definition with_text (t : string) (s : State) : State :=
  mkState (selectedColumn s) (selectedOperator s) (filterValue s) (filterValue2 s)
    t (filterOptions s) (loadingOptions s) (validationError s).

Inductive Event :=
| SelectColumn (c : string) (answer : option (list jsval))
| SelectOperator (o : string) (answer : option (list jsval))
| TypeValue (text : string)     (* the first, or the only, value input reports [text] *)
| TypeValue2 (text : string)    (* the second input of [between] reports [text] *)
| PickOption (v : jsval)        (* the dropdown of known values *)
| TypeText (text : string)      (* the comma-separated input of [in] *)
| BlurText                      (* leaving that input: [parseInValues] *)
| ClickApply.

(** Which control of the template is shown for the value. *)
Inductive ValueControl :=
| BetweenInputs | InInput | Dropdown | LoadingPlaceholder | FreeText | SingleInput
| NoControl.

Definition valueControl (dataTypes : gmap string string) (s : State) : ValueControl :=
  if negb (str_truthy (selectedOperator s)) then NoControl
  else if String.eqb (selectedOperator s) "between" then BetweenInputs
  else if String.eqb (selectedOperator s) "in" then InInput
  else if shouldShowDropdown dataTypes s then
    if 0 <? length (filterOptions s) then Dropdown
    else if loadingOptions s then LoadingPlaceholder
    else FreeText
  else SingleInput.

(** The columns the selector lists are those of a known type. *)
Definition selectable (dataTypes : gmap string string) (c : string) : bool :=
  match dataTypes !! c with
  | Some t =>
      String.eqb t "numeric" || String.eqb t "categorical"
      || String.eqb t "datetime" || String.eqb t "datetime_candidate"
  | None => false
  end.

(** A control acts only while the template renders it, and a selector
    only takes one of its options (the empty one included). *)
Definition handle (dataTypes : gmap string string) (e : Event) (s : State) : State :=
  match e with
  | SelectColumn c answer =>
      if String.eqb c "" || selectable dataTypes c
      then flush s (onColumnChange dataTypes answer (with_column c s))
      else s
  | SelectOperator o answer =>
      if str_truthy (selectedColumn s)
         && (String.eqb o ""
             || existsb (String.eqb o) (map value (availableOperators dataTypes s)))
      then flush s (onOperatorChange dataTypes answer (with_operator o s))
      else s
  | TypeValue text =>
      match valueControl dataTypes s with
      | BetweenInputs | SingleInput =>
          flush s (with_value (Vue.vmodel_input (valueInputType dataTypes s) text) s)
      | FreeText => flush s (with_value (Vue.vmodel_input "text" text) s)
      | _ => s
      end
  | TypeValue2 text =>
      match valueControl dataTypes s with
      | BetweenInputs =>
          flush s (with_value2 (Vue.vmodel_input (valueInputType dataTypes s) text) s)
      | _ => s
      end
  | PickOption v =>
      match valueControl dataTypes s with
      | Dropdown =>
          if bool_decide (v = VStr "" ∨ v ∈ filterOptions s)
          then flush s (with_value v s) else s
      | _ => s
      end
  | TypeText text =>
      match valueControl dataTypes s with
      | InInput => with_text text s
      | _ => s
      end
  | BlurText =>
      match valueControl dataTypes s with
      | InInput =>
          (* a fresh array is assigned, so the watcher runs whenever the
             assignment is made *)
          if str_truthy (filterValueText s) then watch_values (parseInValues s)
          else s
      | _ => s
      end
  | ClickApply => flush s (snd (applyFilter s))
  end.

Definition run (dataTypes : gmap string string) (es : list Event) (s : State) : State :=
  fold_left (fun st e => handle dataTypes e st) es s.

End FilterBuilder.

(** ** components/ChartConfig.vue, earlier version

    The form before the chart-specific options were added: five fields,
    one Y column. *)

Module ChartConfigV1.
Import JS.

Record State := mkState {
  chartType : string;
  xColumn : string;
  yColumn : string;
  colorColumn : string;
  chartTitle : string
}.

Definition initial : State := mkState "line" "" "" "" "".

Definition canGenerate (s : State) : bool :=
  if String.eqb (chartType s) "heatmap" then true
  else if String.eqb (chartType s) "histogram" then str_truthy (xColumn s)
  else str_truthy (xColumn s) && str_truthy (yColumn s).

End ChartConfigV1.

(** ** components/ChartConfig.vue *)

Module ChartConfig.
Import JS.

Record State := mkState {
  (* core chart config *)
  chartType : string;
  xColumn : string;
  yColumn : string;
  colorColumn : string;
  chartTitle : string;
  (* line chart: multi-Y and secondary axis *)
  yColumns : list string;
  secondaryYColumns : list string;
  (* bar chart options *)
  barMode : string;
  sortOrder : string;
  orientation : string;
  (* scatter options *)
  showTrendline : bool;
  trendlineDegree : Z;
  sizeColumn : string;
  (* histogram options *)
  showDistributionFit : bool;
  showStatistics : bool;
  (* box and violin options *)
  showPoints : bool;
  horizontalOrientation : bool;
  (* heatmap options *)
  heatmapColorscale : string;
  showHeatmapAnnotations : bool
}.

Definition initial : State :=
  mkState "line" "" "" "" "" [] [] "group" "" "v" false 1 "" false false
    false false "RdBu" true.

Definition set_chartType (v : string) (s : State) : State :=
  mkState v (xColumn s) (yColumn s) (colorColumn s) (chartTitle s) (yColumns
    s) (secondaryYColumns s) (barMode s) (sortOrder s) (orientation s)
    (showTrendline s) (trendlineDegree s) (sizeColumn s)
    (showDistributionFit s) (showStatistics s) (showPoints s)
    (horizontalOrientation s) (heatmapColorscale s) (showHeatmapAnnotations
    s).
Definition set_xColumn (v : string) (s : State) : State :=
  mkState (chartType s) v (yColumn s) (colorColumn s) (chartTitle s)
    (yColumns s) (secondaryYColumns s) (barMode s) (sortOrder s)
    (orientation s) (showTrendline s) (trendlineDegree s) (sizeColumn s)
    (showDistributionFit s) (showStatistics s) (showPoints s)
    (horizontalOrientation s) (heatmapColorscale s) (showHeatmapAnnotations
    s).
Definition set_yColumn (v : string) (s : State) : State :=
  mkState (chartType s) (xColumn s) v (colorColumn s) (chartTitle s)
    (yColumns s) (secondaryYColumns s) (barMode s) (sortOrder s)
    (orientation s) (showTrendline s) (trendlineDegree s) (sizeColumn s)
    (showDistributionFit s) (showStatistics s) (showPoints s)
    (horizontalOrientation s) (heatmapColorscale s) (showHeatmapAnnotations
    s).
Definition set_colorColumn (v : string) (s : State) : State :=
  mkState (chartType s) (xColumn s) (yColumn s) v (chartTitle s) (yColumns
    s) (secondaryYColumns s) (barMode s) (sortOrder s) (orientation s)
    (showTrendline s) (trendlineDegree s) (sizeColumn s)
    (showDistributionFit s) (showStatistics s) (showPoints s)
    (horizontalOrientation s) (heatmapColorscale s) (showHeatmapAnnotations
    s).
Definition set_chartTitle (v : string) (s : State) : State :=
  mkState (chartType s) (xColumn s) (yColumn s) (colorColumn s) v (yColumns
    s) (secondaryYColumns s) (barMode s) (sortOrder s) (orientation s)
    (showTrendline s) (trendlineDegree s) (sizeColumn s)
    (showDistributionFit s) (showStatistics s) (showPoints s)
    (horizontalOrientation s) (heatmapColorscale s) (showHeatmapAnnotations
    s).
Definition set_yColumns (v : list string) (s : State) : State :=
  mkState (chartType s) (xColumn s) (yColumn s) (colorColumn s) (chartTitle
    s) v (secondaryYColumns s) (barMode s) (sortOrder s) (orientation s)
    (showTrendline s) (trendlineDegree s) (sizeColumn s)
    (showDistributionFit s) (showStatistics s) (showPoints s)
    (horizontalOrientation s) (heatmapColorscale s) (showHeatmapAnnotations
    s).
Definition set_secondaryYColumns (v : list string) (s : State) : State :=
  mkState (chartType s) (xColumn s) (yColumn s) (colorColumn s) (chartTitle
    s) (yColumns s) v (barMode s) (sortOrder s) (orientation s)
    (showTrendline s) (trendlineDegree s) (sizeColumn s)
    (showDistributionFit s) (showStatistics s) (showPoints s)
    (horizontalOrientation s) (heatmapColorscale s) (showHeatmapAnnotations
    s).
Definition set_barMode (v : string) (s : State) : State :=
  mkState (chartType s) (xColumn s) (yColumn s) (colorColumn s) (chartTitle
    s) (yColumns s) (secondaryYColumns s) v (sortOrder s) (orientation s)
    (showTrendline s) (trendlineDegree s) (sizeColumn s)
    (showDistributionFit s) (showStatistics s) (showPoints s)
    (horizontalOrientation s) (heatmapColorscale s) (showHeatmapAnnotations
    s).
Definition set_sortOrder (v : string) (s : State) : State :=
  mkState (chartType s) (xColumn s) (yColumn s) (colorColumn s) (chartTitle
    s) (yColumns s) (secondaryYColumns s) (barMode s) v (orientation s)
    (showTrendline s) (trendlineDegree s) (sizeColumn s)
    (showDistributionFit s) (showStatistics s) (showPoints s)
    (horizontalOrientation s) (heatmapColorscale s) (showHeatmapAnnotations
    s).
Definition set_orientation (v : string) (s : State) : State :=
  mkState (chartType s) (xColumn s) (yColumn s) (colorColumn s) (chartTitle
    s) (yColumns s) (secondaryYColumns s) (barMode s) (sortOrder s) v
    (showTrendline s) (trendlineDegree s) (sizeColumn s)
    (showDistributionFit s) (showStatistics s) (showPoints s)
    (horizontalOrientation s) (heatmapColorscale s) (showHeatmapAnnotations
    s).
Definition set_showTrendline (v : bool) (s : State) : State :=
  mkState (chartType s) (xColumn s) (yColumn s) (colorColumn s) (chartTitle
    s) (yColumns s) (secondaryYColumns s) (barMode s) (sortOrder s)
    (orientation s) v (trendlineDegree s) (sizeColumn s)
    (showDistributionFit s) (showStatistics s) (showPoints s)
    (horizontalOrientation s) (heatmapColorscale s) (showHeatmapAnnotations
    s).
Definition set_trendlineDegree (v : Z) (s : State) : State :=
  mkState (chartType s) (xColumn s) (yColumn s) (colorColumn s) (chartTitle
    s) (yColumns s) (secondaryYColumns s) (barMode s) (sortOrder s)
    (orientation s) (showTrendline s) v (sizeColumn s) (showDistributionFit
    s) (showStatistics s) (showPoints s) (horizontalOrientation s)
    (heatmapColorscale s) (showHeatmapAnnotations s).
Definition set_sizeColumn (v : string) (s : State) : State :=
  mkState (chartType s) (xColumn s) (yColumn s) (colorColumn s) (chartTitle
    s) (yColumns s) (secondaryYColumns s) (barMode s) (sortOrder s)
    (orientation s) (showTrendline s) (trendlineDegree s) v
    (showDistributionFit s) (showStatistics s) (showPoints s)
    (horizontalOrientation s) (heatmapColorscale s) (showHeatmapAnnotations
    s).
Definition set_showDistributionFit (v : bool) (s : State) : State :=
  mkState (chartType s) (xColumn s) (yColumn s) (colorColumn s) (chartTitle
    s) (yColumns s) (secondaryYColumns s) (barMode s) (sortOrder s)
    (orientation s) (showTrendline s) (trendlineDegree s) (sizeColumn s) v
    (showStatistics s) (showPoints s) (horizontalOrientation s)
    (heatmapColorscale s) (showHeatmapAnnotations s).
Definition set_showStatistics (v : bool) (s : State) : State :=
  mkState (chartType s) (xColumn s) (yColumn s) (colorColumn s) (chartTitle
    s) (yColumns s) (secondaryYColumns s) (barMode s) (sortOrder s)
    (orientation s) (showTrendline s) (trendlineDegree s) (sizeColumn s)
    (showDistributionFit s) v (showPoints s) (horizontalOrientation s)
    (heatmapColorscale s) (showHeatmapAnnotations s).
Definition set_showPoints (v : bool) (s : State) : State :=
  mkState (chartType s) (xColumn s) (yColumn s) (colorColumn s) (chartTitle
    s) (yColumns s) (secondaryYColumns s) (barMode s) (sortOrder s)
    (orientation s) (showTrendline s) (trendlineDegree s) (sizeColumn s)
    (showDistributionFit s) (showStatistics s) v (horizontalOrientation s)
    (heatmapColorscale s) (showHeatmapAnnotations s).
Definition set_horizontalOrientation (v : bool) (s : State) : State :=
  mkState (chartType s) (xColumn s) (yColumn s) (colorColumn s) (chartTitle
    s) (yColumns s) (secondaryYColumns s) (barMode s) (sortOrder s)
    (orientation s) (showTrendline s) (trendlineDegree s) (sizeColumn s)
    (showDistributionFit s) (showStatistics s) (showPoints s) v
    (heatmapColorscale s) (showHeatmapAnnotations s).
Definition set_heatmapColorscale (v : string) (s : State) : State :=
  mkState (chartType s) (xColumn s) (yColumn s) (colorColumn s) (chartTitle
    s) (yColumns s) (secondaryYColumns s) (barMode s) (sortOrder s)
    (orientation s) (showTrendline s) (trendlineDegree s) (sizeColumn s)
    (showDistributionFit s) (showStatistics s) (showPoints s)
    (horizontalOrientation s) v (showHeatmapAnnotations s).
Definition set_showHeatmapAnnotations (v : bool) (s : State) : State :=
  mkState (chartType s) (xColumn s) (yColumn s) (colorColumn s) (chartTitle
    s) (yColumns s) (secondaryYColumns s) (barMode s) (sortOrder s)
    (orientation s) (showTrendline s) (trendlineDegree s) (sizeColumn s)
    (showDistributionFit s) (showStatistics s) (showPoints s)
    (horizontalOrientation s) (heatmapColorscale s) v.

Definition showXAxis (s : State) : bool := negb (String.eqb (chartType s) "heatmap").
Definition showYAxis (s : State) : bool :=
  negb (String.eqb (chartType s) "histogram" || String.eqb (chartType s) "heatmap").
Definition showColor (s : State) : bool := negb (String.eqb (chartType s) "heatmap").
Definition showMultiYSelector (s : State) : bool := String.eqb (chartType s) "line".
Definition showBarOptions (s : State) : bool := String.eqb (chartType s) "bar".
Definition showScatterOptions (s : State) : bool := String.eqb (chartType s) "scatter".
Definition showHistogramOptions (s : State) : bool :=
  String.eqb (chartType s) "histogram".
Definition showBoxViolinOptions (s : State) : bool :=
  String.eqb (chartType s) "box" || String.eqb (chartType s) "violin".
Definition showHeatmapOptions (s : State) : bool := String.eqb (chartType s) "heatmap".

Definition canGenerate (s : State) : bool :=
  if String.eqb (chartType s) "heatmap" then true
  else if String.eqb (chartType s) "histogram" then str_truthy (xColumn s)
  else if String.eqb (chartType s) "line" then
    str_truthy (xColumn s)
    && (str_truthy (yColumn s) || (0 <? length (yColumns s)))
  else str_truthy (xColumn s) && str_truthy (yColumn s).

(** The callback of [watch(yColumns, ...)]; [newVal] is the array just
    assigned. *)
Definition watch_yColumns (s : State) : State :=
  let newVal := yColumns s in
  set_secondaryYColumns
    (filter (fun c => Vue.includes newVal c = true) (secondaryYColumns s)) s.

(** The callback of [watch(chartType, ...)]. *)
Definition watch_chartType (s : State) : State :=
  let s := set_yColumns [] s in
  let s := set_secondaryYColumns [] s in
  let s := set_barMode "group" s in
  let s := set_sortOrder "" s in
  let s := set_orientation "v" s in
  let s := set_showTrendline false s in
  let s := set_trendlineDegree 1 s in
  let s := set_sizeColumn "" s in
  let s := set_showDistributionFit false s in
  let s := set_showStatistics false s in
  let s := set_showPoints false s in
  let s := set_horizontalOrientation false s in
  let s := set_heatmapColorscale "RdBu" s in
  set_showHeatmapAnnotations true s.

Definition set_option (k : string) (v : Api.optval) (c : Api.ChartConfig)
  : Api.ChartConfig :=
  Api.mkConfig (Api.chart_type c) (Api.x_column c) (Api.y_column c)
    (Api.color_column c) (Api.title c) (Api.size_column c)
    (<[k := v]> (Api.options c)).
Definition set_color_column (v : option string) (c : Api.ChartConfig)
  : Api.ChartConfig :=
  Api.mkConfig (Api.chart_type c) (Api.x_column c) (Api.y_column c)
    v (Api.title c) (Api.size_column c) (Api.options c).
Definition set_y_column (v : option string) (c : Api.ChartConfig)
  : Api.ChartConfig :=
  Api.mkConfig (Api.chart_type c) (Api.x_column c) v
    (Api.color_column c) (Api.title c) (Api.size_column c) (Api.options c).
Definition set_size_column (v : option string) (c : Api.ChartConfig)
  : Api.ChartConfig :=
  Api.mkConfig (Api.chart_type c) (Api.x_column c) (Api.y_column c)
    (Api.color_column c) (Api.title c) v (Api.options c).

(** [when b f]: a statement guarded by [if (b)]. *)
Definition when {A} (b : bool) (f : A -> A) (a : A) : A := if b then f a else a.

(** The object [generateChart] builds before it calls the store. *)
Definition generateChart_config (s : State) : Api.ChartConfig :=
  let config :=
    Api.mkConfig (chartType s) (or_null (xColumn s)) (or_null (yColumn s))
      None (or_null (chartTitle s)) None ∅ in
  (* colour column: a numeric colour goes to the options *)
  let config :=
    when (str_truthy (colorColumn s))
      (fun config =>
         if startsWith (colorColumn s) "numeric:"
         then set_option "color_numeric"
                (Api.OStr (replace "numeric:" "" (colorColumn s))) config
         else set_color_column (Some (colorColumn s)) config)
      config in
  (* line chart: multi-Y columns *)
  let config :=
    when (String.eqb (chartType s) "line" && (0 <? length (yColumns s)))
      (fun config =>
         let config := set_option "y_columns" (Api.OList (yColumns s)) config in
         let config := set_y_column (head (yColumns s)) config in
         when (0 <? length (secondaryYColumns s))
           (set_option "secondary_y_columns" (Api.OList (secondaryYColumns s)))
           config)
      config in
  (* bar chart options *)
  let config :=
    when (String.eqb (chartType s) "bar")
      (fun config =>
         let config :=
           when (negb (String.eqb (barMode s) "group"))
             (set_option "bar_mode" (Api.OStr (barMode s))) config in
         let config :=
           when (str_truthy (sortOrder s))
             (set_option "sort_order" (Api.OStr (sortOrder s))) config in
         when (negb (String.eqb (orientation s) "v"))
           (set_option "orientation" (Api.OStr (orientation s))) config)
      config in
  (* scatter options *)
  let config :=
    when (String.eqb (chartType s) "scatter")
      (fun config =>
         let config :=
           when (str_truthy (sizeColumn s))
             (set_size_column (Some (sizeColumn s))) config in
         when (showTrendline s)
           (fun config =>
              set_option "trendline_degree" (Api.ONum (trendlineDegree s))
                (set_option "show_trendline" (Api.OBool true) config))
           config)
      config in
  (* time series *)
  let config :=
    when (String.eqb (chartType s) "time_series" && str_truthy (yColumn s))
      (set_option "value_columns" (Api.OList [yColumn s])) config in
  (* histogram options *)
  let config :=
    when (String.eqb (chartType s) "histogram")
      (fun config =>
         let config :=
           when (showDistributionFit s)
             (set_option "show_distribution_fit" (Api.OBool true)) config in
         when (showStatistics s)
           (set_option "show_statistics" (Api.OBool true)) config)
      config in
  (* box and violin options *)
  let config :=
    when (String.eqb (chartType s) "box" || String.eqb (chartType s) "violin")
      (fun config =>
         let config :=
           when (showPoints s) (set_option "show_points" (Api.OBool true)) config in
         when (horizontalOrientation s)
           (set_option "horizontal" (Api.OBool true)) config)
      config in
  (* heatmap options *)
  when (String.eqb (chartType s) "heatmap")
    (fun config =>
       let config :=
         when (negb (String.eqb (heatmapColorscale s) "RdBu"))
           (set_option "colorscale" (Api.OStr (heatmapColorscale s))) config in
       when (negb (showHeatmapAnnotations s))
         (set_option "show_annotations" (Api.OBool false)) config)
    config.

(** [generateChart]: the form is left as it is, the store does the
    call. *)
Definition generateChart (api : Api.Client) (s : State) (st : DataStore.State)
  : State * (DataStore.State * DataStore.result Api.ChartResponse) :=
  (s, DataStore.generateChart api (generateChart_config s) st).

Definition resetForm (s : State) : State :=
  mkState "line" "" "" "" "" [] [] "group" "" "v" false 1 "" false false
    false false "RdBu" true.

(** [x || ''] for a field of a suggestion that may be [null]. *)
Definition or_empty (x : option string) : string :=
  match x with
  | Some v => v
  | None => ""
  end.

Definition applySuggestion (suggestion : DataStore.Suggestion) (s : State) : State :=
  let s := set_chartType (DataStore.s_chart_type suggestion) s in
  let s := set_xColumn (or_empty (DataStore.s_x_column suggestion)) s in
  let s := set_yColumn (or_empty (DataStore.s_y_column suggestion)) s in
  set_chartTitle (DataStore.s_reason suggestion) s.

(** *** What the user does in the form

    An event is the assignment made by [v-model] or by the click handler,
    followed by the watchers it triggers: the one on [chartType] when the
    chart type is now different, the one on [yColumns] when an array has
    been assigned to it. *)

Definition flush_chartType (old new : State) : State :=
  if decide (chartType old = chartType new) then new
  else watch_yColumns (watch_chartType new).

Inductive Event :=
| SelectChartType (t : string)
| SelectX (c : string)
| SelectY (c : string)
| SelectColor (c : string)
| TypeTitle (t : string)
| TickY (c : string) (checked : bool)      (* a box of the multi-Y selector *)
| TickY2 (c : string) (checked : bool)     (* the Y2 box next to it *)
| SelectBarMode (m : string)
| SelectSortOrder (o : string)
| SelectOrientation (o : string)
| SelectSizeColumn (c : string)
| TickTrendline (b : bool)
| SelectTrendlineDegree (d : Z)
| TickDistributionFit (b : bool)
| TickStatistics (b : bool)
| TickPoints (b : bool)
| TickHorizontal (b : bool)
| SelectColorscale (c : string)
| TickAnnotations (b : bool)
| ClickReset
| ApplySuggestion (suggestion : DataStore.Suggestion).

(** A control acts only while the template renders it ([v-if]). *)
Definition handle (e : Event) (s : State) : State :=
  match e with
  | SelectChartType t => flush_chartType s (set_chartType t s)
  | SelectX c => when (showXAxis s) (set_xColumn c) s
  | SelectY c => when (showYAxis s && negb (showMultiYSelector s)) (set_yColumn c) s
  | SelectColor c => when (showColor s) (set_colorColumn c) s
  | TypeTitle t => set_chartTitle t s
  | TickY c checked =>
      if showMultiYSelector s then
        match Vue.vmodel_checkbox c checked (yColumns s) with
        | Some l => watch_yColumns (set_yColumns l s)
        | None => s
        end
      else s
  | TickY2 c checked =>
      if showMultiYSelector s && Vue.includes (yColumns s) c
         && (2 <=? length (yColumns s))
      then
        match Vue.vmodel_checkbox c checked (secondaryYColumns s) with
        | Some l => set_secondaryYColumns l s
        | None => s
        end
      else s
  | SelectBarMode m => when (showBarOptions s) (set_barMode m) s
  | SelectSortOrder o => when (showBarOptions s) (set_sortOrder o) s
  | SelectOrientation o => when (showBarOptions s) (set_orientation o) s
  | SelectSizeColumn c => when (showScatterOptions s) (set_sizeColumn c) s
  | TickTrendline b => when (showScatterOptions s) (set_showTrendline b) s
  | SelectTrendlineDegree d =>
      when (showScatterOptions s && showTrendline s) (set_trendlineDegree d) s
  | TickDistributionFit b =>
      when (showHistogramOptions s) (set_showDistributionFit b) s
  | TickStatistics b => when (showHistogramOptions s) (set_showStatistics b) s
  | TickPoints b => when (showBoxViolinOptions s) (set_showPoints b) s
  | TickHorizontal b => when (showBoxViolinOptions s) (set_horizontalOrientation b) s
  | SelectColorscale c => when (showHeatmapOptions s) (set_heatmapColorscale c) s
  | TickAnnotations b => when (showHeatmapOptions s) (set_showHeatmapAnnotations b) s
  | ClickReset => watch_yColumns (flush_chartType s (resetForm s))
  | ApplySuggestion suggestion => flush_chartType s (applySuggestion suggestion s)
  end.

Definition run (es : list Event) (s : State) : State :=
  fold_left (fun st e => handle e st) es s.

End ChartConfig.

(** ** stores/dataStore.js: getters *)

Module Getters.
Import JS.

(** A column is its name and the type the source reports for it. *)
Definition declaredType (st : DataStore.State) (col : string * string)
  : option string :=
  DataStore.dataTypes st !! col.1.

Definition numericColumns (st : DataStore.State) : list (string * string) :=
  filter (λ col, declaredType st col = Some "numeric") (DataStore.columns st).

Definition categoricalColumns (st : DataStore.State) : list (string * string) :=
  filter (λ col, declaredType st col = Some "categorical") (DataStore.columns st).

Definition datetimeColumns (st : DataStore.State) : list (string * string) :=
  filter (λ col, declaredType st col = Some "datetime"
                 ∨ declaredType st col = Some "datetime_candidate")
    (DataStore.columns st).

Definition hasActiveSource (st : DataStore.State) : bool :=
  match DataStore.activeSource st with
  | Some _ => true
  | None => false
  end.

End Getters.

(** ** components/ActiveFilter.vue *)

Module ActiveFilter.
Import JS.

(** [filterType]: the class of the tag, from the declared type of the
    filter's column. *)
Definition filterType (dataTypes : gmap string string) (filter : Api.Filter)
  : FilterBuilder.SemanticType :=
  match dataTypes !! Api.column filter with
  | None => FilterBuilder.categorical
  | Some dataType =>
      if negb (str_truthy dataType) then FilterBuilder.categorical
      else if String.eqb dataType "numeric" then FilterBuilder.numeric
      else if String.eqb dataType "datetime"
              || String.eqb dataType "datetime_candidate"
      then FilterBuilder.datetime
      else FilterBuilder.categorical
  end.

(** The own properties of [OPERATOR_LABELS]. *)
Definition OPERATOR_LABELS : gmap string string :=
  {[ "eq" := "=";
     "ne" := "≠";
     "gt" := ">";
     "lt" := "<";
     "gte" := "≥";
     "lte" := "≤";
     "contains" := "contains";
     "in" := "in";
     "between" := "between" ]}.

(** [OPERATOR_LABELS[operator] || operator] *)
Definition operatorLabel (filter : Api.Filter) : string :=
  match OPERATOR_LABELS !! Api.operator filter with
  | Some l => if str_truthy l then l else Api.operator filter
  | None => Api.operator filter
  end.

Section WithNumberFormat.
(** How a number prints is left to the engine. *)
Variable number_toString : number → string.

(** The string a value becomes inside a template literal. *)
Definition toString (v : jsval) : string :=
  match v with
  | VStr s => s
  | VNum x => number_toString x
  | VArr l => join "," l
  end.

(** [valueDisplay]: a text for a range and for a list, the value itself
    otherwise. *)
Definition valueDisplay (filter : Api.Filter) : jsval :=
  match String.eqb (Api.operator filter) "between", Api.value2 filter with
  | true, Some value2 =>
      VStr (toString (Api.value filter) +:+ " and " +:+ toString value2)
  | _, _ =>
      match String.eqb (Api.operator filter) "in", Api.value filter with
      | true, VArr l => VStr (join ", " l)
      | _, _ => Api.value filter
      end
  end.
End WithNumberFormat.

End ActiveFilter.

(** ** components/FilterPanel.vue *)

Module FilterPanel.

Record State := mkState {
  isExpanded : bool;
  showFilterBuilder : bool
}.

Definition initial : State := mkState true false.

Definition activeFilterCount (st : DataStore.State) : nat :=
  length (DataStore.activeFilters st).

Definition toggleExpand (p : State) : State :=
  mkState (negb (isExpanded p)) (showFilterBuilder p).

Section WithClient.
Variable api : Api.Client.

Definition handleAddFilter (filter : Api.Filter) (p : State) (st : DataStore.State)
  : State * DataStore.State :=
  (mkState (isExpanded p) false, DataStore.addFilter api filter st).

Definition handleRemoveFilter (index : nat) (p : State) (st : DataStore.State)
  : State * DataStore.State :=
  (p, DataStore.removeFilter api index st).

(** [handleClearAll]; [confirm n] is what the user answers when asked
    about clearing [n] filters. *)
Definition handleClearAll (confirm : nat → bool) (p : State) (st : DataStore.State)
  : State * DataStore.State :=
  if (3 <? activeFilterCount st) && negb (confirm (activeFilterCount st))
  then (p, st)
  else (p, DataStore.clearFilters api st).

(** The Apply button of the builder, with the panel listening to the
    [add] event. *)
Definition applyAndAdd (b : FilterBuilder.State) (p : State) (st : DataStore.State)
  : FilterBuilder.State * (State * DataStore.State) :=
  match FilterBuilder.applyFilter b with
  | (Some filter, b') => (FilterBuilder.flush b b', handleAddFilter filter p st)
  | (None, b') => (FilterBuilder.flush b b', (p, st))
  end.
End WithClient.

End FilterPanel.

(** ** components/ChartView.vue *)

Module ChartView.
Import JS.

(** [\w] *)
Definition isWordChar (c : ascii) : bool :=
  let n := N_of_ascii c in
  ((48 <=? n) && (n <=? 57) || (65 <=? n) && (n <=? 90)
   || (97 <=? n) && (n <=? 122) || (n =? 95))%N.

(** [toUpperCase] on one character matched by [\w]. *)
Definition toUpperCase (c : ascii) : ascii :=
  let n := N_of_ascii c in
  if ((97 <=? n) && (n <=? 122))%N then ascii_of_N (n - 32) else c.

(** [.replace(/_/g, ' ')] *)
Fixpoint underscores_to_spaces (s : string) : string :=
  match s with
  | EmptyString => EmptyString
  | String c r =>
      String (if Ascii.eqb c "_" then " "%char else c) (underscores_to_spaces r)
  end.

(** [.replace(/\b\w/g, l => l.toUpperCase())]: a word character is put in
    upper case when the character before it is not a word character. *)
Fixpoint capitalize_words (after_word : bool) (s : string) : string :=
  match s with
  | EmptyString => EmptyString
  | String c r =>
      String (if isWordChar c && negb after_word then toUpperCase c else c)
        (capitalize_words (isWordChar c) r)
  end.

Definition formatChartType (type : string) : string :=
  capitalize_words false (underscores_to_spaces type).

(** The heading of a chart: [chart.config.title || formatChartType(...)]. *)
Definition heading (chart : DataStore.Chart) : string :=
  match Api.title (DataStore.config chart) with
  | Some t => if str_truthy t then t else formatChartType (DataStore.chart_type chart)
  | None => formatChartType (DataStore.chart_type chart)
  end.

Definition removeChart (chart : DataStore.Chart) (st : DataStore.State)
  : DataStore.State :=
  DataStore.removeChart (DataStore.chart_id chart) st.

End ChartView.

(** ** stores/dataStore.js: loading a source *)

Module Sources.
Import JS DataStore.

(** A file as the front end sees it: a name and a body it does not
    read. *)
Record File := mkFile {
  file_name : string;
  file_body : string
}.

(** The object the connection form edits and sends. *)
Record DbConfig := mkDbConfig {
  server : string;
  database : string;
  username : string;
  password : string;
  use_windows_auth : bool;
  port : Z
}.

Record UploadResponse := mkUploadResponse {
  up_source_id : string;
  up_filename : string;
  up_columns : list (string * string);
  up_preview : list string;
  up_rows : Z
}.

Record ConnectResponse := mkConnectResponse {
  tables : list string
}.

(** [row_count] may be missing. *)
Record SchemaResponse := mkSchemaResponse {
  sc_source_id : string;
  sc_table_name : string;
  sc_columns : list (string * string);
  sc_row_count : option Z
}.

Record ColumnsResponse := mkColumnsResponse {
  data_types : gmap string string
}.

Record SuggestionsResponse := mkSuggestionsResponse {
  suggestions : list Suggestion
}.

(** The calls of services/api.js used to load a source. *)
Record Client := mkClient {
  uploadCSV_call : File -> Api.Error + UploadResponse;
  connectDatabase_call : DbConfig -> Api.Error + ConnectResponse;
  getTableSchema_call : string -> DbConfig -> Api.Error + SchemaResponse;
  getColumns_call : string -> Api.Error + ColumnsResponse;
  getChartSuggestions_call : string -> Api.Error + SuggestionsResponse;
  getSummaryStats_call : string -> Api.Error + string
}.

Definition set_activeSource (src : option Source) (st : State) : State :=
  mkState src (currentData st) (totalRows st) (columns st)
    (dataTypes st) (activeFilters st) (charts st) (loading st) (error st)
    (chartSuggestions st).
Definition set_columns (cs : list (string * string)) (st : State) : State :=
  mkState (activeSource st) (currentData st) (totalRows st) cs
    (dataTypes st) (activeFilters st) (charts st) (loading st) (error st)
    (chartSuggestions st).
Definition set_currentData (d : list string) (st : State) : State :=
  mkState (activeSource st) d (totalRows st) (columns st)
    (dataTypes st) (activeFilters st) (charts st) (loading st) (error st)
    (chartSuggestions st).
Definition set_totalRows (n : Z) (st : State) : State :=
  mkState (activeSource st) (currentData st) n (columns st)
    (dataTypes st) (activeFilters st) (charts st) (loading st) (error st)
    (chartSuggestions st).
Definition set_dataTypes (t : gmap string string) (st : State) : State :=
  mkState (activeSource st) (currentData st) (totalRows st) (columns st)
    t (activeFilters st) (charts st) (loading st) (error st)
    (chartSuggestions st).
Definition set_chartSuggestions (l : list Suggestion) (st : State) : State :=
  mkState (activeSource st) (currentData st) (totalRows st) (columns st)
    (dataTypes st) (activeFilters st) (charts st) (loading st) (error st) l.

Section WithClients.
(** The actions, with nothing happening between a request and its
    answer. *)
Variable api : Api.Client.
Variable sources : Client.

(** [fetchDataTypes]: a failure is logged and nothing else. *)
Definition fetchDataTypes : action unit :=
  fun st =>
    match activeSource st with
    | None => ret tt st
    | Some src =>
        match getColumns_call sources (source_id src) with
        | inr response => modify (set_dataTypes (data_types response)) st
        | inl _ => ret tt st
        end
    end.

(** [fetchChartSuggestions]: likewise. *)
Definition fetchChartSuggestions : action unit :=
  fun st =>
    match activeSource st with
    | None => ret tt st
    | Some src =>
        match getChartSuggestions_call sources (source_id src) with
        | inr response => modify (set_chartSuggestions (suggestions response)) st
        | inl _ => ret tt st
        end
    end.

Definition uploadCSV (file : File) : action UploadResponse :=
  let* _ := modify (set_loading true) in
  let* _ := modify (set_error None) in
  try_catch_finally
    (let* response := await (uploadCSV_call sources file) in
     let* _ :=
       modify (set_activeSource
                 (Some (mkSource (up_source_id response) "csv"
                          (up_filename response)))) in
     let* _ := modify (set_columns (up_columns response)) in
     let* _ := modify (set_currentData (up_preview response)) in
     let* _ := modify (set_totalRows (up_rows response)) in
     let* _ := fetchDataTypes in
     let* _ := fetchChartSuggestions in
     ret response)
    (fun e => let* _ := modify (set_error (Some (error_text e))) in throw e)
    (set_loading false).

Definition connectDatabase (config : DbConfig) : action ConnectResponse :=
  let* _ := modify (set_loading true) in
  let* _ := modify (set_error None) in
  try_catch_finally
    (let* response := await (connectDatabase_call sources config) in
     ret response)
    (fun e => let* _ := modify (set_error (Some (error_text e))) in throw e)
    (set_loading false).

(** [response.row_count || 0] *)
Definition row_count_or_zero (n : option Z) : Z :=
  match n with
  | Some n => n
  | None => 0
  end.

Definition selectTable (tableName : string) (config : DbConfig)
  : action SchemaResponse :=
  let* _ := modify (set_loading true) in
  let* _ := modify (set_error None) in
  try_catch_finally
    (let* response := await (getTableSchema_call sources tableName config) in
     let* _ :=
       modify (set_activeSource
                 (Some (mkSource (sc_source_id response) "sql_server"
                          (sc_table_name response)))) in
     let* _ := modify (set_columns (sc_columns response)) in
     let* _ := modify (set_totalRows (row_count_or_zero (sc_row_count response))) in
     let* _ := queryData api 100 0 None in
     let* _ := fetchDataTypes in
     let* _ := fetchChartSuggestions in
     ret response)
    (fun e => let* _ := modify (set_error (Some (error_text e))) in throw e)
    (set_loading false).

Definition getSummaryStats : action string :=
  fun st =>
    match activeSource st with
    | None => throw NoActiveSource st
    | Some src =>
        try_catch_finally
          (let* response := await (getSummaryStats_call sources (source_id src)) in
           ret response)
          (fun e => let* _ := modify (set_error (Some (error_text e))) in throw e)
          (fun st => st) st
    end.
End WithClients.

(** [reset]: everything but the loading flag. *)
Definition reset (st : State) : State :=
  mkState None [] 0 [] ∅ [] [] (loading st) None [].

End Sources.

(** ** components/FileUpload.vue *)

Module FileUpload.
Import JS.

Record State := mkState {
  isDragging : bool;
  uploading : bool;
  error : option string;
  uploadedFile : option string;
  totalRows : Z
}.

Definition initial : State := mkState false false None None 0.

(** [s.endsWith(suffix)] *)
Definition endsWith (s suffix : string) : bool :=
  let n := String.length s in
  let m := String.length suffix in
  (m <=? n) && String.eqb (String.substring (n - m) m s) suffix.

(** [err.message] of what a store action threw. *)
Definition message (e : DataStore.exn) : string :=
  match e with
  | DataStore.NoActiveSource => "No active data source"
  | DataStore.Rejected e => Api.message e
  end.

(** [err.message || fallback] *)
Definition message_or (e : DataStore.exn) (fallback : string) : string :=
  if str_truthy (message e) then message e else fallback.

Section WithClient.
Variable sources : Sources.Client.

Definition uploadFile (file : Sources.File) (u : State) (st : DataStore.State)
  : State * DataStore.State :=
  match Sources.uploadCSV sources file st with
  | (st', DataStore.Return response) =>
      (mkState (isDragging u) false None (Some (Sources.file_name file))
         (Sources.up_rows response), st')
  | (st', DataStore.Throw err) =>
      (mkState (isDragging u) false (Some (message_or err "Error uploading file"))
         (uploadedFile u) (totalRows u), st')
  end.

(** [handleFileSelect]: [file] is [event.target.files[0]]. *)
Definition handleFileSelect (file : option Sources.File) (u : State)
    (st : DataStore.State) : State * DataStore.State :=
  match file with
  | Some file => uploadFile file u st
  | None => (u, st)
  end.

(** [handleDrop]: [file] is [event.dataTransfer.files[0]]. *)
Definition handleDrop (file : option Sources.File) (u : State)
    (st : DataStore.State) : State * DataStore.State :=
  let u := mkState false (uploading u) (error u) (uploadedFile u) (totalRows u) in
  match file with
  | Some file =>
      if endsWith (Sources.file_name file) ".csv" then uploadFile file u st
      else (mkState (isDragging u) (uploading u) (Some "Please upload a CSV file")
              (uploadedFile u) (totalRows u), st)
  | None =>
      (mkState (isDragging u) (uploading u) (Some "Please upload a CSV file")
         (uploadedFile u) (totalRows u), st)
  end.
End WithClient.

End FileUpload.

(** ** components/DatabaseConnect.vue *)

Module DatabaseConnect.
Import JS.

Record State := mkState {
  config : Sources.DbConfig;
  connecting : bool;
  error : option string;
  tables : list string;
  selectedTable : string
}.

Definition initial : State :=
  mkState (Sources.mkDbConfig "" "" "" "" false 1433) false None [] "".

(** [canConnect]: [false], [true], or the string that
    [username && password] evaluates to. *)
Definition canConnect (s : State) : bool + string :=
  let c := config s in
  if negb (str_truthy (Sources.server c)) || negb (str_truthy (Sources.database c))
  then inl false
  else if negb (Sources.use_windows_auth c) then
    inr (if str_truthy (Sources.username c) then Sources.password c
         else Sources.username c)
  else inl true.

Definition truthy (v : bool + string) : bool :=
  match v with
  | inl b => b
  | inr s => str_truthy s
  end.

(** The Connect button is disabled by [connecting || !canConnect]. *)
Definition connectEnabled (s : State) : bool :=
  negb (connecting s || negb (truthy (canConnect s))).

Section WithClients.
Variable api : Api.Client.
Variable sources : Sources.Client.

Definition connect (s : State) (st : DataStore.State) : State * DataStore.State :=
  match Sources.connectDatabase sources (config s) st with
  | (st', DataStore.Return response) =>
      (mkState (config s) false None (Sources.tables response) (selectedTable s), st')
  | (st', DataStore.Throw err) =>
      (mkState (config s) false
         (Some (FileUpload.message_or err "Connection failed"))
         (tables s) (selectedTable s), st')
  end.

Definition loadTable (s : State) (st : DataStore.State) : State * DataStore.State :=
  if negb (str_truthy (selectedTable s)) then (s, st)
  else
    match Sources.selectTable api sources (selectedTable s) (config s) st with
    | (st', DataStore.Return _) => (s, st')
    | (st', DataStore.Throw err) =>
        (mkState (config s) (connecting s)
           (Some (FileUpload.message_or err "Error loading table"))
           (tables s) (selectedTable s), st')
    end.
End WithClients.

End DatabaseConnect.

(** ** Definitions used in the statements *)

(** The columns of the scenarios: a number, a category and a date. *)
Definition example_dataTypes : gmap string string :=
  {[ "age" := "numeric"; "city" := "categorical"; "when" := "datetime" ]}.


(** The earlier form seen as a state of the current one: it has no
    multi-Y selection and every option at its initial value. *)
Definition of_v1 (v : ChartConfigV1.State) : ChartConfig.State :=
  ChartConfig.mkState (ChartConfigV1.chartType v) (ChartConfigV1.xColumn v)
    (ChartConfigV1.yColumn v) (ChartConfigV1.colorColumn v)
    (ChartConfigV1.chartTitle v) [] [] "group" "" "v" false 1 "" false false
    false false "RdBu" true.

(** The secondary-axis columns are among the Y columns. *)
Definition secondary_within (s : ChartConfig.State) : Prop :=
  ChartConfig.secondaryYColumns s ⊆ ChartConfig.yColumns s.

(** What a configuration says about colour. *)
Definition colour_is (categorical : option string) (numeric : option Api.optval)
    (c : Api.ChartConfig) : Prop :=
  Api.color_column c = categorical ∧ Api.options c !! "color_numeric" = numeric.

(** The store after a rejected call: the message is recorded, the
    loading flag is down, nothing else has moved. *)
Definition after_rejection (e : Api.Error) (st : DataStore.State) : DataStore.State :=
  DataStore.set_loading false
    (DataStore.set_error (Some (DataStore.error_text (DataStore.Rejected e))) st).

(** The operator chosen in the filter form is one offered for the
    column chosen, or none is chosen. *)
Definition operator_offered (dataTypes : gmap string string)
    (s : FilterBuilder.State) : Prop :=
  FilterBuilder.selectedOperator s = ""
  ∨ (FilterBuilder.selectedColumn s ≠ ""
     ∧ FilterBuilder.selectedOperator s
       ∈ map FilterBuilder.value (FilterBuilder.availableOperators dataTypes s)).

(** A value as [parseInValues] keeps it: not empty, no comma, nothing to
    trim. *)
Definition clean (v : string) : Prop :=
  v ≠ "" ∧ (","%char ∉ String.list_ascii_of_string v) ∧ JS.trim v = v.

(** The keys of the options bag that [generateChart] writes for a chart
    type, and the one of the numeric colour. *)
Definition option_of_chart_type (t k : string) : Prop :=
  k = "color_numeric"
  ∨ (t = "line" ∧ (k = "y_columns" ∨ k = "secondary_y_columns"))
  ∨ (t = "bar" ∧ (k = "bar_mode" ∨ k = "sort_order" ∨ k = "orientation"))
  ∨ (t = "scatter" ∧ (k = "show_trendline" ∨ k = "trendline_degree"))
  ∨ (t = "time_series" ∧ k = "value_columns")
  ∨ (t = "histogram" ∧ (k = "show_distribution_fit" ∨ k = "show_statistics"))
  ∨ ((t = "box" ∨ t = "violin") ∧ (k = "show_points" ∨ k = "horizontal"))
  ∨ (t = "heatmap" ∧ (k = "colorscale" ∨ k = "show_annotations")).

(** A configuration with nothing that belongs to another chart type. *)
Definition config_within (t : string) (c : Api.ChartConfig) : Prop :=
  (∀ k, is_Some (Api.options c !! k) → option_of_chart_type t k)
  ∧ (is_Some (Api.size_column c) → t = "scatter").

(** What a configuration says about the Y columns. *)
Definition y_columns_are (y : option string) (ys secondary : option Api.optval)
    (c : Api.ChartConfig) : Prop :=
  Api.y_column c = y
  ∧ Api.options c !! "y_columns" = ys
  ∧ Api.options c !! "secondary_y_columns" = secondary.

(** An event of the filter form with the answer this store gives when
    the form asks it for the known values of a column. *)
Definition answered_by_the_store (e : FilterBuilder.Event) : Prop :=
  match e with
  | FilterBuilder.SelectColumn c answer => answer = DataStore.getFilterOptions c
  | FilterBuilder.SelectOperator _ answer =>
      ∃ c, answer = DataStore.getFilterOptions c
  | _ => True
  end.

(** The validation message of the filter form is empty, or it is the one
    of [between] while [between] is chosen. *)
Definition message_is_for_between (s : FilterBuilder.State) : Prop :=
  FilterBuilder.validationError s = ""
  ∨ (FilterBuilder.selectedOperator s = "between"
     ∧ FilterBuilder.validationError s = FilterBuilder.between_error).

(** The filter form right after [between] has been chosen for a column:
    no value entered yet, no message. *)
Definition between_just_chosen (s : FilterBuilder.State) : Prop :=
  FilterBuilder.selectedColumn s ≠ ""
  ∧ FilterBuilder.selectedOperator s = "between"
  ∧ FilterBuilder.filterValue s = JS.VStr ""
  ∧ FilterBuilder.filterValue2 s = JS.VStr ""
  ∧ FilterBuilder.validationError s = "".

(** What the watcher of the two values decides for a pair it looks at. *)
Definition between_refused (v1 v2 : JS.jsval) : bool :=
  JS.truthy v1 && JS.truthy v2
  && negb (JS.isNaN (JS.parseFloat v1)) && negb (JS.isNaN (JS.parseFloat v2))
  && JS.leb (JS.parseFloat v2) (JS.parseFloat v1).

(** * Properties *)

(** ** Facts about the built-ins *)

Section BuiltIns.
Import JS.

Lemma str_truthy_true (s : string) : str_truthy s = true ↔ s ≠ "".
Proof.
  unfold str_truthy. rewrite negb_true_iff. apply String.eqb_neq.
Qed.

Lemma str_truthy_false (s : string) : str_truthy s = false ↔ s = "".
Proof.
  unfold str_truthy. rewrite negb_false_iff. apply String.eqb_eq.
Qed.

Lemma not_empty_string_true (v : jsval) : not_empty_string v = true ↔ v ≠ VStr "".
Proof.
  destruct v as [s| |]; simpl; [|split; [discriminate|reflexivity]..].
  rewrite negb_true_iff, String.eqb_neq. split; congruence.
Qed.

Lemma or_null_Some (s : string) : s ≠ "" → or_null s = Some s.
Proof. intros H. unfold or_null. by rewrite (proj2 (str_truthy_true s) H). Qed.

Lemma append_nil (s : string) : "" +:+ s = s.
Proof. reflexivity. Qed.

Lemma append_cons (c : ascii) (p s : string) :
  String c p +:+ s = String c (p +:+ s).
Proof. reflexivity. Qed.

Lemma prefix_app (p s : string) : String.prefix p (p +:+ s) = true.
Proof.
  induction p as [|c p IH].
  - rewrite append_nil. by destruct s.
  - rewrite append_cons. cbn [String.prefix].
    destruct (Ascii.ascii_dec c c); [exact IH | contradiction].
Qed.

Lemma drop_chars_app (p s : string) : drop_chars (String.length p) (p +:+ s) = s.
Proof.
  induction p as [|c p IH].
  - rewrite append_nil. by destruct s.
  - rewrite append_cons. exact IH.
Qed.

(** Replacing a prefix by the empty string leaves the rest. *)
Lemma replace_prefix (p s : string) : replace p "" (p +:+ s) = s.
Proof.
  pose proof (prefix_app p s) as Hp. pose proof (drop_chars_app p s) as Hd.
  destruct (p +:+ s) eqn:E; cbn [replace]; rewrite Hp, Hd; apply append_nil.
Qed.

Lemma includes_elem_of (l : list string) (x : string) :
  Vue.includes l x = true ↔ x ∈ l.
Proof.
  unfold Vue.includes. rewrite existsb_exists. split.
  - intros (y & Hy & Heq). apply String.eqb_eq in Heq. subst.
    by apply list_elem_of_In.
  - intros H. exists x. split; [by apply list_elem_of_In | apply String.eqb_refl].
Qed.

(** On numbers other than NaN, [<] is the negation of [>=]. *)
Lemma ltb_not_leb (a b : number) :
  isNaN a = false → isNaN b = false → ltb a b = negb (leb b a).
Proof.
  unfold ltb, leb, SFltb, SFleb.
  destruct a as [sa|sa| |sa ma ea], b as [sb|sb| |sb mb eb];
    simpl; try discriminate; intros _ _;
    try (by destruct sa); try (by destruct sb); try (by destruct sa, sb).
  destruct sa, sb; try reflexivity;
    rewrite (Z.compare_antisym ea eb); destruct (ea ?= eb)%Z; simpl;
    try reflexivity;
    change (PosDef.Pos.compare_cont Eq mb ma) with (Pos.compare_cont Eq mb ma);
    change (PosDef.Pos.compare_cont Eq ma mb) with (Pos.compare_cont Eq ma mb);
    rewrite (ZC4 mb ma); destruct (Pos.compare_cont Eq ma mb); reflexivity.
Qed.
End BuiltIns.

(** ** FilterBuilder: operators offered for a column *)

Section Operators.
Import JS FilterBuilder.

Lemma OPERATORS_NoDup (t : SemanticType) : NoDup (map value (OPERATORS t)).
Proof. destruct t; apply (bool_decide_unpack _); vm_compute; reflexivity. Qed.
End Operators.

(** C1. For a selected column, the operators offered are those of the
    table entry of its semantic type, in the order of the table and
    without repetition; and the semantic type is a total function of the
    declared type: ["numeric"] gives numeric, ["datetime"] and
    ["datetime_candidate"] give datetime, anything else (a missing
    declaration included) gives categorical. *)
Theorem operators_follow_semantic_type
    (dataTypes : gmap string string) (s : FilterBuilder.State) :
  FilterBuilder.selectedColumn s ≠ "" →
  let declared := dataTypes !! FilterBuilder.selectedColumn s in
  let semantic := FilterBuilder.columnDataType dataTypes s in
  let offered :=
    map FilterBuilder.value (FilterBuilder.availableOperators dataTypes s) in
  NoDup offered
  ∧ (declared = Some "numeric" →
       semantic = Some FilterBuilder.numeric
       ∧ offered = ["eq"; "ne"; "gt"; "lt"; "gte"; "lte"; "between"])
  ∧ (declared = Some "datetime" ∨ declared = Some "datetime_candidate" →
       semantic = Some FilterBuilder.datetime
       ∧ offered = ["eq"; "gt"; "lt"; "gte"; "lte"; "between"])
  ∧ (declared ≠ Some "numeric" → declared ≠ Some "datetime" →
     declared ≠ Some "datetime_candidate" →
       semantic = Some FilterBuilder.categorical
       ∧ offered = ["eq"; "ne"; "contains"; "in"]).
Proof.
  intros Hcol declared semantic offered.
  subst semantic offered. unfold FilterBuilder.availableOperators.
  unfold FilterBuilder.columnDataType.
  rewrite (proj2 (str_truthy_true _) Hcol). fold declared.
  split; [|split; [|split]].
  - repeat case_decide; apply OPERATORS_NoDup.
  - intros Hn. rewrite decide_True by done. done.
  - intros Hd. rewrite decide_False by (destruct Hd as [Hd|Hd]; rewrite Hd; done).
    rewrite decide_True by done. done.
  - intros H1 H2 H3. rewrite decide_False by done.
    rewrite decide_False by (intros [?|?]; done). done.
Qed.

Lemma operators_follow_semantic_type_witness :
  FilterBuilder.columnDataType {[ "age" := "numeric" ]}
    (FilterBuilder.with_column "age" FilterBuilder.initial)
  = Some FilterBuilder.numeric
  ∧ map FilterBuilder.value
      (FilterBuilder.availableOperators {[ "age" := "numeric" ]}
         (FilterBuilder.with_column "age" FilterBuilder.initial))
    = ["eq"; "ne"; "gt"; "lt"; "gte"; "lte"; "between"].
Proof.
  apply (operators_follow_semantic_type {[ "age" := "numeric" ]}
           (FilterBuilder.with_column "age" FilterBuilder.initial)).
  - simpl. discriminate.
  - reflexivity.
Defined.

(** ** FilterBuilder: validation of [between] and the apply gate *)

Section BetweenValidation.
Import JS FilterBuilder.

Lemma truthy_not_empty_string (v : jsval) :
  truthy v = true → not_empty_string v = true.
Proof. destruct v as [s|x|l]; simpl; [done | intros _; done..]. Qed.

Lemma truthy_text (t : string) : t ≠ "" → truthy (VStr t) = true.
Proof. intros H. simpl. by apply str_truthy_true. Qed.

(** The watcher writes [validationError] and nothing else. *)
Lemma watch_values_frame (s : State) :
  selectedColumn (watch_values s) = selectedColumn s
  ∧ selectedOperator (watch_values s) = selectedOperator s
  ∧ filterValue (watch_values s) = filterValue s
  ∧ filterValue2 (watch_values s) = filterValue2 s
  ∧ filterValueText (watch_values s) = filterValueText s.
Proof.
  unfold watch_values.
  destruct (String.eqb _ _ && _ && _); [|done].
  destruct (negb _ && _ && _); done.
Qed.

(** With [between] chosen and two truthy values, the watcher sets the
    error exactly when both parse and the second is at most the first. *)
Lemma watch_values_between (s : State) :
  selectedOperator s = "between" →
  truthy (filterValue s) = true → truthy (filterValue2 s) = true →
  validationError (watch_values s) =
    if negb (isNaN (parseFloat (filterValue s)))
       && negb (isNaN (parseFloat (filterValue2 s)))
       && leb (parseFloat (filterValue2 s)) (parseFloat (filterValue s))
    then between_error else "".
Proof.
  intros Hop H1 H2. unfold watch_values.
  rewrite Hop, H1, H2. simpl.
  destruct (negb _ && _ && _); reflexivity.
Qed.

(** A value the watcher sees as falsy switches the validation off. *)
Lemma watch_values_falsy (s : State) :
  truthy (filterValue s) = false ∨ truthy (filterValue2 s) = false →
  watch_values s = s.
Proof.
  intros H. unfold watch_values.
  destruct H as [-> | ->]; by rewrite ?andb_false_r.
Qed.

Lemma canApply_between (s : State) :
  selectedColumn s ≠ "" → selectedOperator s = "between" →
  canApply s =
    not_empty_string (filterValue s) && not_empty_string (filterValue2 s)
    && negb (str_truthy (validationError s)).
Proof.
  intros Hc Ho. unfold canApply.
  rewrite (proj2 (str_truthy_true _) Hc), Ho. reflexivity.
Qed.

(** The validation rule, for every pair of values the watcher sees as
    entered (truthy): two numbers with [value2 <= value] set the error
    and close the gate, two numbers with [value < value2] clear the
    error and open it. *)
Lemma between_validated_when_truthy (s : State) :
  selectedColumn s ≠ "" → selectedOperator s = "between" →
  truthy (filterValue s) = true → truthy (filterValue2 s) = true →
  isNaN (parseFloat (filterValue s)) = false →
  isNaN (parseFloat (filterValue2 s)) = false →
  let val1 := parseFloat (filterValue s) in
  let val2 := parseFloat (filterValue2 s) in
  let s' := watch_values s in
  (leb val2 val1 = true → validationError s' = between_error ∧ canApply s' = false)
  ∧ (ltb val1 val2 = true → validationError s' = "" ∧ canApply s' = true).
Proof.
  intros Hc Ho H1 H2 N1 N2 val1 val2 s'. subst val1 val2.
  destruct (watch_values_frame s) as (Fc & Fo & F1 & F2 & _).
  pose proof (watch_values_between s Ho H1 H2) as He.
  fold s' in Fc, Fo, F1, F2, He.
  rewrite N1, N2 in He. cbn [negb andb] in He.
  assert (Hgate : canApply s' = negb (str_truthy (validationError s'))).
  { rewrite canApply_between by congruence. rewrite F1, F2.
    by rewrite !truthy_not_empty_string. }
  split.
  - intros Hle. rewrite Hle in He. rewrite Hgate, He. done.
  - intros Hlt. rewrite (ltb_not_leb _ _ N1 N2) in Hlt.
    apply negb_true_iff in Hlt. rewrite Hlt in He. rewrite Hgate, He. done.
Qed.

(** In particular for text: a non-empty string is truthy. *)
Corollary between_validated_on_text (s : State) (t1 t2 : string) :
  selectedColumn s ≠ "" → selectedOperator s = "between" →
  filterValue s = VStr t1 → filterValue2 s = VStr t2 → t1 ≠ "" → t2 ≠ "" →
  isNaN (parseFloat_str t1) = false → isNaN (parseFloat_str t2) = false →
  let s' := watch_values s in
  (leb (parseFloat_str t2) (parseFloat_str t1) = true →
     validationError s' = between_error ∧ canApply s' = false)
  ∧ (ltb (parseFloat_str t1) (parseFloat_str t2) = true →
     validationError s' = "" ∧ canApply s' = true).
Proof.
  intros Hc Ho E1 E2 T1 T2 N1 N2.
  pose proof (between_validated_when_truthy s Hc Ho) as H.
  rewrite E1, E2 in H. simpl parseFloat in H.
  apply H; auto using truthy_text.
Qed.

(** The exemption the watcher makes: when one of the two values does
    not parse, the error is cleared. *)
Lemma between_unparsed_not_compared (s : State) :
  selectedOperator s = "between" →
  truthy (filterValue s) = true → truthy (filterValue2 s) = true →
  isNaN (parseFloat (filterValue s)) = true
  ∨ isNaN (parseFloat (filterValue2 s)) = true →
  validationError (watch_values s) = "".
Proof.
  intros Ho H1 H2 Hnan. rewrite watch_values_between by done.
  destruct Hnan as [-> | ->]; simpl; by rewrite ?andb_false_r.
Qed.
End BetweenValidation.

(** C2. The scenario of the specification holds: [age between 10 and 5]
    sets the error and closes the gate, and changing the end to 50 clears
    it.  But with the start value 0 the rule is not applied: the number
    input stores the number 0, which the watcher takes for a missing
    value.  So [age between 0 and -5] has [value2 <= value], no error and
    an open gate; and going from [10 and 5] to [0 and 5] leaves the error
    of the former pair in place, with the gate closed although
    [value < value2]. *)
Theorem between_zero_start_escapes_validation :
  let run := FilterBuilder.run example_dataTypes in
  let pick := [FilterBuilder.SelectColumn "age" None;
               FilterBuilder.SelectOperator "between" None] in
  let s_10_5 :=
    run (pick ++ [FilterBuilder.TypeValue "10"; FilterBuilder.TypeValue2 "5"])
      FilterBuilder.initial in
  let s_10_50 := run [FilterBuilder.TypeValue2 "50"] s_10_5 in
  let s_0_m5 :=
    run (pick ++ [FilterBuilder.TypeValue "0"; FilterBuilder.TypeValue2 "-5"])
      FilterBuilder.initial in
  let s_0_5 := run [FilterBuilder.TypeValue "0"] s_10_5 in
  (FilterBuilder.validationError s_10_5 = FilterBuilder.between_error
   ∧ FilterBuilder.canApply s_10_5 = false)
  ∧ (FilterBuilder.validationError s_10_50 = ""
     ∧ FilterBuilder.canApply s_10_50 = true)
  ∧ (FilterBuilder.selectedOperator s_0_m5 = "between"
     ∧ FilterBuilder.filterValue s_0_m5 = JS.VNum (JS.parseFloat_str "0")
     ∧ FilterBuilder.filterValue2 s_0_m5 = JS.VNum (JS.parseFloat_str "-5")
     ∧ JS.leb (JS.parseFloat_str "-5") (JS.parseFloat_str "0") = true
     ∧ FilterBuilder.validationError s_0_m5 = ""
     ∧ FilterBuilder.canApply s_0_m5 = true)
  ∧ (FilterBuilder.selectedOperator s_0_5 = "between"
     ∧ FilterBuilder.filterValue s_0_5 = JS.VNum (JS.parseFloat_str "0")
     ∧ FilterBuilder.filterValue2 s_0_5 = JS.VNum (JS.parseFloat_str "5")
     ∧ JS.ltb (JS.parseFloat_str "0") (JS.parseFloat_str "5") = true
     ∧ FilterBuilder.validationError s_0_5 = FilterBuilder.between_error
     ∧ FilterBuilder.canApply s_0_5 = false).
Proof. vm_compute. repeat split. Qed.

(** C3. Two dates of one year are compared as numbers: [parseFloat] reads
    the year off ["2024-01-05"] and off ["2024-03-10"], the two are equal,
    and the range is refused with the error of the inequality rule. *)
Theorem between_dates_of_one_year_refused :
  let s :=
    FilterBuilder.run example_dataTypes
      [FilterBuilder.SelectColumn "when" None;
       FilterBuilder.SelectOperator "between" None;
       FilterBuilder.TypeValue "2024-01-05";
       FilterBuilder.TypeValue2 "2024-03-10"]
      FilterBuilder.initial in
  FilterBuilder.filterValue s = JS.VStr "2024-01-05"
  ∧ FilterBuilder.filterValue2 s = JS.VStr "2024-03-10"
  ∧ JS.parseFloat (JS.VStr "2024-01-05") = JS.parseFloat_str "2024"
  ∧ JS.parseFloat (JS.VStr "2024-03-10") = JS.parseFloat_str "2024"
  ∧ FilterBuilder.validationError s = FilterBuilder.between_error
  ∧ FilterBuilder.canApply s = false.
Proof. vm_compute. repeat split. Qed.

(** ** FilterBuilder: the values of [in] *)





(** ** ChartConfig: the generate gate *)

(** C7. [canGenerate] is true for a heatmap; for a histogram exactly when
    an X column is chosen; for a line chart exactly when an X column is
    chosen and a Y column is chosen or the multi-Y selection is not
    empty; for any other type exactly when an X and a Y column are
    chosen.  The earlier form computes the same gate on its own fields. *)
Theorem canGenerate_iff (s : ChartConfig.State) :
  (ChartConfig.chartType s = "heatmap" → ChartConfig.canGenerate s = true)
  ∧ (ChartConfig.chartType s = "histogram" →
       (ChartConfig.canGenerate s = true ↔ ChartConfig.xColumn s ≠ ""))
  ∧ (ChartConfig.chartType s = "line" →
       (ChartConfig.canGenerate s = true ↔
          ChartConfig.xColumn s ≠ ""
          ∧ (ChartConfig.yColumn s ≠ "" ∨ ChartConfig.yColumns s ≠ [])))
  ∧ (ChartConfig.chartType s ≠ "heatmap" →
     ChartConfig.chartType s ≠ "histogram" →
     ChartConfig.chartType s ≠ "line" →
       (ChartConfig.canGenerate s = true ↔
          ChartConfig.xColumn s ≠ "" ∧ ChartConfig.yColumn s ≠ ""))
  ∧ (∀ v : ChartConfigV1.State,
       ChartConfigV1.canGenerate v = ChartConfig.canGenerate (of_v1 v)).
Proof.
  unfold ChartConfig.canGenerate.
  split; [|split; [|split; [|split]]].
  - intros ->. reflexivity.
  - intros ->. cbn. apply str_truthy_true.
  - intros ->. cbn.
    rewrite andb_true_iff, orb_true_iff, !str_truthy_true.
    assert (Hlen : (0 <? length (ChartConfig.yColumns s)) = true
                   ↔ ChartConfig.yColumns s ≠ []).
    { destruct (ChartConfig.yColumns s); cbn; split; done. }
    by rewrite Hlen.
  - intros H1 H2 H3. apply String.eqb_neq in H1, H2, H3.
    rewrite H1, H2, H3.
    by rewrite andb_true_iff, !str_truthy_true.
  - intros v. unfold ChartConfigV1.canGenerate, of_v1. cbn.
    destruct (String.eqb _ "heatmap"); [done|].
    destruct (String.eqb _ "histogram"); [done|].
    destruct (String.eqb _ "line"); [|done].
    by rewrite orb_false_r.
Qed.

(** ** ChartConfig: switching the chart type *)

(** C5. Changing the chart type, from the selector or by applying a
    suggestion, puts every chart-specific option back to its initial
    value, whatever the form held before: no Y columns and no secondary
    columns, bar mode [group], no sort order, orientation [v], no
    trendline and degree 1, no size column, no distribution fit, no
    statistics, no points, not horizontal, colour scale [RdBu],
    annotations shown. *)
Theorem switching_chart_type_resets_options (s : ChartConfig.State) (t : string) :
  t ≠ ChartConfig.chartType s →
  (∀ s' : ChartConfig.State,
     s' = ChartConfig.handle (ChartConfig.SelectChartType t) s
     ∨ (∃ suggestion,
          DataStore.s_chart_type suggestion = t
          ∧ s' = ChartConfig.handle (ChartConfig.ApplySuggestion suggestion) s) →
     ChartConfig.chartType s' = t
     ∧ ChartConfig.yColumns s' = []
     ∧ ChartConfig.secondaryYColumns s' = []
     ∧ ChartConfig.barMode s' = "group"
     ∧ ChartConfig.sortOrder s' = ""
     ∧ ChartConfig.orientation s' = "v"
     ∧ ChartConfig.showTrendline s' = false
     ∧ ChartConfig.trendlineDegree s' = 1%Z
     ∧ ChartConfig.sizeColumn s' = ""
     ∧ ChartConfig.showDistributionFit s' = false
     ∧ ChartConfig.showStatistics s' = false
     ∧ ChartConfig.showPoints s' = false
     ∧ ChartConfig.horizontalOrientation s' = false
     ∧ ChartConfig.heatmapColorscale s' = "RdBu"
     ∧ ChartConfig.showHeatmapAnnotations s' = true).
Proof.
  intros Hne s' [-> | (suggestion & <- & ->)];
    cbn [ChartConfig.handle]; unfold ChartConfig.flush_chartType;
    (rewrite decide_False by (cbn; congruence));
    cbn; repeat split.
Qed.

Lemma switching_chart_type_resets_options_witness :
  let s :=
    ChartConfig.run
      [ChartConfig.SelectChartType "bar"; ChartConfig.SelectBarMode "stack";
       ChartConfig.SelectSortOrder "desc"; ChartConfig.SelectOrientation "h"]
      ChartConfig.initial in
  (ChartConfig.barMode s = "stack" ∧ ChartConfig.sortOrder s = "desc"
   ∧ ChartConfig.orientation s = "h")
  ∧ let s' := ChartConfig.handle (ChartConfig.SelectChartType "scatter") s in
    ChartConfig.barMode s' = "group" ∧ ChartConfig.sortOrder s' = ""
    ∧ ChartConfig.orientation s' = "v".
Proof.
  split; [vm_compute; repeat split|].
  pose proof (switching_chart_type_resets_options
    (ChartConfig.run
      [ChartConfig.SelectChartType "bar"; ChartConfig.SelectBarMode "stack";
       ChartConfig.SelectSortOrder "desc"; ChartConfig.SelectOrientation "h"]
      ChartConfig.initial) "scatter") as H.
  destruct (H ltac:(vm_compute; discriminate) _ (or_introl eq_refl))
    as (_ & _ & _ & Hb & Hs & Ho & _).
  repeat split; assumption.
Defined.

(** ** ChartConfig: the secondary axis is taken among the Y columns *)

Section SecondaryAxis.
Import ChartConfig.

Lemma remove_first_subseteq (x : string) (l : list string) :
  Vue.remove_first x l ⊆ l.
Proof.
  induction l as [|y l IH]; cbn; [done|].
  destruct (String.eqb x y).
  - by apply list_subseteq_cons.
  - by apply list_subseteq_skip.
Qed.

Lemma watch_yColumns_subseteq (s : State) :
  secondaryYColumns (watch_yColumns s) ⊆ yColumns (watch_yColumns s).
Proof.
  cbn. intros c Hc. apply list_elem_of_filter in Hc.
  apply includes_elem_of, Hc.
Qed.

(** The watcher only removes from the secondary set. *)
Lemma watch_yColumns_shrinks (s : State) :
  secondaryYColumns (watch_yColumns s) ⊆ secondaryYColumns s.
Proof. cbn. intros c Hc. apply list_elem_of_filter in Hc. apply Hc. Qed.

Lemma flush_chartType_subseteq (old new : State) :
  secondaryYColumns new ⊆ yColumns new →
  secondaryYColumns (flush_chartType old new)
    ⊆ yColumns (flush_chartType old new).
Proof.
  intros H. unfold flush_chartType. case_decide; [done|].
  apply watch_yColumns_subseteq.
Qed.

(** No event of the form breaks the inclusion. *)
Lemma handle_secondary_within (e : Event) (s : State) :
  secondary_within s → secondary_within (handle e s).
Proof.
  unfold secondary_within. intros H.
  destruct e as [t|x|x|x|t|c checked|c checked|m|o|o|x|b|d|b|b|b|b|x|b| |sg];
    cbn [handle]; unfold when;
    try exact H;
    try (by apply flush_chartType_subseteq);
    try (by match goal with |- context [if ?b then _ else _] => destruct b end).
  - (* a box of the multi-Y selector *)
    destruct (showMultiYSelector s); [|done].
    destruct (Vue.vmodel_checkbox c checked (yColumns s)); [|done].
    apply watch_yColumns_subseteq.
  - (* a Y2 box *)
    destruct (showMultiYSelector s && Vue.includes (yColumns s) c
              && (2 <=? length (yColumns s))) eqn:Hshown; [|done].
    apply andb_true_iff in Hshown as [Hshown _].
    apply andb_true_iff in Hshown as [_ Hin].
    apply includes_elem_of in Hin.
    unfold Vue.vmodel_checkbox.
    destruct checked, (Vue.includes (secondaryYColumns s) c); cbn; try done.
    + intros z Hz. apply elem_of_app in Hz as [Hz | Hz]; [by apply H|].
      apply list_elem_of_singleton in Hz. by subst z.
    + intros z Hz. by apply H, (remove_first_subseteq c).
  - (* reset *)
    apply watch_yColumns_subseteq.
Qed.

Lemma run_secondary_within (es : list Event) (s : State) :
  secondary_within s → secondary_within (run es s).
Proof.
  revert s. induction es as [|e es IH]; intros s H; cbn; [done|].
  apply IH. by apply handle_secondary_within.
Qed.
End SecondaryAxis.

(** C6. In every state the form can reach, the secondary-axis columns are
    among the Y columns; assigning any array to [yColumns] leaves only
    those secondary columns that are in it.  In the scenario (line chart,
    Y columns a, b, c, with b on the secondary axis), unchecking b leaves
    a and c, empties the secondary set, and the configuration built then
    has [y_columns = [a, c]] and no [secondary_y_columns] key. *)
Theorem secondary_columns_within_y_columns :
  (∀ es : list ChartConfig.Event,
     ChartConfig.secondaryYColumns (ChartConfig.run es ChartConfig.initial)
       ⊆ ChartConfig.yColumns (ChartConfig.run es ChartConfig.initial))
  ∧ (∀ (s : ChartConfig.State) (newVal : list string),
       let s' := ChartConfig.watch_yColumns (ChartConfig.set_yColumns newVal s) in
       ChartConfig.yColumns s' = newVal
       ∧ ChartConfig.secondaryYColumns s' ⊆ newVal
       ∧ ChartConfig.secondaryYColumns s' ⊆ ChartConfig.secondaryYColumns s)
  ∧ (let s :=
       ChartConfig.run
         [ChartConfig.TickY "a" true; ChartConfig.TickY "b" true;
          ChartConfig.TickY "c" true; ChartConfig.TickY2 "b" true]
         ChartConfig.initial in
     let s' := ChartConfig.handle (ChartConfig.TickY "b" false) s in
     let config := ChartConfig.generateChart_config s' in
     ChartConfig.chartType s = "line"
     ∧ ChartConfig.yColumns s = ["a"; "b"; "c"]
     ∧ ChartConfig.secondaryYColumns s = ["b"]
     ∧ ChartConfig.yColumns s' = ["a"; "c"]
     ∧ ChartConfig.secondaryYColumns s' = []
     ∧ Api.options config !! "y_columns" = Some (Api.OList ["a"; "c"])
     ∧ Api.options config !! "secondary_y_columns" = None).
Proof.
  split; [|split].
  - intros es. apply run_secondary_within. unfold secondary_within. done.
  - intros s newVal s'. split; [reflexivity|]. split.
    + apply (watch_yColumns_subseteq (ChartConfig.set_yColumns newVal s)).
    + apply (watch_yColumns_shrinks (ChartConfig.set_yColumns newVal s)).
  - vm_compute. repeat split.
Qed.

(** ** ChartConfig: where the colour selection goes *)

Section ColourRouting.
Import JS ChartConfig.

Lemma when_ind {A} (P : A → Prop) (b : bool) (f : A → A) (a : A) :
  P a → (∀ x, P x → P (f x)) → P (when b f a).
Proof. intros Ha Hf. destruct b; cbn; auto. Qed.

Lemma set_option_colour k v cc cn c :
  k ≠ "color_numeric" → colour_is cc cn c → colour_is cc cn (set_option k v c).
Proof.
  intros Hk [H1 H2]. split; [exact H1|]. cbn. by rewrite lookup_insert_ne.
Qed.

Lemma set_y_column_colour v cc cn c :
  colour_is cc cn c → colour_is cc cn (set_y_column v c).
Proof. intros [H1 H2]. by split. Qed.

Lemma set_size_column_colour v cc cn c :
  colour_is cc cn c → colour_is cc cn (set_size_column v c).
Proof. intros [H1 H2]. by split. Qed.

Ltac colour_step :=
  match goal with
  | H : colour_is ?cc ?cn ?c |- colour_is ?cc ?cn ?c => exact H
  | |- colour_is ?cc ?cn (when _ _ _) =>
      apply (when_ind (colour_is cc cn)); [|intros ? ?]
  | |- colour_is _ _ (set_option _ _ _) =>
      apply set_option_colour; [discriminate|]
  | |- colour_is _ _ (set_y_column _ _) => apply set_y_column_colour
  | |- colour_is _ _ (set_size_column _ _) => apply set_size_column_colour
  end.

(** The colour of the built configuration is decided by the colour
    selection alone; no later step of [generateChart] changes it. *)
Lemma generateChart_config_colour (s : State) :
  colour_is
    (if str_truthy (colorColumn s) && negb (startsWith (colorColumn s) "numeric:")
     then Some (colorColumn s) else None)
    (if str_truthy (colorColumn s) && startsWith (colorColumn s) "numeric:"
     then Some (Api.OStr (replace "numeric:" "" (colorColumn s))) else None)
    (generateChart_config s).
Proof.
  unfold generateChart_config. cbv zeta.
  match goal with
  | |- context [when (str_truthy (colorColumn s)) ?f ?c] =>
      set (coloured := when (str_truthy (colorColumn s)) f c)
  end.
  match goal with
  | |- colour_is ?cc ?cn _ => assert (Hcoloured : colour_is cc cn coloured)
  end.
  { subst coloured. unfold when.
    destruct (str_truthy (colorColumn s)); cbn [andb negb]; [|by split].
    destruct (startsWith (colorColumn s) "numeric:"); cbn [andb negb];
      split; done. }
  clearbody coloured. repeat colour_step.
Qed.

Lemma numeric_selection_truthy (col : string) :
  str_truthy ("numeric:" +:+ col) = true
  ∧ startsWith ("numeric:" +:+ col) "numeric:" = true
  ∧ replace "numeric:" "" ("numeric:" +:+ col) = col.
Proof.
  split; [reflexivity|]. split; [apply prefix_app | apply replace_prefix].
Qed.

Lemma numeric_selection_routed (s : State) (col : string) :
  colorColumn s = "numeric:" +:+ col →
  Api.color_column (generateChart_config s) = None
  ∧ Api.options (generateChart_config s) !! "color_numeric" = Some (Api.OStr col).
Proof.
  intros Hc. pose proof (generateChart_config_colour s) as H.
  destruct (numeric_selection_truthy col) as (Ht & Hp & Hr).
  rewrite Hc, Ht, Hp, Hr in H. exact H.
Qed.

Lemma chart_type_set_option k v c :
  Api.chart_type (set_option k v c) = Api.chart_type c.
Proof. reflexivity. Qed.

(** The chart type of the built configuration is the one selected. *)
Lemma generateChart_config_chart_type (s : State) :
  Api.chart_type (generateChart_config s) = chartType s.
Proof.
  unfold generateChart_config. cbv zeta.
  repeat first
    [ apply (when_ind (fun c => Api.chart_type c = chartType s));
      [|intros ? ?]
    | rewrite chart_type_set_option
    | assumption
    | reflexivity
    | match goal with
      | |- Api.chart_type (if ?b then _ else _) = _ => destruct b
      end ].
Qed.

Lemma flush_chartType_colorColumn (old new : State) :
  colorColumn (flush_chartType old new) = colorColumn new.
Proof. unfold flush_chartType. by case_decide. Qed.
End ColourRouting.

(** C8. For a scatter chart, a colour selection that does not carry the
    ["numeric:"] prefix is emitted as [color_column] and leaves
    [options.color_numeric] unset; a selection ["numeric:" + column] gives
    [color_column = null] and [options.color_numeric = column]; and no
    built configuration has both. *)
Theorem scatter_colour_is_categorical_or_numeric (s : ChartConfig.State) :
  ChartConfig.chartType s = "scatter" →
  let config := ChartConfig.generateChart_config s in
  Api.chart_type config = "scatter"
  ∧ (ChartConfig.colorColumn s ≠ "" →
     JS.startsWith (ChartConfig.colorColumn s) "numeric:" = false →
       Api.color_column config = Some (ChartConfig.colorColumn s)
       ∧ Api.options config !! "color_numeric" = None)
  ∧ (∀ column : string,
       ChartConfig.colorColumn s = "numeric:" +:+ column →
       Api.color_column config = None
       ∧ Api.options config !! "color_numeric" = Some (Api.OStr column))
  ∧ ¬ (is_Some (Api.color_column config)
       ∧ is_Some (Api.options config !! "color_numeric")).
Proof.
  intros Htype config. subst config.
  pose proof (generateChart_config_colour s) as [Hc Hn].
  split; [|split; [|split]].
  - by rewrite generateChart_config_chart_type.
  - intros Hsel Hpre. apply str_truthy_true in Hsel.
    rewrite Hsel, Hpre in Hc, Hn. done.
  - intros column. apply numeric_selection_routed.
  - rewrite Hc, Hn. intros [[x Hx] [y Hy]].
    destruct (JS.str_truthy _), (JS.startsWith _ _); discriminate.
Qed.

Lemma scatter_colour_is_categorical_or_numeric_witness :
  let s :=
    ChartConfig.run
      [ChartConfig.SelectChartType "scatter"; ChartConfig.SelectColor "numeric:age"]
      ChartConfig.initial in
  Api.color_column (ChartConfig.generateChart_config s) = None
  ∧ Api.options (ChartConfig.generateChart_config s) !! "color_numeric"
    = Some (Api.OStr "age").
Proof.
  apply (scatter_colour_is_categorical_or_numeric
           (ChartConfig.run
              [ChartConfig.SelectChartType "scatter";
               ChartConfig.SelectColor "numeric:age"]
              ChartConfig.initial));
    reflexivity.
Defined.

(** C10. The prefix is honoured whatever the chart type: a stored colour
    selection ["numeric:" + column] always builds [color_column = null]
    and [options.color_numeric = column].  Selecting another chart type
    and applying a suggestion both keep the colour selection, so the
    numeric colour goes into the configuration of the new chart type
    too. *)
Theorem numeric_colour_kept_across_chart_types
    (s : ChartConfig.State) (column : string) :
  ChartConfig.colorColumn s = "numeric:" +:+ column →
  (Api.color_column (ChartConfig.generateChart_config s) = None
   ∧ Api.options (ChartConfig.generateChart_config s) !! "color_numeric"
     = Some (Api.OStr column))
  ∧ (∀ t : string,
       let s' := ChartConfig.handle (ChartConfig.SelectChartType t) s in
       ChartConfig.chartType s' = t
       ∧ ChartConfig.colorColumn s' = ChartConfig.colorColumn s
       ∧ Api.color_column (ChartConfig.generateChart_config s') = None
       ∧ Api.options (ChartConfig.generateChart_config s') !! "color_numeric"
         = Some (Api.OStr column))
  ∧ (∀ suggestion : DataStore.Suggestion,
       let s' := ChartConfig.handle (ChartConfig.ApplySuggestion suggestion) s in
       ChartConfig.chartType s' = DataStore.s_chart_type suggestion
       ∧ ChartConfig.colorColumn s' = ChartConfig.colorColumn s
       ∧ Api.color_column (ChartConfig.generateChart_config s') = None
       ∧ Api.options (ChartConfig.generateChart_config s') !! "color_numeric"
         = Some (Api.OStr column)).
Proof.
  intros Hsel. split; [by apply numeric_selection_routed|]. split.
  - intros t s'.
    assert (Hkeep : ChartConfig.colorColumn s' = ChartConfig.colorColumn s).
    { subst s'. cbn [ChartConfig.handle]. by rewrite flush_chartType_colorColumn. }
    split; [|split; [exact Hkeep|]].
    + subst s'. cbn [ChartConfig.handle]. unfold ChartConfig.flush_chartType.
      by case_decide.
    + apply numeric_selection_routed. congruence.
  - intros suggestion s'.
    assert (Hkeep : ChartConfig.colorColumn s' = ChartConfig.colorColumn s).
    { subst s'. cbn [ChartConfig.handle]. by rewrite flush_chartType_colorColumn. }
    split; [|split; [exact Hkeep|]].
    + subst s'. cbn [ChartConfig.handle]. unfold ChartConfig.flush_chartType.
      by case_decide.
    + apply numeric_selection_routed. congruence.
Qed.

Lemma numeric_colour_kept_across_chart_types_witness :
  let s :=
    ChartConfig.run
      [ChartConfig.SelectChartType "scatter"; ChartConfig.SelectColor "numeric:age"]
      ChartConfig.initial in
  let s' := ChartConfig.handle (ChartConfig.SelectChartType "bar") s in
  ChartConfig.chartType s' = "bar"
  ∧ ChartConfig.colorColumn s' = "numeric:age"
  ∧ Api.color_column (ChartConfig.generateChart_config s') = None
  ∧ Api.options (ChartConfig.generateChart_config s') !! "color_numeric"
    = Some (Api.OStr "age").
Proof.
  pose proof (numeric_colour_kept_across_chart_types
    (ChartConfig.run
      [ChartConfig.SelectChartType "scatter"; ChartConfig.SelectColor "numeric:age"]
      ChartConfig.initial) "age" eq_refl) as (_ & H & _).
  exact (H "bar").
Defined.

(** ** DataStore: a rejected request *)

Section RejectedRequest.
Import DataStore.



Variable api : Api.Client.



(** A call that resolves does add the chart, with the configuration it
    was built from. *)
Lemma generateChart_resolved st src response chartConfig :
  activeSource st = Some src →
  Api.generateChart api
    (Api.mkChartRequest (source_id src) chartConfig (activeFilters st))
  = inr response →
  charts (fst (generateChart api chartConfig st))
  = charts st ++ [mkChart (Api.resp_chart_id response)
                    (Api.resp_chart_type response)
                    (Api.resp_figure response) chartConfig]
  ∧ activeFilters (fst (generateChart api chartConfig st)) = activeFilters st
  ∧ error (fst (generateChart api chartConfig st)) = None.
Proof.
  intros Hsrc Hcall. unfold generateChart, generateChart_start. rewrite Hsrc.
  cbn. rewrite Hcall. done.
Qed.
End RejectedRequest.



(** * Further properties of the forms and the store *)

Set Warnings "-clear-no-such-hyp".

(** ** FilterBuilder: what the handlers keep and reset *)

Section FilterForm.
Import JS FilterBuilder.
Variable dataTypes : gmap string string.

Lemma columnDataType_ext (s1 s2 : State) :
  selectedColumn s1 = selectedColumn s2 →
  columnDataType dataTypes s1 = columnDataType dataTypes s2.
Proof. intros H. unfold columnDataType. by rewrite H. Qed.

Lemma availableOperators_ext (s1 s2 : State) :
  selectedColumn s1 = selectedColumn s2 →
  availableOperators dataTypes s1 = availableOperators dataTypes s2.
Proof.
  intros H. unfold availableOperators. by rewrite (columnDataType_ext s1 s2 H).
Qed.

Lemma watch_values_empty (s : State) :
  filterValue s = VStr "" → watch_values s = s.
Proof. intros H. apply watch_values_falsy. left. by rewrite H. Qed.

(** The watcher has nothing to do after a handler that has emptied the
    first value. *)
Lemma flush_empty (old new : State) :
  filterValue new = VStr "" → flush old new = new.
Proof.
  intros H. unfold flush. case_decide; [done|]. by apply watch_values_empty.
Qed.

Lemma flush_frame (old new : State) :
  selectedColumn (flush old new) = selectedColumn new
  ∧ selectedOperator (flush old new) = selectedOperator new
  ∧ filterValue (flush old new) = filterValue new
  ∧ filterValue2 (flush old new) = filterValue2 new
  ∧ filterValueText (flush old new) = filterValueText new.
Proof. unfold flush. case_decide; [done|]. apply watch_values_frame. Qed.

Lemma loadFilterOptions_frame answer (s : State) :
  selectedColumn (loadFilterOptions answer s) = selectedColumn s
  ∧ selectedOperator (loadFilterOptions answer s) = selectedOperator s
  ∧ filterValue (loadFilterOptions answer s) = filterValue s
  ∧ filterValue2 (loadFilterOptions answer s) = filterValue2 s
  ∧ filterValueText (loadFilterOptions answer s) = filterValueText s
  ∧ validationError (loadFilterOptions answer s) = validationError s.
Proof. unfold loadFilterOptions. by destruct (negb _). Qed.

Lemma onColumnChange_fields answer (s : State) :
  let s' := onColumnChange dataTypes answer s in
  selectedColumn s' = selectedColumn s
  ∧ selectedOperator s' = ""
  ∧ filterValue s' = VStr ""
  ∧ filterValue2 s' = VStr ""
  ∧ filterValueText s' = ""
  ∧ validationError s' = "".
Proof.
  cbn zeta. unfold onColumnChange. cbv zeta.
  destruct (columnDataType _ _) as [[]|]; try done.
  match goal with |- context [loadFilterOptions ?a ?x] =>
    destruct (loadFilterOptions_frame a x) as (-> & -> & -> & -> & -> & ->) end.
  done.
Qed.

Lemma onOperatorChange_fields answer (s : State) :
  let s' := onOperatorChange dataTypes answer s in
  selectedColumn s' = selectedColumn s
  ∧ selectedOperator s' = selectedOperator s
  ∧ filterValue s' = VStr ""
  ∧ filterValue2 s' = VStr ""
  ∧ filterValueText s' = ""
  ∧ validationError s' = "".
Proof.
  cbn zeta. unfold onOperatorChange. cbv zeta.
  destruct (_ && _); [|done].
  match goal with |- context [loadFilterOptions ?a ?x] =>
    destruct (loadFilterOptions_frame a x) as (-> & -> & -> & -> & -> & ->) end.
  done.
Qed.

(** With both values and the text empty, the gate is closed. *)
Lemma canApply_empty (s : State) :
  filterValue s = VStr "" → filterValueText s = "" → canApply s = false.
Proof.
  intros Hv Ht. unfold canApply. rewrite Hv, Ht. cbn.
  destruct (negb _ || negb _); [done|].
  by repeat match goal with |- context [if ?b then _ else _] => destruct b end.
Qed.

Lemma applyFilter_closed (s : State) :
  canApply s = false → applyFilter s = (None, s).
Proof. intros H. unfold applyFilter. by rewrite H. Qed.

Lemma applyFilter_frame (s : State) :
  snd (applyFilter s) = s
  ∨ (selectedColumn (snd (applyFilter s)) = ""
     ∧ selectedOperator (snd (applyFilter s)) = ""
     ∧ filterValue (snd (applyFilter s)) = VStr ""
     ∧ filterValueText (snd (applyFilter s)) = "").
Proof. unfold applyFilter. destruct (negb _); [by left | by right]. Qed.
End FilterForm.

Section FilterFormInvariant.
Import JS FilterBuilder.
Variable dataTypes : gmap string string.

Lemma operator_offered_ext (s s' : State) :
  selectedColumn s' = selectedColumn s →
  selectedOperator s' = selectedOperator s →
  operator_offered dataTypes s → operator_offered dataTypes s'.
Proof.
  intros Hc Ho [H | [H1 H2]]; [left; congruence | right].
  rewrite Hc, Ho, (availableOperators_ext dataTypes s' s Hc). done.
Qed.

Lemma operator_offered_none (s : State) :
  selectedOperator s = "" → operator_offered dataTypes s.
Proof. by left. Qed.

Lemma existsb_eqb_elem_of (x : string) (l : list string) :
  existsb (String.eqb x) l = true → x ∈ l.
Proof.
  intros H. apply existsb_exists in H as (y & Hy & Heq).
  apply String.eqb_eq in Heq. subst. by apply list_elem_of_In.
Qed.

Lemma flush_operator_offered (s old new : State) :
  selectedColumn new = selectedColumn s →
  selectedOperator new = selectedOperator s →
  operator_offered dataTypes s → operator_offered dataTypes (flush old new).
Proof.
  intros Hc Ho. destruct (flush_frame old new) as (Fc & Fo & _).
  apply operator_offered_ext; congruence.
Qed.

Lemma handle_operator_offered (e : Event) (s : State) :
  operator_offered dataTypes s → operator_offered dataTypes (handle dataTypes e s).
Proof.
  intros H.
  destruct e as [c answer|o answer|text|text|v|text| |]; cbn [handle].
  - destruct (_ || _); [|done]. apply operator_offered_none.
    destruct (flush_frame s (onColumnChange dataTypes answer (with_column c s)))
      as (_ & -> & _).
    apply (onColumnChange_fields dataTypes answer (with_column c s)).
  - destruct (str_truthy (selectedColumn s)) eqn:Hcol; [|done].
    apply str_truthy_true in Hcol. cbn [andb].
    destruct (String.eqb_spec o "") as [->|Ho]; cbn [orb].
    + apply operator_offered_none.
      destruct (flush_frame s (onOperatorChange dataTypes answer (with_operator "" s)))
        as (_ & -> & _).
      apply (onOperatorChange_fields dataTypes answer (with_operator "" s)).
    + destruct (existsb _ _) eqn:Hin; [|done].
      apply existsb_eqb_elem_of in Hin. right.
      destruct (flush_frame s (onOperatorChange dataTypes answer (with_operator o s)))
        as (Fc & Fo & _).
      destruct (onOperatorChange_fields dataTypes answer (with_operator o s))
        as (Gc & Go & _).
      rewrite Fc, Fo, Gc, Go. cbn. split; [done|].
      erewrite availableOperators_ext; [exact Hin|]. rewrite Fc, Gc. done.
  - destruct (valueControl dataTypes s); try done;
      by apply (flush_operator_offered s).
  - destruct (valueControl dataTypes s); try done;
      by apply (flush_operator_offered s).
  - destruct (valueControl dataTypes s); try done.
    destruct (bool_decide _); [|done].
    by apply (flush_operator_offered s).
  - destruct (valueControl dataTypes s); try done.
  - destruct (valueControl dataTypes s); try done.
    destruct (str_truthy (filterValueText s)) eqn:Ht; [|done].
    eapply operator_offered_ext; [| |exact H].
    + rewrite (proj1 (watch_values_frame _)).
      unfold parseInValues. by rewrite Ht.
    + rewrite (proj1 (proj2 (watch_values_frame _))).
      unfold parseInValues. by rewrite Ht.
  - destruct (flush_frame s (snd (applyFilter s))) as (Fc & Fo & _).
    destruct (applyFilter_frame s) as [Heq | (_ & Ho & _)].
    + eapply operator_offered_ext; [| |exact H]; rewrite ?Fc, ?Fo, Heq; done.
    + apply operator_offered_none. by rewrite Fo.
Qed.

Lemma run_operator_offered (es : list Event) (s : State) :
  operator_offered dataTypes s → operator_offered dataTypes (run dataTypes es s).
Proof.
  revert s. induction es as [|e es IH]; intros s H; cbn; [done|].
  apply IH. by apply handle_operator_offered.
Qed.
End FilterFormInvariant.

(** X1. However the filter form is used, the operator it holds is one
    the table offers for the type of the column it holds: an operator is
    never left over from a column of another type. *)
Theorem operator_always_offered_for_column
    (dataTypes : gmap string string) (es : list FilterBuilder.Event) :
  let s := FilterBuilder.run dataTypes es FilterBuilder.initial in
  FilterBuilder.selectedOperator s ≠ "" →
  FilterBuilder.selectedColumn s ≠ ""
  ∧ ∃ t, FilterBuilder.columnDataType dataTypes s = Some t
         ∧ FilterBuilder.selectedOperator s
           ∈ map FilterBuilder.value (FilterBuilder.OPERATORS t).
Proof.
  intros s Hop.
  assert (H : operator_offered dataTypes s).
  { apply run_operator_offered. by left. }
  destruct H as [H | [Hcol Hin]]; [done|]. split; [done|].
  unfold FilterBuilder.availableOperators in Hin.
  destruct (FilterBuilder.columnDataType dataTypes s) as [t|]; [by exists t|].
  by apply elem_of_nil in Hin.
Qed.

Lemma operator_always_offered_for_column_witness :
  let s :=
    FilterBuilder.run example_dataTypes
      [FilterBuilder.SelectColumn "city" None;
       FilterBuilder.SelectOperator "contains" None;
       FilterBuilder.SelectColumn "age" None;
       FilterBuilder.SelectOperator "contains" None;
       FilterBuilder.SelectOperator "lte" None]
      FilterBuilder.initial in
  FilterBuilder.selectedOperator s = "lte"
  ∧ ∃ t, FilterBuilder.columnDataType example_dataTypes s = Some t
         ∧ FilterBuilder.selectedOperator s
           ∈ map FilterBuilder.value (FilterBuilder.OPERATORS t).
Proof.
  split; [reflexivity|].
  apply (operator_always_offered_for_column example_dataTypes
    [FilterBuilder.SelectColumn "city" None;
     FilterBuilder.SelectOperator "contains" None;
     FilterBuilder.SelectColumn "age" None;
     FilterBuilder.SelectOperator "contains" None;
     FilterBuilder.SelectOperator "lte" None]).
  vm_compute. discriminate.
Defined.

(** X2. Choosing a column (an entry of the selector, or none) clears the
    operator, both values, the text and the error; choosing an operator
    offered for the column keeps the column and clears the values, the
    text and the error.  After either, the filter cannot be applied. *)
Theorem selecting_resets_the_values
    (dataTypes : gmap string string) (s : FilterBuilder.State)
    (answer : option (list JS.jsval)) :
  (∀ c, c = "" ∨ FilterBuilder.selectable dataTypes c = true →
     let s' := FilterBuilder.handle dataTypes (FilterBuilder.SelectColumn c answer) s in
     FilterBuilder.selectedColumn s' = c
     ∧ FilterBuilder.selectedOperator s' = ""
     ∧ FilterBuilder.filterValue s' = JS.VStr ""
     ∧ FilterBuilder.filterValue2 s' = JS.VStr ""
     ∧ FilterBuilder.filterValueText s' = ""
     ∧ FilterBuilder.validationError s' = ""
     ∧ FilterBuilder.canApply s' = false)
  ∧ (∀ o, FilterBuilder.selectedColumn s ≠ "" →
     o ∈ map FilterBuilder.value (FilterBuilder.availableOperators dataTypes s) →
     let s' := FilterBuilder.handle dataTypes (FilterBuilder.SelectOperator o answer) s in
     FilterBuilder.selectedColumn s' = FilterBuilder.selectedColumn s
     ∧ FilterBuilder.selectedOperator s' = o
     ∧ FilterBuilder.filterValue s' = JS.VStr ""
     ∧ FilterBuilder.filterValue2 s' = JS.VStr ""
     ∧ FilterBuilder.filterValueText s' = ""
     ∧ FilterBuilder.validationError s' = ""
     ∧ FilterBuilder.canApply s' = false).
Proof.
  split.
  - intros c Hc s'. subst s'. cbn [FilterBuilder.handle].
    assert (Hguard : String.eqb c "" || FilterBuilder.selectable dataTypes c = true).
    { destruct Hc as [-> | ->]; [done | apply orb_true_r]. }
    rewrite Hguard.
    destruct (onColumnChange_fields dataTypes answer (FilterBuilder.with_column c s))
      as (Gc & Go & G1 & G2 & Gt & Ge).
    rewrite (flush_empty _ _ G1).
    repeat split; try done. by apply canApply_empty.
  - intros o Hcol Hin s'. subst s'. cbn [FilterBuilder.handle].
    rewrite (proj2 (str_truthy_true _) Hcol). cbn [andb].
    assert (Hex : existsb (String.eqb o)
                    (map FilterBuilder.value
                       (FilterBuilder.availableOperators dataTypes s)) = true).
    { apply existsb_exists. exists o.
      split; [by apply list_elem_of_In | apply String.eqb_refl]. }
    rewrite Hex, orb_true_r.
    destruct (onOperatorChange_fields dataTypes answer
                (FilterBuilder.with_operator o s))
      as (Gc & Go & G1 & G2 & Gt & Ge).
    rewrite (flush_empty _ _ G1).
    repeat split; try done. by apply canApply_empty.
Qed.

(** ** FilterBuilder: the filter emitted *)

Section EmittedFilter.
Import JS FilterBuilder.

Lemma applyFilter_open (s : State) :
  canApply s = true →
  applyFilter s
  = (Some (Api.mkFilter (selectedColumn s) (selectedOperator s) (filterValue s)
             (if String.eqb (selectedOperator s) "between"
              then Some (filterValue2 s) else None)),
     mkState "" "" (VStr "") (VStr "") "" (filterOptions s) (loadingOptions s) "").
Proof. intros H. unfold applyFilter. by rewrite H. Qed.

Lemma applyFilter_emits_iff (s : State) :
  is_Some (fst (applyFilter s)) ↔ canApply s = true.
Proof.
  destruct (canApply s) eqn:H.
  - rewrite (applyFilter_open s H). split; [done | by eexists].
  - rewrite (applyFilter_closed s H). split; [intros [? ?]; done | done].
Qed.
End EmittedFilter.

Section FormFacts.
Import JS FilterBuilder.
Variable dataTypes : gmap string string.

(** What an open gate says about the fields. *)
Lemma canApply_open_fields (s : State) :
  canApply s = true →
  selectedColumn s ≠ "" ∧ selectedOperator s ≠ ""
  ∧ (selectedOperator s ≠ "in" → filterValue s ≠ VStr "")
  ∧ (selectedOperator s = "between" → filterValue2 s ≠ VStr "").
Proof.
  unfold canApply.
  destruct (str_truthy (selectedColumn s)) eqn:Ec; [|done].
  destruct (str_truthy (selectedOperator s)) eqn:Eo; [|done].
  apply str_truthy_true in Ec, Eo. cbn [negb orb].
  destruct (String.eqb_spec (selectedOperator s) "between") as [Hb|Hb].
  { rewrite !andb_true_iff, !not_empty_string_true. intros [[H1 H2] _]. done. }
  destruct (String.eqb_spec (selectedOperator s) "in") as [Hi|Hi].
  { intros _. done. }
  rewrite not_empty_string_true. intros H. done.
Qed.

Lemma offered_operator_of_table (s : State) :
  operator_offered dataTypes s → selectedOperator s ≠ "" →
  ∃ t, columnDataType dataTypes s = Some t
       ∧ selectedOperator s ∈ map value (OPERATORS t).
Proof.
  intros [H | [Hcol Hin]] Hop; [done|].
  unfold availableOperators in Hin.
  destruct (columnDataType dataTypes s) as [t|]; [by exists t|].
  by apply elem_of_nil in Hin.
Qed.

(** The column held is an entry of the selector, or none. *)
Lemma handle_column_listed (e : Event) (s : State) :
  selectedColumn s = "" ∨ selectable dataTypes (selectedColumn s) = true →
  selectedColumn (handle dataTypes e s) = ""
  ∨ selectable dataTypes (selectedColumn (handle dataTypes e s)) = true.
Proof.
  intros H.
  assert (Hkeep : ∀ old new, selectedColumn new = selectedColumn s →
            selectedColumn (flush old new) = ""
            ∨ selectable dataTypes (selectedColumn (flush old new)) = true).
  { intros old new Hc. rewrite (proj1 (flush_frame old new)), Hc. exact H. }
  destruct e as [c answer|o answer|text|text|v|text| |]; cbn [handle].
  - destruct (String.eqb_spec c "") as [->|Hc]; cbn [orb].
    + left. rewrite (proj1 (flush_frame _ _)).
      by rewrite (proj1 (onColumnChange_fields dataTypes answer _)).
    + destruct (selectable dataTypes c) eqn:Hs; [|done]. right.
      rewrite (proj1 (flush_frame _ _)).
      by rewrite (proj1 (onColumnChange_fields dataTypes answer _)).
  - destruct (_ && _); [|done]. apply Hkeep.
    by rewrite (proj1 (onOperatorChange_fields dataTypes answer _)).
  - destruct (valueControl dataTypes s); try done; by apply Hkeep.
  - destruct (valueControl dataTypes s); try done; by apply Hkeep.
  - destruct (valueControl dataTypes s); try done.
    destruct (bool_decide _); [|done]. by apply Hkeep.
  - destruct (valueControl dataTypes s); done.
  - destruct (valueControl dataTypes s); try done.
    destruct (str_truthy (filterValueText s)) eqn:Ht; [|done].
    rewrite (proj1 (watch_values_frame _)). unfold parseInValues. by rewrite Ht.
  - rewrite (proj1 (flush_frame _ _)).
    destruct (applyFilter_frame s) as [-> | (-> & _)]; [done | by left].
Qed.

Lemma run_column_listed (es : list Event) (s : State) :
  selectedColumn s = "" ∨ selectable dataTypes (selectedColumn s) = true →
  selectedColumn (run dataTypes es s) = ""
  ∨ selectable dataTypes (selectedColumn (run dataTypes es s)) = true.
Proof.
  revert s. induction es as [|e es IH]; intros s H; cbn; [done|].
  apply IH. by apply handle_column_listed.
Qed.

(** The two classifiers give the same type to a column. *)
Lemma filterType_columnDataType (s : State) (filter : Api.Filter) :
  Api.column filter = selectedColumn s → selectedColumn s ≠ "" →
  columnDataType dataTypes s = Some (ActiveFilter.filterType dataTypes filter).
Proof.
  intros Hf Hcol. unfold ActiveFilter.filterType, columnDataType.
  rewrite (proj2 (str_truthy_true _) Hcol), Hf.
  destruct (dataTypes !! selectedColumn s) as [d|] eqn:Hd.
  - destruct (String.eqb_spec d "numeric") as [->|Hn].
    { by rewrite decide_True. }
    rewrite decide_False by congruence.
    destruct (String.eqb_spec d "datetime") as [->|Hd1].
    { by rewrite decide_True by (by left). }
    destruct (String.eqb_spec d "datetime_candidate") as [->|Hd2].
    { by rewrite decide_True by (by right). }
    rewrite decide_False by (intros [?|?]; congruence).
    cbn [orb]. by destruct (negb (str_truthy d)).
  - rewrite decide_False by done.
    by rewrite decide_False by (intros [?|?]; done).
Qed.
End FormFacts.

(** X3. Applying emits a filter exactly when the gate is open.  The
    filter is the column, the operator and the value of the form, with a
    second value exactly when the operator is [between]; the form is then
    empty again, so that applying a second time emits nothing.  With the
    gate closed nothing is emitted and the form is left as it is. *)
Theorem apply_emits_once (s : FilterBuilder.State) :
  (FilterBuilder.canApply s = false → FilterBuilder.applyFilter s = (None, s))
  ∧ (FilterBuilder.canApply s = true →
     ∃ filter s',
       FilterBuilder.applyFilter s = (Some filter, s')
       ∧ Api.column filter = FilterBuilder.selectedColumn s
       ∧ Api.operator filter = FilterBuilder.selectedOperator s
       ∧ Api.value filter = FilterBuilder.filterValue s
       ∧ (Api.operator filter = "between" →
            Api.value2 filter = Some (FilterBuilder.filterValue2 s))
       ∧ (Api.operator filter ≠ "between" → Api.value2 filter = None)
       ∧ FilterBuilder.selectedColumn s' = ""
       ∧ FilterBuilder.selectedOperator s' = ""
       ∧ FilterBuilder.canApply s' = false
       ∧ FilterBuilder.applyFilter s' = (None, s')).
Proof.
  split; [apply applyFilter_closed|].
  intros H. rewrite (applyFilter_open s H). eexists _, _. split; [reflexivity|].
  cbn. repeat split.
  - intros ->. reflexivity.
  - intros Hne. apply String.eqb_neq in Hne. by rewrite Hne.
Qed.

(** X4. Every filter the form can emit, however it was filled in, names
    a column of the selector and an operator of the table for that
    column's type; its value is not the empty string unless the operator
    is [in], and it carries a second value, not empty, exactly for
    [between]. *)
Theorem emitted_filter_is_well_formed
    (dataTypes : gmap string string) (es : list FilterBuilder.Event)
    (filter : Api.Filter) :
  fst (FilterBuilder.applyFilter
         (FilterBuilder.run dataTypes es FilterBuilder.initial)) = Some filter →
  Api.column filter ≠ ""
  ∧ FilterBuilder.selectable dataTypes (Api.column filter) = true
  ∧ Api.operator filter
    ∈ map FilterBuilder.value
        (FilterBuilder.OPERATORS (ActiveFilter.filterType dataTypes filter))
  ∧ (Api.operator filter ≠ "in" → Api.value filter ≠ JS.VStr "")
  ∧ (Api.operator filter = "between" →
       ∃ v2, Api.value2 filter = Some v2 ∧ v2 ≠ JS.VStr "")
  ∧ (Api.operator filter ≠ "between" → Api.value2 filter = None).
Proof.
  set (s := FilterBuilder.run dataTypes es FilterBuilder.initial).
  intros Hemit.
  assert (Hopen : FilterBuilder.canApply s = true).
  { apply applyFilter_emits_iff. rewrite Hemit. by eexists. }
  rewrite (applyFilter_open s Hopen) in Hemit. cbn in Hemit.
  injection Hemit as <-. cbn [Api.column Api.operator Api.value Api.value2].
  destruct (canApply_open_fields s Hopen) as (Hcol & Hop & Hval & Hval2).
  assert (Hoff : operator_offered dataTypes s).
  { apply run_operator_offered. by left. }
  destruct (offered_operator_of_table dataTypes s Hoff Hop) as (t & Ht & Hin).
  split; [done|]. split; [|split; [|split; [|split]]].
  - destruct (run_column_listed dataTypes es FilterBuilder.initial) as [H|H];
      [by left | done | done].
  - match goal with
    | |- context [ActiveFilter.filterType _ ?f] =>
        rewrite (filterType_columnDataType dataTypes s f eq_refl Hcol) in Ht
    end.
    injection Ht as <-. exact Hin.
  - exact Hval.
  - intros Hb. rewrite Hb. cbn. eexists. split; [reflexivity | by apply Hval2].
  - intros Hne. apply String.eqb_neq in Hne. by rewrite Hne.
Qed.

Lemma emitted_filter_is_well_formed_witness :
  ∃ filter,
    fst (FilterBuilder.applyFilter
           (FilterBuilder.run example_dataTypes
              [FilterBuilder.SelectColumn "when" None;
               FilterBuilder.SelectOperator "between" None;
               FilterBuilder.TypeValue "2023-06-01";
               FilterBuilder.TypeValue2 "2024-06-01"]
              FilterBuilder.initial)) = Some filter
    ∧ Api.operator filter
      ∈ map FilterBuilder.value
          (FilterBuilder.OPERATORS (ActiveFilter.filterType example_dataTypes filter))
    ∧ ∃ v2, Api.value2 filter = Some v2 ∧ v2 ≠ JS.VStr "".
Proof.
  eexists. split; [vm_compute; reflexivity|].
  match goal with
  | |- context [ActiveFilter.filterType _ ?f] =>
      destruct (emitted_filter_is_well_formed example_dataTypes
        [FilterBuilder.SelectColumn "when" None;
         FilterBuilder.SelectOperator "between" None;
         FilterBuilder.TypeValue "2023-06-01";
         FilterBuilder.TypeValue2 "2024-06-01"] f)
        as (_ & _ & Hin & _ & Hb & _)
  end.
  - vm_compute. reflexivity.
  - split; [exact Hin | apply Hb; reflexivity].
Defined.

(** ** The values of [in]: splitting, trimming, joining *)

Section InValues.
Import JS.

Lemma string_length_ind (P : string → Prop) :
  (∀ s, (∀ r, String.length r < String.length s → P r) → P s) → ∀ s, P s.
Proof.
  intros H s. remember (String.length s) as n eqn:Hn. revert s Hn.
  induction n as [n IH] using lt_wf_ind. intros s ->.
  apply H. intros r Hr. by apply (IH _ Hr).
Qed.

Lemma length_append (a b : string) :
  String.length (a +:+ b) = String.length a + String.length b.
Proof.
  induction a as [|c a IH]; [done|]. rewrite append_cons. cbn. by rewrite IH.
Qed.

Lemma append_assoc (a b c : string) : (a +:+ b) +:+ c = a +:+ (b +:+ c).
Proof. induction a as [|x a IH]; [done|]. rewrite !append_cons. by rewrite IH. Qed.

Lemma append_empty (a : string) : a +:+ "" = a.
Proof. induction a as [|x a IH]; [done|]. rewrite append_cons. by rewrite IH. Qed.

Lemma chars_append (a b : string) :
  String.list_ascii_of_string (a +:+ b)
  = String.list_ascii_of_string a ++ String.list_ascii_of_string b.
Proof.
  induction a as [|x a IH]; [done|]. rewrite append_cons. cbn. by rewrite IH.
Qed.

(** One step of [trimStart]: nothing to drop, or one white space
    character [w] is dropped whatever follows it. *)
Lemma trimStart_step (s : string) :
  trimStart s = s
  ∨ ∃ w r, s = w +:+ r ∧ w ≠ "" ∧ trimStart w = ""
           ∧ ∀ t, trimStart (w +:+ t) = trimStart t.
Proof.
  destruct s as [|c1 r1]; [by left|].
  destruct (white (code_point1 c1)) eqn:H1.
  { right. exists (String c1 ""), r1.
    split; [done|]. split; [done|].
    split; [cbn [trimStart]; by rewrite H1|].
    intros t. rewrite append_cons, append_nil. cbn [trimStart]. by rewrite H1. }
  destruct r1 as [|c2 r2]; [left; cbn [trimStart]; by rewrite H1|].
  destruct (white (code_point2 c1 c2)) eqn:H2.
  { right. exists (String c1 (String c2 "")), r2.
    split; [done|]. split; [done|].
    split; [cbn [trimStart]; by rewrite H1, H2|].
    intros t. rewrite !append_cons, append_nil. cbn [trimStart]. by rewrite H1, H2. }
  destruct r2 as [|c3 r3]; [left; cbn [trimStart]; by rewrite H1, H2|].
  destruct (white (code_point3 c1 c2 c3)) eqn:H3.
  { right. exists (String c1 (String c2 (String c3 ""))), r3.
    split; [done|]. split; [done|].
    split; [cbn [trimStart]; by rewrite H1, H2, H3|].
    intros t. rewrite !append_cons, append_nil. cbn [trimStart].
    by rewrite H1, H2, H3. }
  left. cbn [trimStart]. by rewrite H1, H2, H3.
Qed.

Lemma length_nonempty (w : string) : w ≠ "" → 0 < String.length w.
Proof. destruct w; [done|]. cbn. lia. Qed.

Lemma trimStart_length (s : string) :
  String.length (trimStart s) ≤ String.length s.
Proof.
  induction s as [s IH] using string_length_ind.
  destruct (trimStart_step s) as [-> | (w & r & -> & Hw & _ & Hstep)]; [done|].
  rewrite Hstep, length_append. pose proof (length_nonempty w Hw).
  etrans; [apply IH; rewrite length_append; lia|]. lia.
Qed.

(** White space before a text is dropped with the white space the text
    begins with. *)
Lemma trimStart_app_white (a b : string) :
  trimStart a = "" → trimStart (a +:+ b) = trimStart b.
Proof.
  induction a as [a IH] using string_length_ind. intros Ha.
  destruct (trimStart_step a) as [Hfix | (w & r & -> & Hw & _ & Hstep)].
  - rewrite Ha in Hfix. by subst a.
  - rewrite append_assoc, Hstep. rewrite Hstep in Ha.
    apply IH; [|done]. rewrite length_append.
    pose proof (length_nonempty w Hw). lia.
Qed.

Lemma trimStart_idemp (s : string) : trimStart (trimStart s) = trimStart s.
Proof.
  induction s as [s IH] using string_length_ind.
  destruct (trimStart_step s) as [Hfix | (w & r & -> & Hw & _ & Hstep)].
  - by rewrite Hfix.
  - rewrite Hstep. apply IH. rewrite length_append.
    pose proof (length_nonempty w Hw). lia.
Qed.

Lemma trimStart_suffix (s : string) :
  ∃ p, s = p +:+ trimStart s ∧ trimStart p = "".
Proof.
  induction s as [s IH] using string_length_ind.
  destruct (trimStart_step s) as [Hfix | (w & r & -> & Hw & Hwhite & Hstep)].
  - exists "". by rewrite Hfix.
  - destruct (IH r) as (p & Hp & Hpw).
    { rewrite length_append. pose proof (length_nonempty w Hw). lia. }
    exists (w +:+ p). rewrite Hstep, append_assoc, <- Hp. split; [done|].
    rewrite Hstep. done.
Qed.

Lemma trimEnd_cons (c : ascii) (r : string) :
  trimEnd (String c r)
  = if String.eqb (trimStart (String c r)) "" then "" else String c (trimEnd r).
Proof. reflexivity. Qed.

(** What [trimEnd] cuts is white space. *)
Lemma trimEnd_prefix (s : string) :
  ∃ w, s = trimEnd s +:+ w ∧ trimStart w = "".
Proof.
  induction s as [|c r (w & Hr & Hw)]; [by exists ""|].
  rewrite trimEnd_cons.
  destruct (String.eqb_spec (trimStart (String c r)) "") as [He|Hne].
  - by exists (String c r).
  - exists w. by rewrite append_cons, <- Hr.
Qed.

Lemma trimEnd_idemp (s : string) : trimEnd (trimEnd s) = trimEnd s.
Proof.
  induction s as [|c r IH]; [done|]. rewrite trimEnd_cons.
  destruct (String.eqb_spec (trimStart (String c r)) "") as [He|Hne]; [done|].
  rewrite trimEnd_cons, IH.
  destruct (String.eqb_spec (trimStart (String c (trimEnd r))) "") as [He|_]; [|done].
  exfalso. apply Hne.
  destruct (trimEnd_prefix r) as (w & Hr & Hw).
  rewrite Hr at 1. rewrite <- append_cons.
  by rewrite (trimStart_app_white _ _ He).
Qed.

(** A string that does not begin with white space still does not once
    [trimEnd] has cut it. *)
Lemma trimStart_trimEnd (s : string) :
  trimStart s = s → trimStart (trimEnd s) = trimEnd s.
Proof.
  intros Hfix.
  destruct (trimStart_step (trimEnd s)) as [H | (w & r & Hcut & Hw & _ & Hstep)];
    [done|].
  exfalso. destruct (trimEnd_prefix s) as (x & Hs & _).
  rewrite Hcut, append_assoc in Hs.
  pose proof (trimStart_length (r +:+ x)) as Hlen.
  pose proof (f_equal String.length Hs) as HL.
  rewrite <- Hstep, <- Hs, Hfix in Hlen.
  rewrite !length_append in HL. rewrite !length_append in Hlen.
  pose proof (length_nonempty w Hw). lia.
Qed.

Lemma trim_idemp (s : string) : trim (trim s) = trim s.
Proof.
  unfold trim. rewrite (trimStart_trimEnd (trimStart s) (trimStart_idemp s)).
  apply trimEnd_idemp.
Qed.

Lemma trimStart_chars (c : ascii) (s : string) :
  c ∈ String.list_ascii_of_string (trimStart s) → c ∈ String.list_ascii_of_string s.
Proof.
  destruct (trimStart_suffix s) as (p & Hs & _). intros H.
  rewrite Hs, chars_append. apply elem_of_app. by right.
Qed.

Lemma trimEnd_chars (c : ascii) (s : string) :
  c ∈ String.list_ascii_of_string (trimEnd s) → c ∈ String.list_ascii_of_string s.
Proof.
  destruct (trimEnd_prefix s) as (w & Hs & _). intros H.
  rewrite Hs, chars_append. apply elem_of_app. by left.
Qed.

Lemma trim_chars (c : ascii) (s : string) :
  c ∈ String.list_ascii_of_string (trim s) → c ∈ String.list_ascii_of_string s.
Proof. intros H. by apply trimStart_chars, trimEnd_chars. Qed.

(** A trimmed text neither begins nor ends with white space. *)
Lemma trim_fixed (s : string) :
  trim s = s ↔ trimStart s = s ∧ trimEnd s = s.
Proof.
  split.
  - intros H. assert (Hs : trimStart s = s).
    { rewrite <- H. unfold trim.
      apply trimStart_trimEnd, trimStart_idemp. }
    split; [done|]. unfold trim in H. by rewrite Hs in H.
  - intros [Hs He]. unfold trim. by rewrite Hs.
Qed.
(** The pieces of a split do not contain the separator. *)
Lemma split_chars (sep : ascii) (s piece : string) :
  piece ∈ split sep s → sep ∉ String.list_ascii_of_string piece.
Proof.
  revert piece. induction s as [|a s IH]; intros piece; cbn.
  - intros H. apply list_elem_of_singleton in H as ->. cbn. apply not_elem_of_nil.
  - destruct (Ascii.eqb_spec a sep) as [->|Hne].
    + intros H. apply elem_of_cons in H as [->|H]; [apply not_elem_of_nil | by apply IH].
    + destruct (split sep s) as [|h t] eqn:E.
      * intros H. apply list_elem_of_singleton in H as ->. cbn.
        intros H. apply elem_of_cons in H as [->|H]; [done|].
        by apply elem_of_nil in H.
      * intros H. apply elem_of_cons in H as [->|H].
        -- cbn. intros H. apply elem_of_cons in H as [Heq|H]; [by subst|].
           revert H. apply IH. apply elem_of_cons. by left.
        -- apply IH. apply elem_of_cons. by right.
Qed.

Lemma split_no_sep (sep : ascii) (s : string) :
  sep ∉ String.list_ascii_of_string s → split sep s = [s].
Proof.
  induction s as [|a s IH]; cbn; [done|]. intros H.
  apply not_elem_of_cons in H as [Hne Hs].
  destruct (Ascii.eqb_spec a sep) as [->|_]; [done|]. by rewrite (IH Hs).
Qed.

Lemma split_app_sep (sep : ascii) (x r : string) :
  sep ∉ String.list_ascii_of_string x →
  split sep (x +:+ String sep r) = x :: split sep r.
Proof.
  induction x as [|a x IH]; intros H.
  - rewrite append_nil. cbn. by rewrite Ascii.eqb_refl.
  - rewrite append_cons. cbn in H |- *.
    apply not_elem_of_cons in H as [Hne Hx].
    destruct (Ascii.eqb_spec a sep) as [->|_]; [done|]. by rewrite (IH Hx).
Qed.

Lemma split_nonempty (sep : ascii) (s : string) : split sep s ≠ [].
Proof.
  destruct s as [|a s]; cbn; [done|].
  destruct (Ascii.eqb a sep); [done|]. by destruct (split sep s).
Qed.

(** A blank put before a text changes nothing once the pieces are
    trimmed. *)
Lemma split_trim_blank (s : string) :
  map trim (split "," (String " " s)) = map trim (split "," s).
Proof.
  cbn [split]. change (Ascii.eqb " " ",") with false. cbn match.
  destruct (split "," s) as [|h t] eqn:E; [by apply split_nonempty in E|].
  reflexivity.
Qed.

Lemma in_values_clean (text v : string) :
  v ∈ FilterBuilder.in_values text → clean v.
Proof.
  unfold FilterBuilder.in_values. intros H.
  apply list_elem_of_filter in H as [Hne H].
  apply str_truthy_true in Hne.
  apply list_elem_of_fmap in H as (piece & -> & Hpiece).
  split; [done|]. split; [|apply trim_idemp].
  intros Hc. apply trim_chars in Hc. by apply (split_chars _ _ _ Hpiece).
Qed.

Lemma split_join_clean (l : list string) :
  l ≠ [] → Forall clean l → map trim (split "," (join ", " l)) = l.
Proof.
  induction l as [|x l IH]; [done|]. intros _ Hl.
  apply Forall_cons in Hl as [(Hx & Hcomma & Htrim) Hl].
  destruct l as [|y l].
  - cbn [join]. rewrite (split_no_sep _ _ Hcomma). cbn. by rewrite Htrim.
  - change (join ", " (x :: y :: l))
      with (x +:+ String "," (String " " (join ", " (y :: l)))).
    rewrite (split_app_sep _ _ _ Hcomma). cbn [map].
    rewrite Htrim, split_trim_blank, IH; done.
Qed.

Lemma join_nil_values : FilterBuilder.in_values (join ", " []) = [].
Proof. reflexivity. Qed.

Lemma filter_clean (l : list string) :
  Forall clean l → filter (λ v, str_truthy v = true) l = l.
Proof.
  induction 1 as [|v l (Hv & _) Hl IH]; [done|].
  rewrite filter_cons_True by (by apply str_truthy_true). by rewrite IH.
Qed.

Lemma in_values_join_clean (l : list string) :
  Forall clean l → FilterBuilder.in_values (join ", " l) = l.
Proof.
  intros Hl. destruct l as [|x l]; [reflexivity|].
  unfold FilterBuilder.in_values. rewrite split_join_clean by done.
  by apply filter_clean.
Qed.
End InValues.

Section SplitCompose.
Import JS.

Lemma split_app (sep : ascii) (a b : string) :
  split sep (a +:+ String sep b) = split sep a ++ split sep b.
Proof.
  induction a as [|c a IH].
  - rewrite append_nil. cbn. by rewrite Ascii.eqb_refl.
  - rewrite append_cons. cbn [split]. rewrite IH.
    destruct (Ascii.eqb c sep); [done|].
    destruct (split sep a) as [|h t] eqn:E; [by apply split_nonempty in E|].
    done.
Qed.

Lemma in_values_app (a b : string) :
  FilterBuilder.in_values (a +:+ String "," b)
  = FilterBuilder.in_values a ++ FilterBuilder.in_values b.
Proof.
  unfold FilterBuilder.in_values.
  by rewrite split_app, map_app, filter_app.
Qed.
End SplitCompose.

(** X5. The values read from the text of [in] are never empty, contain
    no comma and have no white space left at either end, where white
    space is all that [trim] strips: the ASCII blanks and line breaks,
    the no-break space, the Unicode spaces and the byte order mark.  The
    values of two texts joined by a comma are those of the first followed
    by those of the second, repetitions included. *)
Theorem in_values_are_clean_and_ordered (text more : string) :
  Forall (λ v, v ≠ ""
               ∧ (","%char ∉ String.list_ascii_of_string v)
               ∧ JS.trim v = v)
    (FilterBuilder.in_values text)
  ∧ FilterBuilder.in_values (text +:+ "," +:+ more)
    = FilterBuilder.in_values text ++ FilterBuilder.in_values more.
Proof.
  split; [|apply in_values_app].
  apply Forall_forall. intros v Hv. by apply in_values_clean in Hv.
Qed.

(** X6. A list filter is shown as its values joined by [", "], and that
    text is read back as the same values: what the tag of an [in] filter
    displays can be typed again to get the same filter. *)
Theorem in_filter_display_reads_back
    (number_toString : JS.number → string) (column text : string)
    (value2 : option JS.jsval) :
  let values := FilterBuilder.in_values text in
  let filter := Api.mkFilter column "in" (JS.VArr values) value2 in
  ActiveFilter.valueDisplay number_toString filter = JS.VStr (JS.join ", " values)
  ∧ FilterBuilder.in_values (JS.join ", " values) = values.
Proof.
  intros values filter. split.
  - unfold ActiveFilter.valueDisplay. cbn. by destruct value2.
  - apply in_values_join_clean. apply Forall_forall.
    intros v Hv. by apply in_values_clean in Hv.
Qed.

(** ** The type of a column, as each part of the front end reads it *)

Section ColumnGroups.
Import JS Getters.

Lemma filterType_cases (dataTypes : gmap string string) (filter : Api.Filter) :
  let declared := dataTypes !! Api.column filter in
  (ActiveFilter.filterType dataTypes filter = FilterBuilder.numeric
   ↔ declared = Some "numeric")
  ∧ (ActiveFilter.filterType dataTypes filter = FilterBuilder.datetime
     ↔ declared = Some "datetime" ∨ declared = Some "datetime_candidate").
Proof.
  cbn zeta. unfold ActiveFilter.filterType.
  destruct (dataTypes !! Api.column filter) as [d|]; [|split; split; naive_solver].
  destruct (String.eqb_spec d "") as [->|Hne]; [cbn; split; split; naive_solver|].
  rewrite (proj2 (str_truthy_true d) Hne). cbn [negb].
  destruct (String.eqb_spec d "numeric") as [->|Hn]; [split; split; naive_solver|].
  destruct (String.eqb_spec d "datetime") as [->|H1]; [split; split; naive_solver|].
  destruct (String.eqb_spec d "datetime_candidate") as [->|H2];
    split; split; naive_solver.
Qed.
End ColumnGroups.

(** X7. The filter form and the tag of an active filter read the type of
    a column off its declared type in the same way: for the column
    selected in the form, [columnDataType] is the [filterType] of a filter
    on that column. *)
Theorem form_and_tag_agree_on_column_type
    (dataTypes : gmap string string) (s : FilterBuilder.State)
    (filter : Api.Filter) :
  Api.column filter = FilterBuilder.selectedColumn s →
  FilterBuilder.selectedColumn s ≠ "" →
  FilterBuilder.columnDataType dataTypes s
  = Some (ActiveFilter.filterType dataTypes filter).
Proof. apply filterType_columnDataType. Qed.

Lemma form_and_tag_agree_on_column_type_witness :
  FilterBuilder.columnDataType example_dataTypes
    (FilterBuilder.with_column "when" FilterBuilder.initial)
  = Some (ActiveFilter.filterType example_dataTypes
            (Api.mkFilter "when" "gt" (JS.VStr "2024-01-01") None)).
Proof.
  apply (form_and_tag_agree_on_column_type example_dataTypes
           (FilterBuilder.with_column "when" FilterBuilder.initial)
           (Api.mkFilter "when" "gt" (JS.VStr "2024-01-01") None)).
  - reflexivity.
  - cbn. discriminate.
Defined.

(** X8. The three column lists of the store are taken from [columns] in
    its order and have no column in common.  A column is in the numeric
    or in the datetime list exactly when a filter on it is typed numeric
    or datetime; but the categorical list holds only the columns declared
    ["categorical"], so a column of any other declared type is in no list,
    although a filter on it would be typed categorical. *)
Theorem column_lists_partition (st : DataStore.State) (col : string * string) :
  let type := ActiveFilter.filterType (DataStore.dataTypes st)
                (Api.mkFilter col.1 "eq" (JS.VStr "") None) in
  (Getters.numericColumns st `sublist_of` DataStore.columns st
   ∧ Getters.categoricalColumns st `sublist_of` DataStore.columns st
   ∧ Getters.datetimeColumns st `sublist_of` DataStore.columns st)
  ∧ (col ∈ Getters.numericColumns st
     ↔ col ∈ DataStore.columns st ∧ type = FilterBuilder.numeric)
  ∧ (col ∈ Getters.datetimeColumns st
     ↔ col ∈ DataStore.columns st ∧ type = FilterBuilder.datetime)
  ∧ (col ∈ Getters.categoricalColumns st
     ↔ col ∈ DataStore.columns st
       ∧ DataStore.dataTypes st !! col.1 = Some "categorical")
  ∧ (col ∈ Getters.categoricalColumns st → type = FilterBuilder.categorical)
  ∧ ¬ (col ∈ Getters.numericColumns st ∧ col ∈ Getters.categoricalColumns st)
  ∧ ¬ (col ∈ Getters.numericColumns st ∧ col ∈ Getters.datetimeColumns st)
  ∧ ¬ (col ∈ Getters.categoricalColumns st ∧ col ∈ Getters.datetimeColumns st).
Proof.
  intros type.
  destruct (filterType_cases (DataStore.dataTypes st)
              (Api.mkFilter col.1 "eq" (JS.VStr "") None)) as [Hn Hd].
  cbn [Api.column] in Hn, Hd. fold type in Hn, Hd.
  unfold Getters.numericColumns, Getters.categoricalColumns,
    Getters.datetimeColumns, Getters.declaredType.
  split; [repeat split; apply sublist_filter|].
  rewrite !list_elem_of_filter.
  split; [rewrite Hn; naive_solver|].
  split; [rewrite Hd; naive_solver|].
  split; [naive_solver|].
  split.
  { intros [Hc _]. subst type. unfold ActiveFilter.filterType. cbn [Api.column].
    by rewrite Hc. }
  repeat split; naive_solver.
Qed.

(** ** DataStore: the filter actions and the query they start *)

Section StoreActions.
Import DataStore.
Variable api : Api.Client.

(** What a query writes: the data on success, the error on failure, and
    the two flags; never the filters, the charts or the source. *)
Lemma queryData_frame limit offset columns (st : State) :
  let st' := fst (queryData api limit offset columns st) in
  activeFilters st' = activeFilters st
  ∧ charts st' = charts st
  ∧ activeSource st' = activeSource st
  ∧ DataStore.columns st' = DataStore.columns st
  ∧ dataTypes st' = dataTypes st
  ∧ chartSuggestions st' = chartSuggestions st.
Proof.
  cbn zeta. unfold queryData, queryData_start.
  destruct (activeSource st) as [src|] eqn:Hsrc; cbn; [|done].
  by destruct (Api.queryData api _).
Qed.

Lemma queryData_no_source limit offset columns (st : State) :
  activeSource st = None →
  queryData api limit offset columns st = (st, Throw NoActiveSource).
Proof. intros H. unfold queryData, queryData_start. by rewrite H. Qed.

Lemma generateChart_no_source chartConfig (st : State) :
  activeSource st = None →
  generateChart api chartConfig st = (st, Throw NoActiveSource).
Proof. intros H. unfold generateChart, generateChart_start. by rewrite H. Qed.

Lemma queryData_outcome limit offset columns (st : State) (src : Source) :
  activeSource st = Some src →
  let request :=
    Api.mkQueryRequest (source_id src) (activeFilters st) limit offset columns in
  queryData api limit offset columns st
  = match Api.queryData api request with
    | inr response =>
        (set_loading false
           (set_data (Api.data response) (Api.total_rows response)
              (set_error None st)),
         Return response)
    | inl e =>
        (set_loading false (set_error (Some (error_text (Rejected e))) st),
         Throw (Rejected e))
    end.
Proof.
  intros Hsrc request. unfold queryData, queryData_start. rewrite Hsrc.
  cbn. fold request. by destruct (Api.queryData api request).
Qed.

Lemma generateChart_outcome chartConfig (st : State) (src : Source) :
  activeSource st = Some src →
  let request :=
    Api.mkChartRequest (source_id src) chartConfig (activeFilters st) in
  generateChart api chartConfig st
  = match Api.generateChart api request with
    | inr response =>
        (set_loading false
           (set_charts
              (charts st ++ [mkChart (Api.resp_chart_id response)
                               (Api.resp_chart_type response)
                               (Api.resp_figure response) chartConfig])
              (set_error None st)),
         Return response)
    | inl e =>
        (set_loading false (set_error (Some (error_text (Rejected e))) st),
         Throw (Rejected e))
    end.
Proof.
  intros Hsrc request. unfold generateChart, generateChart_start. rewrite Hsrc.
  cbn. fold request. by destruct (Api.generateChart api request).
Qed.
End StoreActions.

(** X9. Without an active source, a query and a chart request throw
    before anything is written: the store is exactly as it was, with no
    error recorded and the loading flag untouched.  A filter action still
    changes the active filters. *)
Theorem no_active_source_throws_untouched
    (api : Api.Client) (st : DataStore.State) :
  DataStore.activeSource st = None →
  (∀ limit offset columns,
     DataStore.queryData api limit offset columns st
     = (st, DataStore.Throw DataStore.NoActiveSource))
  ∧ (∀ chartConfig,
       DataStore.generateChart api chartConfig st
       = (st, DataStore.Throw DataStore.NoActiveSource))
  ∧ (∀ filter,
       DataStore.addFilter api filter st
       = DataStore.set_activeFilters (DataStore.activeFilters st ++ [filter]) st).
Proof.
  intros Hsrc. split; [|split].
  - intros. by apply queryData_no_source.
  - intros. by apply generateChart_no_source.
  - intros filter. unfold DataStore.addFilter.
    by rewrite queryData_no_source.
Qed.

Lemma no_active_source_throws_untouched_witness :
  let api := Api.mkClient (λ _, inr (Api.mkQueryResponse [] 0))
               (λ _, inr (Api.mkChartResponse "c1" "bar" "{}")) in
  DataStore.generateChart api (ChartConfig.generateChart_config ChartConfig.initial)
    DataStore.initial
  = (DataStore.initial, DataStore.Throw DataStore.NoActiveSource).
Proof.
  intros api.
  apply (no_active_source_throws_untouched api DataStore.initial). reflexivity.
Defined.

(** X10. The filter actions change the active filters whatever becomes of
    the query they start: adding appends at the end, removing deletes the
    entry at the index (and nothing when the index is past the end),
    clearing empties the list; the charts are never touched.  Removing
    the last entry after adding one gives back the filters there were. *)
Theorem filter_actions_do_not_depend_on_the_query
    (api : Api.Client) (st : DataStore.State) :
  (∀ filter,
     DataStore.activeFilters (DataStore.addFilter api filter st)
     = DataStore.activeFilters st ++ [filter]
     ∧ DataStore.charts (DataStore.addFilter api filter st) = DataStore.charts st)
  ∧ (∀ index,
       DataStore.activeFilters (DataStore.removeFilter api index st)
       = delete index (DataStore.activeFilters st)
       ∧ DataStore.charts (DataStore.removeFilter api index st) = DataStore.charts st)
  ∧ (∀ index, length (DataStore.activeFilters st) ≤ index →
       DataStore.activeFilters (DataStore.removeFilter api index st)
       = DataStore.activeFilters st)
  ∧ (DataStore.activeFilters (DataStore.clearFilters api st) = []
     ∧ DataStore.charts (DataStore.clearFilters api st) = DataStore.charts st)
  ∧ (∀ filter,
       DataStore.activeFilters
         (DataStore.removeFilter api (length (DataStore.activeFilters st))
            (DataStore.addFilter api filter st))
       = DataStore.activeFilters st).
Proof.
  assert (Hadd : ∀ filter,
    DataStore.activeFilters (DataStore.addFilter api filter st)
    = DataStore.activeFilters st ++ [filter]).
  { intros filter. unfold DataStore.addFilter.
    by rewrite (proj1 (queryData_frame api _ _ _ _)). }
  assert (Hrem : ∀ index st0,
    DataStore.activeFilters (DataStore.removeFilter api index st0)
    = delete index (DataStore.activeFilters st0)).
  { intros index st0. unfold DataStore.removeFilter.
    by rewrite (proj1 (queryData_frame api _ _ _ _)). }
  split; [|split; [|split; [|split]]].
  - intros filter. split; [apply Hadd|]. unfold DataStore.addFilter.
    by rewrite (proj1 (proj2 (queryData_frame api _ _ _ _))).
  - intros index. split; [apply Hrem|]. unfold DataStore.removeFilter.
    by rewrite (proj1 (proj2 (queryData_frame api _ _ _ _))).
  - intros index Hlen. rewrite Hrem.
    apply list_eq. intros i. rewrite list_lookup_delete.
    case_decide; [done|].
    rewrite !lookup_ge_None_2 by lia. done.
  - unfold DataStore.clearFilters.
    rewrite (proj1 (queryData_frame api _ _ _ _)).
    by rewrite (proj1 (proj2 (queryData_frame api _ _ _ _))).
  - intros filter. rewrite Hrem, Hadd.
    apply list_eq. intros i. rewrite list_lookup_delete.
    case_decide.
    + by rewrite lookup_app_l by lia.
    + rewrite !lookup_ge_None_2; [done | lia | rewrite length_app; cbn; lia].
Qed.

(** X11. With an active source, a filter action asks the client for the
    first hundred rows under the whole list of filters as it is after
    the change, and shows what is answered: the rows and the total of the
    answer, no error, loading over. *)
Theorem filter_action_requeries_with_all_filters
    (api : Api.Client) (st : DataStore.State) (src : DataStore.Source)
    (changed : list Api.Filter) (response : Api.QueryResponse) :
  DataStore.activeSource st = Some src →
  Api.queryData api
    (Api.mkQueryRequest (DataStore.source_id src) changed 100 0 None)
  = inr response →
  ∀ st',
    (∃ filter, changed = DataStore.activeFilters st ++ [filter]
               ∧ st' = DataStore.addFilter api filter st)
    ∨ (∃ index, changed = delete index (DataStore.activeFilters st)
                ∧ st' = DataStore.removeFilter api index st)
    ∨ (changed = [] ∧ st' = DataStore.clearFilters api st) →
    DataStore.activeFilters st' = changed
    ∧ DataStore.currentData st' = Api.data response
    ∧ DataStore.totalRows st' = Api.total_rows response
    ∧ DataStore.error st' = None
    ∧ DataStore.loading st' = false.
Proof.
  intros Hsrc Hcall st' Hst'.
  assert (H : st' = fst (DataStore.queryData api 100 0 None
                           (DataStore.set_activeFilters changed st))).
  { destruct Hst' as [(filter & -> & ->) | [(index & -> & ->) | [-> ->]]]; done. }
  rewrite H, (queryData_outcome api _ _ _ _ src) by done.
  cbn [DataStore.activeFilters DataStore.set_activeFilters]. rewrite Hcall. done.
Qed.

Lemma filter_action_requeries_with_all_filters_witness :
  let older := Api.mkFilter "city" "eq" (JS.VStr "Oslo") None in
  let newer := Api.mkFilter "age" "gt" (JS.VStr "30") None in
  let api :=
    Api.mkClient
      (λ request,
         if decide (length (Api.q_filters request) = 2)
         then inr (Api.mkQueryResponse ["row 7"] 1)
         else inl (Api.mkError None "Network Error"))
      (λ _, inl (Api.mkError None "Network Error")) in
  let st :=
    DataStore.mkState (Some (DataStore.mkSource "src-1" "csv" "people.csv"))
      ["row 1"; "row 7"] 2 [] example_dataTypes [older] [] false None [] in
  DataStore.activeFilters (DataStore.addFilter api newer st) = [older; newer]
  ∧ DataStore.currentData (DataStore.addFilter api newer st) = ["row 7"]
  ∧ DataStore.totalRows (DataStore.addFilter api newer st) = 1%Z
  ∧ DataStore.error (DataStore.addFilter api newer st) = None
  ∧ DataStore.loading (DataStore.addFilter api newer st) = false.
Proof.
  intros older newer api st.
  apply (filter_action_requeries_with_all_filters api st
           (DataStore.mkSource "src-1" "csv" "people.csv") [older; newer]
           (Api.mkQueryResponse ["row 7"] 1)).
  - reflexivity.
  - reflexivity.
  - left. exists newer. split; reflexivity.
Defined.

(** ** DataStore: the list of charts *)

Section Charts.
Import DataStore.

Lemma list_find_chart_absent (chartId : string) (cs : list Chart) :
  chartId ∉ map chart_id cs →
  list_find (λ c, chart_id c = chartId) cs = None.
Proof.
  intros H. apply list_find_None. apply Forall_forall. intros c Hc Heq.
  apply H. rewrite <- Heq. apply list_elem_of_fmap. by exists c.
Qed.

(** The first chart with the identifier is the one taken out. *)
Lemma removeChart_first (chartId : string) (before after : list Chart) (c : Chart)
    (st : State) :
  charts st = before ++ c :: after → chart_id c = chartId →
  chartId ∉ map chart_id before →
  charts (removeChart chartId st) = before ++ after.
Proof.
  intros Hcs Hc Hbefore. unfold removeChart. cbn. rewrite Hcs. clear Hcs.
  induction before as [|b before IH]; cbn.
  - by rewrite decide_True.
  - cbn in Hbefore. apply not_elem_of_cons in Hbefore as [Hb Hbefore].
    rewrite decide_False by congruence.
    specialize (IH Hbefore).
    destruct (list_find _ (before ++ c :: after)) as [[i x]|]; cbn in IH |- *;
      f_equal; exact IH.
Qed.

Lemma removeChart_absent (chartId : string) (st : State) :
  chartId ∉ map chart_id (charts st) →
  charts (removeChart chartId st) = charts st.
Proof.
  intros H. unfold removeChart. cbn. by rewrite list_find_chart_absent.
Qed.
End Charts.

(** X12. A chart request that is answered appends one chart, with the
    identifier, type and figure of the answer and the configuration that
    was sent, after the charts already shown.  Removing a chart takes out
    the first chart with that identifier and keeps the others in order;
    an identifier that no chart has removes nothing.  So removing a
    chart just generated, whose identifier is new, gives back the list
    there was. *)
Theorem generated_chart_can_be_removed
    (api : Api.Client) (st : DataStore.State) (src : DataStore.Source)
    (chartConfig : Api.ChartConfig) (response : Api.ChartResponse) :
  DataStore.activeSource st = Some src →
  Api.generateChart api
    (Api.mkChartRequest (DataStore.source_id src) chartConfig
       (DataStore.activeFilters st))
  = inr response →
  let st' := fst (DataStore.generateChart api chartConfig st) in
  DataStore.charts st'
  = DataStore.charts st
    ++ [DataStore.mkChart (Api.resp_chart_id response)
          (Api.resp_chart_type response) (Api.resp_figure response) chartConfig]
  ∧ (∀ chartId, chartId ∉ map DataStore.chart_id (DataStore.charts st') →
       DataStore.charts (DataStore.removeChart chartId st') = DataStore.charts st')
  ∧ (∀ before c after,
       DataStore.charts st' = before ++ c :: after →
       DataStore.chart_id c ∉ map DataStore.chart_id before →
       DataStore.charts (DataStore.removeChart (DataStore.chart_id c) st')
       = before ++ after)
  ∧ (Api.resp_chart_id response ∉ map DataStore.chart_id (DataStore.charts st) →
       DataStore.charts (DataStore.removeChart (Api.resp_chart_id response) st')
       = DataStore.charts st).
Proof.
  intros Hsrc Hcall st'.
  assert (Hcharts : DataStore.charts st'
    = DataStore.charts st
      ++ [DataStore.mkChart (Api.resp_chart_id response)
            (Api.resp_chart_type response) (Api.resp_figure response) chartConfig]).
  { subst st'. rewrite (generateChart_outcome api _ _ src Hsrc). cbn zeta.
    by rewrite Hcall. }
  split; [exact Hcharts|]. split; [|split].
  - intros chartId. apply removeChart_absent.
  - intros before c after Hcs Hbefore.
    by apply (removeChart_first _ before after c).
  - intros Hnew.
    pose proof (removeChart_first (Api.resp_chart_id response)
                  (DataStore.charts st) [] _ st' Hcharts eq_refl Hnew) as H.
    rewrite H. apply app_nil_r.
Qed.

Lemma generated_chart_can_be_removed_witness :
  let api := Api.mkClient (λ _, inr (Api.mkQueryResponse [] 0))
               (λ _, inr (Api.mkChartResponse "c2" "bar" "{}")) in
  let shown :=
    DataStore.mkChart "c1" "line" "{}"
      (ChartConfig.generateChart_config ChartConfig.initial) in
  let st :=
    DataStore.mkState (Some (DataStore.mkSource "src-1" "csv" "people.csv"))
      [] 0 [] example_dataTypes [] [shown] false None [] in
  let chartConfig :=
    ChartConfig.generateChart_config
      (ChartConfig.run [ChartConfig.SelectChartType "bar"; ChartConfig.SelectX "city";
                        ChartConfig.SelectY "age"] ChartConfig.initial) in
  DataStore.charts
    (DataStore.removeChart "c2" (fst (DataStore.generateChart api chartConfig st)))
  = [shown].
Proof.
  intros api shown st chartConfig.
  destruct (generated_chart_can_be_removed api st
              (DataStore.mkSource "src-1" "csv" "people.csv") chartConfig
              (Api.mkChartResponse "c2" "bar" "{}") eq_refl eq_refl)
    as (_ & _ & _ & H).
  apply H. cbn. intros Hin. apply list_elem_of_singleton in Hin. discriminate Hin.
Defined.



(** ** ChartConfig: what goes into the configuration *)

Section BuiltConfig.
Import JS ChartConfig.

Lemma when_ind_guard {A} (P : A → Prop) (b : bool) (f : A → A) (a : A) :
  P a → (b = true → ∀ x, P x → P (f x)) → P (when b f a).
Proof. intros Ha Hf. destruct b; cbn; auto. Qed.

Lemma when_id {A} (b : bool) (f : A → A) (a : A) :
  (∀ x, f x = x) → when b f a = a.
Proof. intros H. destruct b; cbn; auto. Qed.

Lemma set_option_within t k v c :
  option_of_chart_type t k → config_within t c → config_within t (set_option k v c).
Proof.
  intros Hk [Hopt Hsize]. split; [|exact Hsize].
  intros k' Hk'. cbn in Hk'. apply lookup_insert_is_Some in Hk' as [<- | [_ Hk']].
  - exact Hk.
  - by apply Hopt.
Qed.

Lemma set_y_column_within t v c :
  config_within t c → config_within t (set_y_column v c).
Proof. intros [H1 H2]. by split. Qed.

Lemma set_color_column_within t v c :
  config_within t c → config_within t (set_color_column v c).
Proof. intros [H1 H2]. by split. Qed.

Lemma set_size_column_within v c :
  config_within "scatter" c → config_within "scatter" (set_size_column v c).
Proof. intros [H1 H2]. by split. Qed.

Ltac or_search :=
  solve [ reflexivity | split; or_search | left; or_search | right; or_search ].

Ltac within_key := unfold option_of_chart_type; or_search.

Ltac within_step :=
  match goal with
  | H : config_within ?t ?c |- config_within ?t ?c => exact H
  | |- config_within _ (when _ _ _) => apply when_ind_guard; [|intros _ ? ?]
  | |- config_within _ (set_option _ _ _) =>
      apply set_option_within; [within_key|]
  | |- config_within _ (set_y_column _ _) => apply set_y_column_within
  | |- config_within _ (set_color_column _ _) => apply set_color_column_within
  | |- config_within _ (set_size_column _ _) => apply set_size_column_within
  | |- config_within _ (if ?b then _ else _) => destruct b
  end.

Lemma generateChart_config_within (s : State) :
  config_within (chartType s) (generateChart_config s).
Proof.
  unfold generateChart_config. cbv zeta.
  (* heatmap *)
  apply when_ind_guard;
    [|intros Hg x Hx; apply String.eqb_eq in Hg; rewrite Hg in *;
      repeat within_step].
  (* box and violin *)
  apply when_ind_guard;
    [|intros Hg x Hx; apply orb_true_iff in Hg;
      rewrite !String.eqb_eq in Hg;
      assert (Hkey : ∀ k, k = "show_points" ∨ k = "horizontal" →
                option_of_chart_type (chartType s) k)
        by (intros k Hk; unfold option_of_chart_type; naive_solver);
      repeat first
        [ assumption
        | apply set_option_within; [apply Hkey; naive_solver|]
        | apply when_ind_guard; [|intros _ ? ?] ]].
  (* histogram *)
  apply when_ind_guard;
    [|intros Hg x Hx; apply String.eqb_eq in Hg; rewrite Hg in *;
      repeat within_step].
  (* time series *)
  apply when_ind_guard;
    [|intros Hg x Hx; apply andb_true_iff in Hg as [Hg _];
      apply String.eqb_eq in Hg; rewrite Hg in *; repeat within_step].
  (* scatter *)
  apply when_ind_guard;
    [|intros Hg x Hx; apply String.eqb_eq in Hg; rewrite Hg in *;
      repeat within_step].
  (* bar *)
  apply when_ind_guard;
    [|intros Hg x Hx; apply String.eqb_eq in Hg; rewrite Hg in *;
      repeat within_step].
  (* line *)
  apply when_ind_guard;
    [|intros Hg x Hx; apply andb_true_iff in Hg as [Hg _];
      apply String.eqb_eq in Hg; rewrite Hg in *; repeat within_step].
  (* colour *)
  apply when_ind_guard; [|intros _ x Hx; repeat within_step].
  split; cbn.
  - intros k Hk. rewrite lookup_empty in Hk. by destruct Hk.
  - intros Hk. by destruct Hk.
Qed.
End BuiltConfig.

(** X14. Whatever the form holds, options left over from another chart
    type included, the configuration built has in its options only keys
    of the chart type selected, besides the numeric colour; and it has a
    size column only for a scatter chart. *)
Theorem built_options_belong_to_the_chart_type (s : ChartConfig.State) (k : string) :
  let config := ChartConfig.generateChart_config s in
  let t := ChartConfig.chartType s in
  (is_Some (Api.options config !! k) →
     k = "color_numeric"
     ∨ (t = "line" ∧ (k = "y_columns" ∨ k = "secondary_y_columns"))
     ∨ (t = "bar" ∧ (k = "bar_mode" ∨ k = "sort_order" ∨ k = "orientation"))
     ∨ (t = "scatter" ∧ (k = "show_trendline" ∨ k = "trendline_degree"))
     ∨ (t = "time_series" ∧ k = "value_columns")
     ∨ (t = "histogram" ∧ (k = "show_distribution_fit" ∨ k = "show_statistics"))
     ∨ ((t = "box" ∨ t = "violin") ∧ (k = "show_points" ∨ k = "horizontal"))
     ∨ (t = "heatmap" ∧ (k = "colorscale" ∨ k = "show_annotations")))
  ∧ (is_Some (Api.size_column config) → t = "scatter").
Proof.
  intros config t. destruct (generateChart_config_within s) as [Hopt Hsize].
  split; [apply Hopt | exact Hsize].
Qed.

Section BuiltFields.
Import JS ChartConfig.

(** A field that no step of [generateChart] writes is as in the object
    it starts from. *)
Lemma generateChart_config_frame {B} (g : Api.ChartConfig → B) (s : State) :
  (∀ k v c, g (set_option k v c) = g c) →
  (∀ v c, g (set_color_column v c) = g c) →
  (∀ v c, g (set_y_column v c) = g c) →
  (∀ v c, g (set_size_column v c) = g c) →
  g (generateChart_config s)
  = g (Api.mkConfig (chartType s) (or_null (xColumn s)) (or_null (yColumn s))
         None (or_null (chartTitle s)) None ∅).
Proof.
  intros Ho Hc Hy Hs. unfold generateChart_config. cbv zeta.
  repeat match goal with
    | |- g (when _ _ _) = ?r => apply (when_ind (λ c, g c = r)); [|intros ? ?]
    | |- g (if ?b then _ else _) = _ => destruct b
    | |- g (set_option _ _ _) = _ => rewrite Ho
    | |- g (set_color_column _ _) = _ => rewrite Hc
    | |- g (set_y_column _ _) = _ => rewrite Hy
    | |- g (set_size_column _ _) = _ => rewrite Hs
    | H : g ?c = ?r |- g ?c = ?r => exact H
    | |- ?x = ?x => reflexivity
    end.
Qed.

Lemma generateChart_config_x_column (s : State) :
  Api.x_column (generateChart_config s) = or_null (xColumn s).
Proof. by apply (generateChart_config_frame Api.x_column). Qed.

Lemma generateChart_config_title (s : State) :
  Api.title (generateChart_config s) = or_null (chartTitle s).
Proof. by apply (generateChart_config_frame Api.title). Qed.

Lemma set_option_y_columns k v y ys secondary c :
  k ≠ "y_columns" → k ≠ "secondary_y_columns" →
  y_columns_are y ys secondary c → y_columns_are y ys secondary (set_option k v c).
Proof.
  intros H1 H2 (Hy & Hys & Hsec). split; [exact Hy|]. cbn.
  by rewrite !lookup_insert_ne.
Qed.

Lemma set_size_column_y_columns v y ys secondary c :
  y_columns_are y ys secondary c → y_columns_are y ys secondary (set_size_column v c).
Proof. intros (Hy & Hys & Hsec). by split. Qed.

Lemma set_color_column_y_columns v y ys secondary c :
  y_columns_are y ys secondary c → y_columns_are y ys secondary (set_color_column v c).
Proof. intros (Hy & Hys & Hsec). by split. Qed.

Ltac y_columns_step :=
  match goal with
  | H : y_columns_are ?a ?b ?c ?x |- y_columns_are ?a ?b ?c ?x => exact H
  | |- y_columns_are ?a ?b ?c (when _ _ _) =>
      apply (when_ind (y_columns_are a b c)); [|intros ? ?]
  | |- y_columns_are _ _ _ (if ?b then _ else _) => destruct b
  | |- y_columns_are _ _ _ (set_option _ _ _) =>
      apply set_option_y_columns; [discriminate|discriminate|]
  | |- y_columns_are _ _ _ (set_size_column _ _) => apply set_size_column_y_columns
  | |- y_columns_are _ _ _ (set_color_column _ _) => apply set_color_column_y_columns
  end.

(** The Y columns of the built configuration: those of the multi-Y
    selection for a line chart that has one, the single Y column
    otherwise. *)
Lemma generateChart_config_y_columns (s : State) :
  let multi := String.eqb (chartType s) "line" && (0 <? length (yColumns s)) in
  y_columns_are
    (if multi then head (yColumns s) else or_null (yColumn s))
    (if multi then Some (Api.OList (yColumns s)) else None)
    (if multi && (0 <? length (secondaryYColumns s))
     then Some (Api.OList (secondaryYColumns s)) else None)
    (generateChart_config s).
Proof.
  intros multi. unfold generateChart_config. cbv zeta. fold multi.
  match goal with
  | |- context [when (str_truthy (colorColumn s)) ?f ?c] =>
      set (coloured := when (str_truthy (colorColumn s)) f c)
  end.
  assert (Hcoloured : y_columns_are (or_null (yColumn s)) None None coloured).
  { subst coloured. repeat y_columns_step. by split. }
  clearbody coloured.
  match goal with
  | |- context [when multi ?f coloured] => set (lined := when multi f coloured)
  end.
  match goal with
  | |- y_columns_are ?a ?b ?c _ => assert (Hlined : y_columns_are a b c lined)
  end.
  { subst lined. destruct multi; cbn [when andb]; [|exact Hcoloured].
    destruct Hcoloured as (Hy & Hys & Hsec).
    destruct (0 <? length (secondaryYColumns s)); cbn [when]; split; try done; cbn.
    - split; [by rewrite lookup_insert_ne, lookup_insert_eq |
              by rewrite lookup_insert_eq].
    - split; [by rewrite lookup_insert_eq | by rewrite lookup_insert_ne]. }
  clearbody lined. repeat y_columns_step.
Qed.
End BuiltFields.

(** X15. The Y columns of the configuration.  A line chart with a
    multi-Y selection sends that selection as [y_columns] and its first
    column as [y_column], whatever the single Y field holds; any other
    form sends the single Y column and no [y_columns].  In every state
    the form can reach, a [secondary_y_columns] that is sent is not
    empty and is taken among the [y_columns] sent with it. *)
Theorem y_columns_of_the_configuration (es : list ChartConfig.Event) :
  let s := ChartConfig.run es ChartConfig.initial in
  let config := ChartConfig.generateChart_config s in
  (ChartConfig.chartType s = "line" ∧ ChartConfig.yColumns s ≠ [] →
     Api.y_column config = head (ChartConfig.yColumns s)
     ∧ Api.options config !! "y_columns"
       = Some (Api.OList (ChartConfig.yColumns s)))
  ∧ (ChartConfig.chartType s ≠ "line" ∨ ChartConfig.yColumns s = [] →
     Api.y_column config = JS.or_null (ChartConfig.yColumn s)
     ∧ Api.options config !! "y_columns" = None
     ∧ Api.options config !! "secondary_y_columns" = None)
  ∧ (∀ secondary,
       Api.options config !! "secondary_y_columns" = Some (Api.OList secondary) →
       secondary ≠ []
       ∧ ∃ ys, Api.options config !! "y_columns" = Some (Api.OList ys)
               ∧ secondary ⊆ ys).
Proof.
  intros s config.
  destruct (generateChart_config_y_columns s) as (Hy & Hys & Hsec).
  fold config in Hy, Hys, Hsec.
  split; [|split].
  - intros [Hline Hne].
    assert (Hm : String.eqb (ChartConfig.chartType s) "line"
                 && (0 <? length (ChartConfig.yColumns s)) = true).
    { rewrite Hline. cbn. by destruct (ChartConfig.yColumns s). }
    rewrite Hm in Hy, Hys. done.
  - intros Hor.
    assert (Hm : String.eqb (ChartConfig.chartType s) "line"
                 && (0 <? length (ChartConfig.yColumns s)) = false).
    { destruct Hor as [Hl | ->]; [|apply andb_false_r].
      apply String.eqb_neq in Hl. by rewrite Hl. }
    rewrite Hm in Hy, Hys, Hsec. done.
  - intros secondary Hs. rewrite Hsec in Hs.
    destruct (String.eqb (ChartConfig.chartType s) "line"
              && (0 <? length (ChartConfig.yColumns s))) eqn:Hm; [|done].
    cbn [andb] in Hs.
    destruct (0 <? length (ChartConfig.secondaryYColumns s)) eqn:Hlen; [|done].
    injection Hs as <-. split.
    + by destruct (ChartConfig.secondaryYColumns s).
    + exists (ChartConfig.yColumns s). split; [exact Hys|].
      apply (run_secondary_within es ChartConfig.initial).
      unfold secondary_within. done.
Qed.

(** X16. The Generate button is enabled exactly when the configuration
    that would be sent has the columns its chart type needs: nothing for
    a heatmap, an X column for a histogram, an X and a Y column for any
    other type. *)
Theorem canGenerate_iff_required_columns_sent (s : ChartConfig.State) :
  let config := ChartConfig.generateChart_config s in
  ChartConfig.canGenerate s = true ↔
    ChartConfig.chartType s = "heatmap"
    ∨ (is_Some (Api.x_column config)
       ∧ (ChartConfig.chartType s = "histogram" ∨ is_Some (Api.y_column config))).
Proof.
  intros config.
  destruct (generateChart_config_y_columns s) as (Hy & _).
  pose proof (generateChart_config_x_column s) as Hx.
  fold config in Hy, Hx. rewrite Hx, Hy. clear Hx Hy.
  assert (Hnull : ∀ v, is_Some (JS.or_null v) ↔ JS.str_truthy v = true).
  { intros v. unfold JS.or_null. destruct (JS.str_truthy v); split; try done.
    all: intros [? ?]; done. }
  unfold ChartConfig.canGenerate. rewrite !Hnull.
  destruct (String.eqb_spec (ChartConfig.chartType s) "heatmap") as [Hh|Hh];
    [naive_solver|].
  destruct (String.eqb_spec (ChartConfig.chartType s) "histogram") as [Hg|Hg];
    [naive_solver|].
  destruct (String.eqb_spec (ChartConfig.chartType s) "line") as [Hl|Hl]; cbn [andb].
  - rewrite andb_true_iff, orb_true_iff.
    destruct (ChartConfig.yColumns s) as [|y0 ys]; cbn.
    + rewrite Hnull. naive_solver.
    + split; [intros [Hx _]; right; split; [done | right; by eexists] | naive_solver].
  - rewrite andb_true_iff, Hnull. naive_solver.
Qed.


(** X18. Right after the chart type has been changed, nothing of the
    chart-specific options is sent: the options of the configuration
    hold the numeric colour if one is selected, the value column of a
    time series if a Y column is selected, and no other key; and no size
    column is sent. *)
Theorem nothing_chart_specific_sent_after_a_switch
    (s : ChartConfig.State) (t : string) :
  t ≠ ChartConfig.chartType s →
  let s' := ChartConfig.handle (ChartConfig.SelectChartType t) s in
  let config := ChartConfig.generateChart_config s' in
  Api.chart_type config = t
  ∧ Api.size_column config = None
  ∧ (∀ k, is_Some (Api.options config !! k) →
       (k = "color_numeric"
        ∧ JS.startsWith (ChartConfig.colorColumn s) "numeric:" = true)
       ∨ (k = "value_columns" ∧ t = "time_series" ∧ ChartConfig.yColumn s ≠ "")).
Proof.
  intros Hne s' config. subst config s'. cbn [ChartConfig.handle].
  unfold ChartConfig.flush_chartType. rewrite decide_False by (cbn; congruence).
  split; [by rewrite generateChart_config_chart_type|].
  set (Q := λ c : Api.ChartConfig,
         Api.size_column c = None
         ∧ ∀ k, is_Some (Api.options c !! k) →
             (k = "color_numeric"
              ∧ JS.startsWith (ChartConfig.colorColumn s) "numeric:" = true)
             ∨ (k = "value_columns" ∧ t = "time_series"
                ∧ ChartConfig.yColumn s ≠ "")).
  match goal with |- Api.size_column ?c = None ∧ _ => change (Q c) end.
  unfold ChartConfig.generateChart_config. cbv zeta.
  assert (Hsame : ∀ (b : bool) f c,
            (∀ x, f x = x) → Q c → Q (ChartConfig.when b f c)).
  { intros b f c Hf Hc. by rewrite when_id. }
  (* heatmap, box and violin, histogram: every option is at its default *)
  do 3 (apply Hsame; [done|]).
  (* time series *)
  apply when_ind_guard.
  2:{ intros Hg c [Hs Hk]. cbn in Hg. apply andb_true_iff in Hg as [Ht Hy].
      apply String.eqb_eq in Ht. apply str_truthy_true in Hy.
      split; [exact Hs|]. intros k Hin. cbn in Hin.
      apply lookup_insert_is_Some in Hin as [<- | [_ Hin]];
        [by right | by apply Hk]. }
  (* scatter, bar: at their defaults; line: no multi-Y selection *)
  do 2 (apply Hsame; [done|]).
  apply when_ind_guard.
  2:{ intros Hg. cbn in Hg. by rewrite andb_false_r in Hg. }
  (* colour *)
  apply when_ind_guard.
  - split; [done|]. intros k Hk. cbn in Hk. rewrite lookup_empty in Hk.
    by destruct Hk.
  - intros _ c HQ. subst Q. cbv beta in HQ |- *.
    change (ChartConfig.colorColumn
              (ChartConfig.watch_yColumns
                 (ChartConfig.watch_chartType (ChartConfig.set_chartType t s))))
      with (ChartConfig.colorColumn s).
    destruct (JS.startsWith (ChartConfig.colorColumn s) "numeric:") eqn:Hp;
      destruct HQ as [Hs Hk].
    + split; [exact Hs|]. intros k Hin. cbn in Hin.
      apply lookup_insert_is_Some in Hin as [<- | [_ Hin]];
        [by left | by apply Hk].
    + by split.
Qed.

Lemma nothing_chart_specific_sent_after_a_switch_witness :
  let s :=
    ChartConfig.run
      [ChartConfig.SelectChartType "bar"; ChartConfig.SelectX "city";
       ChartConfig.SelectY "age"; ChartConfig.SelectBarMode "stack";
       ChartConfig.SelectOrientation "h"]
      ChartConfig.initial in
  Api.options (ChartConfig.generateChart_config s) !! "bar_mode"
  = Some (Api.OStr "stack")
  ∧ let s' := ChartConfig.handle (ChartConfig.SelectChartType "box") s in
    Api.options (ChartConfig.generateChart_config s') !! "bar_mode" = None
    ∧ Api.options (ChartConfig.generateChart_config s') !! "orientation" = None.
Proof.
  intros s. split; [vm_compute; reflexivity|]. intros s'.
  destruct (nothing_chart_specific_sent_after_a_switch s "box")
    as (_ & _ & H); [vm_compute; discriminate|].
  fold s' in H.
  split.
  - destruct (Api.options (ChartConfig.generateChart_config s') !! "bar_mode")
      eqn:E; [|done].
    destruct (H "bar_mode") as [[C _] | [C _]]; [by eexists | discriminate C..].
  - destruct (Api.options (ChartConfig.generateChart_config s') !! "orientation")
      eqn:E; [|done].
    destruct (H "orientation") as [[C _] | [C _]]; [by eexists | discriminate C..].
Defined.

(** ** ChartView: the name shown for a chart type *)

Section ChartTypeName.
Import ChartView.

Lemma isWordChar_toUpperCase (c : ascii) :
  isWordChar (toUpperCase c) = isWordChar c.
Proof. destruct c as [[] [] [] [] [] [] [] []]; reflexivity. Qed.

Lemma toUpperCase_idemp (c : ascii) : toUpperCase (toUpperCase c) = toUpperCase c.
Proof. destruct c as [[] [] [] [] [] [] [] []]; reflexivity. Qed.

Lemma toUpperCase_underscore (c : ascii) :
  c ≠ "_"%char → toUpperCase c ≠ "_"%char.
Proof. destruct c as [[] [] [] [] [] [] [] []]; intros H; vm_compute; congruence. Qed.

Lemma underscores_to_spaces_chars (s : string) :
  "_"%char ∉ String.list_ascii_of_string (underscores_to_spaces s).
Proof.
  induction s as [|c s IH]; cbn; [apply not_elem_of_nil|].
  apply not_elem_of_cons. split; [|exact IH].
  destruct (Ascii.eqb_spec c "_"); [discriminate | congruence].
Qed.

Lemma underscores_to_spaces_id (s : string) :
  "_"%char ∉ String.list_ascii_of_string s → underscores_to_spaces s = s.
Proof.
  induction s as [|c s IH]; cbn; [done|]. intros H.
  apply not_elem_of_cons in H as [Hc Hs].
  destruct (Ascii.eqb_spec c "_"); [congruence|]. by rewrite IH.
Qed.

Lemma capitalize_words_chars (b : bool) (s : string) :
  "_"%char ∉ String.list_ascii_of_string s →
  "_"%char ∉ String.list_ascii_of_string (capitalize_words b s).
Proof.
  revert b. induction s as [|c s IH]; intros b; cbn; [done|]. intros H.
  apply not_elem_of_cons in H as [Hc Hs].
  apply not_elem_of_cons. split; [|by apply IH].
  destruct (isWordChar c && negb b); [|congruence].
  intros Heq. by apply (toUpperCase_underscore c).
Qed.

Lemma capitalize_words_idemp (b : bool) (s : string) :
  capitalize_words b (capitalize_words b s) = capitalize_words b s.
Proof.
  revert b. induction s as [|c s IH]; intros b; cbn; [done|].
  destruct (isWordChar c && negb b) eqn:E.
  - rewrite isWordChar_toUpperCase, E, toUpperCase_idemp, IH. done.
  - rewrite E, IH. done.
Qed.

Lemma capitalize_words_length (b : bool) (s : string) :
  String.length (capitalize_words b s) = String.length s.
Proof. revert b. induction s as [|c s IH]; intros b; cbn; [done|]. by rewrite IH. Qed.

Lemma underscores_to_spaces_length (s : string) :
  String.length (underscores_to_spaces s) = String.length s.
Proof. induction s as [|c s IH]; cbn; [done|]. by rewrite IH. Qed.
End ChartTypeName.

(** X19. The name shown for a chart type has the length of the type,
    contains no underscore, and is left as it is when formatted again;
    for instance [time_series] is shown as [Time Series]. *)
Theorem chart_type_name_is_stable (type : string) :
  String.length (ChartView.formatChartType type) = String.length type
  ∧ ("_"%char ∉ String.list_ascii_of_string (ChartView.formatChartType type))
  ∧ ChartView.formatChartType (ChartView.formatChartType type)
    = ChartView.formatChartType type
  ∧ ChartView.formatChartType "time_series" = "Time Series".
Proof.
  unfold ChartView.formatChartType. split; [|split; [|split]].
  - by rewrite capitalize_words_length, underscores_to_spaces_length.
  - apply capitalize_words_chars, underscores_to_spaces_chars.
  - rewrite (underscores_to_spaces_id (ChartView.capitalize_words false _))
      by apply capitalize_words_chars, underscores_to_spaces_chars.
    apply capitalize_words_idemp.
  - reflexivity.
Qed.

(** ** FilterPanel: from the form to the store *)

(** X20. Clear All empties the filters without asking when there are at
    most three; with more than three it asks, and a refusal leaves the
    store as it is, without a query.  Applying from the form with the gate
    open hides the form, empties it, and puts the emitted filter after
    the filters of the store, whatever the query answers; with the gate
    closed nothing changes. *)
Theorem panel_passes_filters_to_the_store
    (api : Api.Client) (p : FilterPanel.State) (st : DataStore.State) :
  (∀ confirm, length (DataStore.activeFilters st) ≤ 3 →
     FilterPanel.handleClearAll api confirm p st
     = (p, DataStore.clearFilters api st))
  ∧ (∀ confirm, 3 < length (DataStore.activeFilters st) →
       FilterPanel.handleClearAll api confirm p st
       = if confirm (length (DataStore.activeFilters st))
         then (p, DataStore.clearFilters api st) else (p, st))
  ∧ (∀ b : FilterBuilder.State, FilterBuilder.canApply b = false →
       FilterPanel.applyAndAdd api b p st = (b, (p, st)))
  ∧ (∀ b : FilterBuilder.State, FilterBuilder.canApply b = true →
       ∃ filter b' p' st',
         FilterPanel.applyAndAdd api b p st = (b', (p', st'))
         ∧ fst (FilterBuilder.applyFilter b) = Some filter
         ∧ FilterBuilder.canApply b' = false
         ∧ FilterPanel.showFilterBuilder p' = false
         ∧ FilterPanel.isExpanded p' = FilterPanel.isExpanded p
         ∧ DataStore.activeFilters st' = DataStore.activeFilters st ++ [filter]).
Proof.
  split; [|split; [|split]].
  - intros confirm Hlen. unfold FilterPanel.handleClearAll, FilterPanel.activeFilterCount.
    destruct (Nat.ltb_spec 3 (length (DataStore.activeFilters st))); [lia | done].
  - intros confirm Hlen. unfold FilterPanel.handleClearAll, FilterPanel.activeFilterCount.
    destruct (Nat.ltb_spec 3 (length (DataStore.activeFilters st))); [|lia].
    by destruct (confirm _).
  - intros b Hb. unfold FilterPanel.applyAndAdd.
    rewrite (applyFilter_closed b Hb). unfold FilterBuilder.flush.
    by rewrite decide_True.
  - intros b Hb. unfold FilterPanel.applyAndAdd.
    rewrite (applyFilter_open b Hb). eexists _, _, _, _.
    split; [reflexivity|]. split; [reflexivity|].
    split; [|split; [done|split; [done|]]].
    + rewrite flush_empty by done. by apply canApply_empty.
    + unfold DataStore.addFilter.
      by rewrite (proj1 (queryData_frame api _ _ _ _)).
Qed.

(** ** Loading a source *)

Section LoadingASource.
Import DataStore Sources.
Variable api : Api.Client.
Variable sources : Sources.Client.

Lemma uploadCSV_rejected (file : File) (e : Api.Error) (st : State) :
  uploadCSV_call sources file = inl e →
  uploadCSV sources file st = (after_rejection e st, Throw (Rejected e)).
Proof.
  intros Hcall. unfold uploadCSV, bind, modify, try_catch_finally. cbn.
  rewrite Hcall. reflexivity.
Qed.

Lemma uploadCSV_resolved (file : File) (response : UploadResponse) (st : State) :
  uploadCSV_call sources file = inr response →
  uploadCSV sources file st
  = (mkState
       (Some (mkSource (up_source_id response) "csv" (up_filename response)))
       (up_preview response) (up_rows response) (up_columns response)
       (match getColumns_call sources (up_source_id response) with
        | inr types => data_types types
        | inl _ => dataTypes st
        end)
       (activeFilters st) (charts st) false None
       (match getChartSuggestions_call sources (up_source_id response) with
        | inr suggested => suggestions suggested
        | inl _ => chartSuggestions st
        end),
     Return response).
Proof.
  intros Hcall.
  unfold uploadCSV, bind, modify, try_catch_finally, fetchDataTypes,
    fetchChartSuggestions. cbn.
  rewrite Hcall. cbn.
  destruct (getColumns_call sources (up_source_id response)); cbn;
    destruct (getChartSuggestions_call sources (up_source_id response)); cbn;
    reflexivity.
Qed.
End LoadingASource.

(** X21. An upload that is answered makes the uploaded file the active
    source, with the columns, the preview rows and the row count of the
    answer, no error and loading over.  The declared types and the chart
    suggestions are replaced when the two requests that follow are
    answered; when one of them is rejected the upload still succeeds and
    the store keeps the types, or the suggestions, it had.  The active
    filters and the charts of the previous source are kept. *)
Theorem upload_replaces_the_source
    (sources : Sources.Client) (file : Sources.File)
    (response : Sources.UploadResponse) (st : DataStore.State) :
  Sources.uploadCSV_call sources file = inr response →
  ∃ st',
    Sources.uploadCSV sources file st = (st', DataStore.Return response)
    ∧ DataStore.activeSource st'
      = Some (DataStore.mkSource (Sources.up_source_id response) "csv"
                (Sources.up_filename response))
    ∧ DataStore.columns st' = Sources.up_columns response
    ∧ DataStore.currentData st' = Sources.up_preview response
    ∧ DataStore.totalRows st' = Sources.up_rows response
    ∧ DataStore.error st' = None
    ∧ DataStore.loading st' = false
    ∧ DataStore.activeFilters st' = DataStore.activeFilters st
    ∧ DataStore.charts st' = DataStore.charts st
    ∧ (∀ types,
         Sources.getColumns_call sources (Sources.up_source_id response) = inr types →
         DataStore.dataTypes st' = Sources.data_types types)
    ∧ (∀ e,
         Sources.getColumns_call sources (Sources.up_source_id response) = inl e →
         DataStore.dataTypes st' = DataStore.dataTypes st)
    ∧ (∀ suggested,
         Sources.getChartSuggestions_call sources (Sources.up_source_id response)
         = inr suggested →
         DataStore.chartSuggestions st' = Sources.suggestions suggested)
    ∧ (∀ e,
         Sources.getChartSuggestions_call sources (Sources.up_source_id response)
         = inl e →
         DataStore.chartSuggestions st' = DataStore.chartSuggestions st).
Proof.
  intros Hcall. eexists. split; [by apply uploadCSV_resolved|]. cbn.
  repeat split; try done; by intros ? ->.
Qed.

Lemma upload_replaces_the_source_witness :
  let older := Api.mkFilter "city" "eq" (JS.VStr "Oslo") None in
  let answer := Sources.mkUploadResponse "src-2" "sales.csv"
                  [("amount", "float64")] ["row 1"] 1 in
  let sources :=
    Sources.mkClient (λ _, inr answer)
      (λ _, inl (Api.mkError None "Network Error"))
      (λ _ _, inl (Api.mkError None "Network Error"))
      (λ _, inl (Api.mkError None "Network Error"))
      (λ _, inr (Sources.mkSuggestionsResponse []))
      (λ _, inl (Api.mkError None "Network Error")) in
  let st :=
    DataStore.mkState (Some (DataStore.mkSource "src-1" "csv" "people.csv"))
      [] 0 [("age", "int64")] example_dataTypes [older] [] false None [] in
  ∃ st',
    Sources.uploadCSV sources (Sources.mkFile "sales.csv" "amount") st
    = (st', DataStore.Return answer)
    ∧ DataStore.columns st' = [("amount", "float64")]
    ∧ DataStore.dataTypes st' = example_dataTypes
    ∧ DataStore.activeFilters st' = [older].
Proof.
  intros older answer sources st.
  destruct (upload_replaces_the_source sources
              (Sources.mkFile "sales.csv" "amount") answer st eq_refl)
    as (st' & Heq & _ & Hcols & _ & _ & _ & _ & Hfilters & _ & _ & Htypes & _).
  exists st'. split; [exact Heq|]. split; [exact Hcols|].
  split; [|exact Hfilters].
  by apply (Htypes (Api.mkError None "Network Error")).
Defined.

Section EndsWith.
Import FileUpload.

Lemma substring_all (s : string) : String.substring 0 (String.length s) s = s.
Proof. induction s as [|c s IH]; cbn; [done|]. by rewrite IH. Qed.

Lemma substring_app (a suffix : string) :
  String.substring (String.length a) (String.length suffix) (a +:+ suffix) = suffix.
Proof.
  induction a as [|c a IH].
  - rewrite append_nil. apply substring_all.
  - rewrite append_cons. exact IH.
Qed.

Lemma substring_split (k : nat) (s : string) :
  k ≤ String.length s →
  s = String.substring 0 k s +:+ String.substring k (String.length s - k) s.
Proof.
  revert s. induction k as [|k IH]; intros s Hk.
  - rewrite Nat.sub_0_r, substring_all.
    destruct s; reflexivity.
  - destruct s as [|c s]; cbn in Hk; [lia|].
    cbn [String.substring String.length]. rewrite append_cons.
    rewrite Nat.sub_succ. f_equal. apply IH. lia.
Qed.

(** [endsWith] holds exactly of the strings that are the suffix with
    something before it. *)
Lemma endsWith_iff (s suffix : string) :
  endsWith s suffix = true ↔ ∃ stem, s = stem +:+ suffix.
Proof.
  unfold endsWith. rewrite andb_true_iff, Nat.leb_le, String.eqb_eq. split.
  - intros [Hlen Hsub].
    exists (String.substring 0 (String.length s - String.length suffix) s).
    pose proof (substring_split (String.length s - String.length suffix) s) as H.
    replace (String.length s - (String.length s - String.length suffix))
      with (String.length suffix) in H by lia.
    rewrite Hsub in H. apply H. lia.
  - intros [stem ->]. rewrite length_append. split; [lia|].
    replace (String.length stem + String.length suffix - String.length suffix)
      with (String.length stem) by lia.
    apply substring_app.
Qed.
End EndsWith.

(** X22. Dropping a file uploads it exactly when its name ends in [.csv]
    (in lower case); any other drop, an empty one included, shows
    "Please upload a CSV file" and leaves the store as it is.  A file
    chosen with the selector is uploaded whatever its name.  When the
    upload is rejected the store holds the detail of the error, or its
    message, and nothing else of it has changed, while the form shows
    the message of the error, or "Error uploading file" when that is
    empty, and keeps the file shown before. *)
Theorem dropped_file_is_uploaded_only_if_csv
    (sources : Sources.Client) (u : FileUpload.State) (st : DataStore.State) :
  let dropped :=
    FileUpload.mkState false (FileUpload.uploading u) (FileUpload.error u)
      (FileUpload.uploadedFile u) (FileUpload.totalRows u) in
  let refused :=
    FileUpload.mkState false (FileUpload.uploading u)
      (Some "Please upload a CSV file") (FileUpload.uploadedFile u)
      (FileUpload.totalRows u) in
  (∀ file stem, Sources.file_name file = stem +:+ ".csv" →
     FileUpload.handleDrop sources (Some file) u st
     = FileUpload.uploadFile sources file dropped st)
  ∧ (∀ file, (∀ stem, Sources.file_name file ≠ stem +:+ ".csv") →
       FileUpload.handleDrop sources (Some file) u st = (refused, st))
  ∧ FileUpload.handleDrop sources None u st = (refused, st)
  ∧ (∀ file, FileUpload.handleFileSelect sources (Some file) u st
             = FileUpload.uploadFile sources file u st)
  ∧ (∀ file e, Sources.uploadCSV_call sources file = inl e →
       FileUpload.uploadFile sources file u st
       = (FileUpload.mkState (FileUpload.isDragging u) false
            (Some (if JS.str_truthy (Api.message e) then Api.message e
                   else "Error uploading file"))
            (FileUpload.uploadedFile u) (FileUpload.totalRows u),
          after_rejection e st)).
Proof.
  cbn zeta. split; [|split; [|split; [|split]]].
  - intros file stem Hname. unfold FileUpload.handleDrop. cbn.
    assert (H : FileUpload.endsWith (Sources.file_name file) ".csv" = true)
      by (apply endsWith_iff; by exists stem).
    by rewrite H.
  - intros file Hname. unfold FileUpload.handleDrop. cbn.
    destruct (FileUpload.endsWith (Sources.file_name file) ".csv") eqn:H; [|done].
    apply endsWith_iff in H as [stem H]. by destruct (Hname stem).
  - reflexivity.
  - reflexivity.
  - intros file e Hcall. unfold FileUpload.uploadFile.
    by rewrite (uploadCSV_rejected sources file e st Hcall).
Qed.

(** X23. Selecting a table whose schema is answered makes the table the
    active source, with the columns of the answer, and then queries its
    first hundred rows under the active filters.  When that query is
    answered the rows and the total shown are those of the query, not the
    row count of the schema.  When it is rejected the action throws with
    the error recorded, and the store is left half way: the new source
    and columns with the rows, the declared types and the suggestions of
    the source before. *)
Theorem selecting_a_table
    (api : Api.Client) (sources : Sources.Client) (tableName : string)
    (config : Sources.DbConfig) (schema : Sources.SchemaResponse)
    (st : DataStore.State) :
  Sources.getTableSchema_call sources tableName config = inr schema →
  let request :=
    Api.mkQueryRequest (Sources.sc_source_id schema) (DataStore.activeFilters st)
      100 0 None in
  let '(st', r) := Sources.selectTable api sources tableName config st in
  DataStore.activeSource st'
  = Some (DataStore.mkSource (Sources.sc_source_id schema) "sql_server"
            (Sources.sc_table_name schema))
  ∧ DataStore.columns st' = Sources.sc_columns schema
  ∧ DataStore.activeFilters st' = DataStore.activeFilters st
  ∧ DataStore.charts st' = DataStore.charts st
  ∧ DataStore.loading st' = false
  ∧ (∀ e, Api.queryData api request = inl e →
       r = DataStore.Throw (DataStore.Rejected e)
       ∧ DataStore.error st' = Some (DataStore.error_text (DataStore.Rejected e))
       ∧ DataStore.totalRows st'
         = Sources.row_count_or_zero (Sources.sc_row_count schema)
       ∧ DataStore.currentData st' = DataStore.currentData st
       ∧ DataStore.dataTypes st' = DataStore.dataTypes st
       ∧ DataStore.chartSuggestions st' = DataStore.chartSuggestions st)
  ∧ (∀ rows, Api.queryData api request = inr rows →
       r = DataStore.Return schema
       ∧ DataStore.error st' = None
       ∧ DataStore.currentData st' = Api.data rows
       ∧ DataStore.totalRows st' = Api.total_rows rows).
Proof.
  intros Hschema request.
  unfold Sources.selectTable, DataStore.bind, DataStore.modify,
    DataStore.try_catch_finally, Sources.fetchDataTypes,
    Sources.fetchChartSuggestions, DataStore.queryData, DataStore.queryData_start.
  cbn. rewrite Hschema. cbn. fold request.
  unfold DataStore.queryData_resume, DataStore.try_catch_finally, DataStore.bind,
    DataStore.modify.
  destruct (Api.queryData api request) as [e|rows]; cbn.
  - repeat apply conj; try done;
      intros ? Heq; inversion Heq; subst; repeat split; done.
  - destruct (Sources.getColumns_call sources (Sources.sc_source_id schema)); cbn;
      destruct (Sources.getChartSuggestions_call sources
                  (Sources.sc_source_id schema)); cbn;
      repeat apply conj; try done;
      intros ? Heq; inversion Heq; subst; repeat split; done.
Qed.

Lemma selecting_a_table_witness :
  let schema := Sources.mkSchemaResponse "src-9" "orders" [("total", "float")] (Some 5000%Z) in
  let api := Api.mkClient (λ _, inl (Api.mkError (Some "timeout") "Request failed"))
               (λ _, inl (Api.mkError None "Network Error")) in
  let sources :=
    Sources.mkClient (λ _, inl (Api.mkError None "Network Error"))
      (λ _, inr (Sources.mkConnectResponse ["orders"]))
      (λ _ _, inr schema)
      (λ _, inr (Sources.mkColumnsResponse {[ "total" := "numeric" ]}))
      (λ _, inr (Sources.mkSuggestionsResponse []))
      (λ _, inl (Api.mkError None "Network Error")) in
  let st :=
    DataStore.mkState (Some (DataStore.mkSource "src-1" "csv" "people.csv"))
      ["row 1"] 1 [("age", "int64")] example_dataTypes [] [] false None [] in
  let st' := fst (Sources.selectTable api sources "orders"
                    (Sources.mkDbConfig "db1" "shop" "" "" true 1433) st) in
  DataStore.columns st' = [("total", "float")]
  ∧ DataStore.dataTypes st' = example_dataTypes
  ∧ DataStore.error st' = Some "timeout".
Proof.
  intros schema api sources st st'.
  pose proof (selecting_a_table api sources "orders"
                (Sources.mkDbConfig "db1" "shop" "" "" true 1433) schema st eq_refl)
    as H.
  cbn zeta in H. subst st'.
  destruct (Sources.selectTable api sources "orders" _ st) as [st1 r].
  destruct H as (_ & Hcols & _ & _ & _ & Hfail & _).
  destruct (Hfail (Api.mkError (Some "timeout") "Request failed") eq_refl)
    as (_ & Herr & _ & _ & Htypes & _).
  cbn [fst]. repeat split; assumption.
Defined.

(** X24. The Connect button is enabled exactly when no connection is
    being made, a server and a database are entered, and either Windows
    authentication is chosen or a user name and a password are entered;
    the port plays no part.  A connection that is answered lists the
    tables of the answer and clears the error of the form; one that is
    rejected keeps the tables listed before and shows the message of the
    error, or "Connection failed" when it is empty.  Loading a table does
    nothing while none is selected. *)
Theorem connecting_to_a_database
    (api : Api.Client) (sources : Sources.Client)
    (s : DatabaseConnect.State) (st : DataStore.State) :
  let c := DatabaseConnect.config s in
  (DatabaseConnect.connectEnabled s = true ↔
     DatabaseConnect.connecting s = false
     ∧ Sources.server c ≠ "" ∧ Sources.database c ≠ ""
     ∧ (Sources.use_windows_auth c = true
        ∨ (Sources.username c ≠ "" ∧ Sources.password c ≠ "")))
  ∧ (∀ answer, Sources.connectDatabase_call sources c = inr answer →
       let '(s', st') := DatabaseConnect.connect sources s st in
       DatabaseConnect.tables s' = Sources.tables answer
       ∧ DatabaseConnect.error s' = None
       ∧ DatabaseConnect.connecting s' = false
       ∧ DataStore.error st' = None
       ∧ DataStore.activeSource st' = DataStore.activeSource st)
  ∧ (∀ e, Sources.connectDatabase_call sources c = inl e →
       let '(s', st') := DatabaseConnect.connect sources s st in
       DatabaseConnect.tables s' = DatabaseConnect.tables s
       ∧ DatabaseConnect.error s'
         = Some (if JS.str_truthy (Api.message e) then Api.message e
                 else "Connection failed")
       ∧ DatabaseConnect.connecting s' = false
       ∧ st' = after_rejection e st)
  ∧ (DatabaseConnect.selectedTable s = "" →
       DatabaseConnect.loadTable api sources s st = (s, st)).
Proof.
  intros c. split; [|split; [|split]].
  - unfold DatabaseConnect.connectEnabled, DatabaseConnect.canConnect. fold c.
    destruct (DatabaseConnect.connecting s); cbn [orb negb]; [naive_solver|].
    rewrite negb_involutive.
    destruct (JS.str_truthy (Sources.server c)) eqn:Hs;
      [apply str_truthy_true in Hs | apply str_truthy_false in Hs];
      cbn [negb orb]; [|cbn; naive_solver].
    destruct (JS.str_truthy (Sources.database c)) eqn:Hd;
      [apply str_truthy_true in Hd | apply str_truthy_false in Hd];
      cbn [negb orb]; [|cbn; naive_solver].
    destruct (Sources.use_windows_auth c); cbn [negb]; [cbn; naive_solver|].
    unfold DatabaseConnect.truthy.
    destruct (JS.str_truthy (Sources.username c)) eqn:Hu;
      [apply str_truthy_true in Hu|].
    + rewrite str_truthy_true. naive_solver.
    + rewrite Hu. apply str_truthy_false in Hu. naive_solver.
  - intros answer Hcall. unfold DatabaseConnect.connect, Sources.connectDatabase,
      DataStore.bind, DataStore.modify, DataStore.try_catch_finally. cbn.
    fold c. rewrite Hcall. cbn. done.
  - intros e Hcall. unfold DatabaseConnect.connect, Sources.connectDatabase,
      DataStore.bind, DataStore.modify, DataStore.try_catch_finally. cbn.
    fold c. rewrite Hcall. cbn. done.
  - intros Hsel. unfold DatabaseConnect.loadTable. by rewrite Hsel.
Qed.

(** ** FilterBuilder: the value controls *)

Section ValueControls.
Import JS FilterBuilder.
Variable dataTypes : gmap string string.

Lemma watch_values_options (s : State) :
  filterOptions (watch_values s) = filterOptions s
  ∧ loadingOptions (watch_values s) = loadingOptions s.
Proof.
  unfold watch_values.
  destruct (String.eqb _ _ && _ && _); [|done].
  destruct (negb _ && _ && _); done.
Qed.

Lemma flush_options (old new : State) :
  filterOptions (flush old new) = filterOptions new
  ∧ loadingOptions (flush old new) = loadingOptions new.
Proof. unfold flush. case_decide; [done|]. apply watch_values_options. Qed.

(** With no answer, [loadFilterOptions] leaves no option and is not
    loading. *)
Lemma loadFilterOptions_unanswered (s : State) :
  filterOptions s = [] → loadingOptions s = false →
  filterOptions (loadFilterOptions None s) = []
  ∧ loadingOptions (loadFilterOptions None s) = false.
Proof. intros Ho Hl. unfold loadFilterOptions. by destruct (negb _). Qed.

Lemma handle_no_options (e : Event) (s : State) :
  answered_by_the_store e →
  filterOptions s = [] ∧ loadingOptions s = false →
  filterOptions (handle dataTypes e s) = []
  ∧ loadingOptions (handle dataTypes e s) = false.
Proof.
  intros He [Ho Hl]. destruct e; cbn [handle answered_by_the_store] in *.
  - destruct (_ || _); [|done].
    destruct (flush_options s (onColumnChange dataTypes answer (with_column c s)))
      as [-> ->].
    subst answer. unfold onColumnChange, DataStore.getFilterOptions. cbv zeta.
    destruct (columnDataType _ _) as [[]|]; try done.
    by apply loadFilterOptions_unanswered.
  - destruct (_ && _); [|done].
    destruct (flush_options s (onOperatorChange dataTypes answer (with_operator o s)))
      as [-> ->].
    destruct He as [c ->]. unfold onOperatorChange, DataStore.getFilterOptions.
    cbv zeta. destruct (_ && _); [|done].
    by apply loadFilterOptions_unanswered.
  - destruct (valueControl dataTypes s); try done;
      match goal with |- context [flush s ?n] =>
        destruct (flush_options s n) as [-> ->] end; done.
  - destruct (valueControl dataTypes s); try done;
      match goal with |- context [flush s ?n] =>
        destruct (flush_options s n) as [-> ->] end; done.
  - destruct (valueControl dataTypes s); try done.
    destruct (bool_decide _); [|done].
    match goal with |- context [flush s ?n] =>
      destruct (flush_options s n) as [-> ->] end; done.
  - by destruct (valueControl dataTypes s).
  - destruct (valueControl dataTypes s); try done.
    destruct (str_truthy (filterValueText s)) eqn:Ht; [|done].
    destruct (watch_values_options (parseInValues s)) as [-> ->].
    unfold parseInValues. by rewrite Ht.
  - destruct (flush_options s (snd (applyFilter s))) as [-> ->].
    unfold applyFilter. by destruct (negb (canApply s)).
Qed.

Lemma run_no_options (es : list Event) (s : State) :
  Forall answered_by_the_store es →
  filterOptions s = [] ∧ loadingOptions s = false →
  filterOptions (run dataTypes es s) = []
  ∧ loadingOptions (run dataTypes es s) = false.
Proof.
  intros Hes. revert s. induction Hes as [|e es He _ IH]; intros s Hs; [done|].
  apply IH. by apply handle_no_options.
Qed.

(** Without options and not loading, the value is never picked. *)
Lemma valueControl_no_options (s : State) :
  filterOptions s = [] → loadingOptions s = false →
  valueControl dataTypes s ≠ Dropdown
  ∧ valueControl dataTypes s ≠ LoadingPlaceholder
  ∧ (shouldShowDropdown dataTypes s = true → valueControl dataTypes s = FreeText).
Proof.
  intros Ho Hl. unfold valueControl, shouldShowDropdown. rewrite Ho, Hl.
  destruct (str_truthy (selectedOperator s)) eqn:Hop; cbn [negb length Nat.ltb].
  - destruct (String.eqb (selectedOperator s) "between") eqn:Hb.
    { apply String.eqb_eq in Hb. rewrite Hb.
      by destruct (columnDataType dataTypes s) as [[]|]. }
    destruct (String.eqb (selectedOperator s) "in") eqn:Hi.
    { apply String.eqb_eq in Hi. rewrite Hi.
      by destruct (columnDataType dataTypes s) as [[]|]. }
    destruct (columnDataType dataTypes s) as [[]|]; try done.
    by destruct (String.eqb _ "eq" || String.eqb _ "ne").
  - apply negb_false_iff, String.eqb_eq in Hop. rewrite Hop.
    by destruct (columnDataType dataTypes s) as [[]|].
Qed.
End ValueControls.

(** X25. The form asks the store for the known values of a categorical
    column, and this store has no [getFilterOptions]: the call throws and
    is caught.  So, whatever is done in the form, no known value is ever
    listed, the form is never left loading, and the dropdown of known
    values is never shown: for [eq] and [ne] on a categorical column the
    value is typed as free text. *)
Theorem known_values_never_offered
    (dataTypes : gmap string string) (es : list FilterBuilder.Event) :
  Forall answered_by_the_store es →
  let s := FilterBuilder.run dataTypes es FilterBuilder.initial in
  FilterBuilder.filterOptions s = []
  ∧ FilterBuilder.loadingOptions s = false
  ∧ FilterBuilder.valueControl dataTypes s ≠ FilterBuilder.Dropdown
  ∧ FilterBuilder.valueControl dataTypes s ≠ FilterBuilder.LoadingPlaceholder
  ∧ (FilterBuilder.shouldShowDropdown dataTypes s = true →
       FilterBuilder.valueControl dataTypes s = FilterBuilder.FreeText)
  ∧ (∀ v, FilterBuilder.handle dataTypes (FilterBuilder.PickOption v) s = s).
Proof.
  intros Hes s.
  destruct (run_no_options dataTypes es FilterBuilder.initial Hes) as [Ho Hl];
    [done|]. fold s in Ho, Hl.
  destruct (valueControl_no_options dataTypes s Ho Hl) as (Hd & Hp & Hf).
  repeat split; try done.
  intros v. cbn [FilterBuilder.handle].
  by destruct (FilterBuilder.valueControl dataTypes s).
Qed.

Lemma known_values_never_offered_witness :
  let s :=
    FilterBuilder.run example_dataTypes
      [FilterBuilder.SelectColumn "city" (DataStore.getFilterOptions "city");
       FilterBuilder.SelectOperator "eq" (DataStore.getFilterOptions "city")]
      FilterBuilder.initial in
  FilterBuilder.valueControl example_dataTypes s = FilterBuilder.FreeText.
Proof.
  intros s.
  destruct (known_values_never_offered example_dataTypes
              [FilterBuilder.SelectColumn "city" (DataStore.getFilterOptions "city");
               FilterBuilder.SelectOperator "eq" (DataStore.getFilterOptions "city")])
    as (_ & _ & _ & _ & Hfree & _).
  - repeat constructor. by exists "city".
  - apply Hfree. reflexivity.
Defined.

(** ** FilterBuilder: the validation message *)

Section ValidationMessage.
Import JS FilterBuilder.
Variable dataTypes : gmap string string.

Lemma watch_values_message (s : State) :
  message_is_for_between s → message_is_for_between (watch_values s).
Proof.
  unfold message_is_for_between.
  destruct (watch_values_frame s) as (_ & -> & _).
  unfold watch_values.
  destruct (String.eqb (selectedOperator s) "between") eqn:Ho; [|done].
  apply String.eqb_eq in Ho.
  destruct (truthy (filterValue s)), (truthy (filterValue2 s)); cbn [andb]; try done.
  intros _. destruct (negb _ && _ && _); cbn; [by right | by left].
Qed.

Lemma flush_message (old new : State) :
  message_is_for_between new → message_is_for_between (flush old new).
Proof. unfold flush. case_decide; [done|]. apply watch_values_message. Qed.

Lemma handle_message (e : Event) (s : State) :
  message_is_for_between s → message_is_for_between (handle dataTypes e s).
Proof.
  intros H. destruct e; cbn [handle].
  - destruct (_ || _); [|done]. apply flush_message. left.
    apply (onColumnChange_fields dataTypes answer (with_column c s)).
  - destruct (_ && _); [|done]. apply flush_message. left.
    apply (onOperatorChange_fields dataTypes answer (with_operator o s)).
  - destruct (valueControl dataTypes s); try done; by apply flush_message.
  - destruct (valueControl dataTypes s); try done; by apply flush_message.
  - destruct (valueControl dataTypes s); try done.
    destruct (bool_decide _); [|done]. by apply flush_message.
  - by destruct (valueControl dataTypes s).
  - destruct (valueControl dataTypes s); try done.
    destruct (str_truthy (filterValueText s)) eqn:Ht; [|done].
    apply watch_values_message. unfold parseInValues. by rewrite Ht.
  - apply flush_message. unfold applyFilter.
    destruct (negb (canApply s)); [done | by left].
Qed.

Lemma run_message (es : list Event) (s : State) :
  message_is_for_between s → message_is_for_between (run dataTypes es s).
Proof.
  revert s. induction es as [|e es IH]; intros s H; [done|].
  apply IH. by apply handle_message.
Qed.

(** The two values of [between], entered into a form where [between] has
    just been chosen. *)
Lemma between_entered (s : State) (v1 v2 : jsval) :
  between_just_chosen s →
  flush (flush s (with_value v1 s))
    (with_value2 v2 (flush s (with_value v1 s)))
  = mkState (selectedColumn s) "between" v1 v2 (filterValueText s)
      (filterOptions s) (loadingOptions s)
      (if between_refused v1 v2 then between_error else "").
Proof.
  intros (Hc & Ho & H1 & H2 & He).
  assert (Hs1 : flush s (with_value v1 s) = with_value v1 s).
  { unfold flush. case_decide; [done|]. apply watch_values_falsy. right.
    cbn. by rewrite H2. }
  rewrite Hs1. unfold flush, between_refused. cbn [filterValue filterValue2 with_value
                                                   with_value2].
  rewrite H2.
  assert (Hv2 : with_value2 v2 (with_value v1 s)
            = mkState (selectedColumn s) "between" v1 v2 (filterValueText s)
                (filterOptions s) (loadingOptions s) "").
  { unfold with_value2, with_value. cbn. by rewrite Ho, He. }
  case_decide as Hd.
  - destruct Hd as [_ <-]. cbn [truthy String.eqb negb andb]. rewrite andb_false_r.
    cbn [andb]. exact Hv2.
  - unfold watch_values. cbn. rewrite Ho. cbn.
    destruct (truthy v1), (truthy v2); cbn; rewrite ?He; try exact Hv2.
    by destruct (negb _ && _ && _).
Qed.

Lemma between_entered_swapped (s : State) (v1 v2 : jsval) :
  between_just_chosen s →
  flush (flush s (with_value2 v2 s))
    (with_value v1 (flush s (with_value2 v2 s)))
  = mkState (selectedColumn s) "between" v1 v2 (filterValueText s)
      (filterOptions s) (loadingOptions s)
      (if between_refused v1 v2 then between_error else "").
Proof.
  intros (Hc & Ho & H1 & H2 & He).
  assert (Hs1 : flush s (with_value2 v2 s) = with_value2 v2 s).
  { unfold flush. case_decide; [done|]. apply watch_values_falsy. left.
    cbn. by rewrite H1. }
  rewrite Hs1. unfold flush, between_refused. cbn [filterValue filterValue2 with_value
                                                   with_value2].
  rewrite H1.
  case_decide as Hd.
  - destruct Hd as [<- _]. cbn [truthy String.eqb negb andb].
    unfold with_value2, with_value. cbn. by rewrite Ho, He.
  - unfold watch_values. cbn. rewrite Ho. cbn.
    destruct (truthy v1), (truthy v2); cbn; rewrite ?He;
      try (unfold with_value2, with_value; cbn; by rewrite Ho, ?He).
    by destruct (negb _ && _ && _).
Qed.

Lemma between_just_chosen_control (s : State) :
  between_just_chosen s → valueControl dataTypes s = BetweenInputs.
Proof. intros (_ & Ho & _). unfold valueControl. by rewrite Ho. Qed.
End ValidationMessage.

(** X26. Whatever is done in the filter form, the validation message is
    either empty or the message of [between] shown while [between] is the
    chosen operator: no other operator ever shows a message. *)
Theorem message_only_under_between
    (dataTypes : gmap string string) (es : list FilterBuilder.Event) :
  message_is_for_between (FilterBuilder.run dataTypes es FilterBuilder.initial).
Proof. apply run_message. by left. Qed.

Section BetweenEntered.
Import JS FilterBuilder.
Variable dataTypes : gmap string string.

Lemma valueControl_between (s : State) :
  selectedOperator s = "between" → valueControl dataTypes s = BetweenInputs.
Proof. intros Ho. unfold valueControl. by rewrite Ho. Qed.

Lemma valueInputType_ext (s1 s2 : State) :
  selectedColumn s1 = selectedColumn s2 →
  valueInputType dataTypes s1 = valueInputType dataTypes s2.
Proof.
  intros H. unfold valueInputType. by rewrite (columnDataType_ext dataTypes s1 s2 H).
Qed.

Lemma type_between_values (s : State) (t1 t2 : string) :
  between_just_chosen s →
  let ty := valueInputType dataTypes s in
  run dataTypes [TypeValue t1; TypeValue2 t2] s
  = flush (flush s (with_value (Vue.vmodel_input ty t1) s))
      (with_value2 (Vue.vmodel_input ty t2)
         (flush s (with_value (Vue.vmodel_input ty t1) s))).
Proof.
  intros H ty. pose proof H as (_ & Ho & _). cbn [run fold_left handle].
  rewrite (valueControl_between s Ho). fold ty.
  set (s1 := flush s (with_value (Vue.vmodel_input ty t1) s)).
  destruct (flush_frame s (with_value (Vue.vmodel_input ty t1) s))
    as (Fc & Fo & _). fold s1 in Fc, Fo. cbn in Fc, Fo.
  rewrite (valueControl_between s1) by congruence.
  by rewrite (valueInputType_ext s1 s Fc).
Qed.

Lemma type_between_values_swapped (s : State) (t1 t2 : string) :
  between_just_chosen s →
  let ty := valueInputType dataTypes s in
  run dataTypes [TypeValue2 t2; TypeValue t1] s
  = flush (flush s (with_value2 (Vue.vmodel_input ty t2) s))
      (with_value (Vue.vmodel_input ty t1)
         (flush s (with_value2 (Vue.vmodel_input ty t2) s))).
Proof.
  intros H ty. pose proof H as (_ & Ho & _). cbn [run fold_left handle].
  rewrite (valueControl_between s Ho). fold ty.
  set (s1 := flush s (with_value2 (Vue.vmodel_input ty t2) s)).
  destruct (flush_frame s (with_value2 (Vue.vmodel_input ty t2) s))
    as (Fc & Fo & _). fold s1 in Fc, Fo. cbn in Fc, Fo.
  rewrite (valueControl_between s1) by congruence.
  by rewrite (valueInputType_ext s1 s Fc).
Qed.
End BetweenEntered.

(** X27. With [between] just chosen, typing the start and the end value
    gives the same form in either order.  The message is shown exactly
    when both values are truthy, both parse as numbers and the end is not
    above the start, and the filter can be applied exactly when neither
    value is the empty text and the message is not shown. *)
Theorem between_values_in_either_order
    (dataTypes : gmap string string) (s : FilterBuilder.State) (t1 t2 : string) :
  between_just_chosen s →
  let type := FilterBuilder.valueInputType dataTypes s in
  let v1 := Vue.vmodel_input type t1 in
  let v2 := Vue.vmodel_input type t2 in
  let s' :=
    FilterBuilder.run dataTypes
      [FilterBuilder.TypeValue t1; FilterBuilder.TypeValue2 t2] s in
  FilterBuilder.run dataTypes
    [FilterBuilder.TypeValue2 t2; FilterBuilder.TypeValue t1] s = s'
  ∧ FilterBuilder.filterValue s' = v1
  ∧ FilterBuilder.filterValue2 s' = v2
  ∧ FilterBuilder.validationError s'
    = (if between_refused v1 v2 then FilterBuilder.between_error else "")
  ∧ FilterBuilder.canApply s'
    = JS.not_empty_string v1 && JS.not_empty_string v2
      && negb (between_refused v1 v2).
Proof.
  intros H type v1 v2 s'. subst s'.
  rewrite (type_between_values_swapped dataTypes s t1 t2 H).
  rewrite (type_between_values dataTypes s t1 t2 H).
  cbv zeta. fold type. fold v1. fold v2.
  rewrite (between_entered s v1 v2 H), (between_entered_swapped s v1 v2 H).
  destruct H as (Hc & _).
  split; [done|]. split; [done|]. split; [done|]. split; [done|].
  unfold FilterBuilder.canApply. cbn.
  rewrite (proj2 (str_truthy_true _) Hc). cbn.
  by destruct (between_refused v1 v2).
Qed.

Lemma between_values_in_either_order_witness :
  let s :=
    FilterBuilder.run example_dataTypes
      [FilterBuilder.SelectColumn "age" None;
       FilterBuilder.SelectOperator "between" None] FilterBuilder.initial in
  FilterBuilder.canApply
    (FilterBuilder.run example_dataTypes
       [FilterBuilder.TypeValue "10"; FilterBuilder.TypeValue2 "5"] s) = false
  ∧ FilterBuilder.canApply
      (FilterBuilder.run example_dataTypes
         [FilterBuilder.TypeValue "5"; FilterBuilder.TypeValue2 "10"] s) = true.
Proof.
  intros s.
  assert (H : between_just_chosen s) by (vm_compute; repeat split; discriminate).
  split.
  - destruct (between_values_in_either_order example_dataTypes s "10" "5" H)
      as (_ & _ & _ & _ & ->). by vm_compute.
  - destruct (between_values_in_either_order example_dataTypes s "5" "10" H)
      as (_ & _ & _ & _ & ->). by vm_compute.
Defined.

Section SingleValue.
Import JS FilterBuilder.
Variable dataTypes : gmap string string.

(** What [v-model] stores is the empty text only for an empty input. *)
Lemma vmodel_input_not_empty (type text : string) :
  not_empty_string (Vue.vmodel_input type text) = str_truthy text.
Proof.
  unfold Vue.vmodel_input, Vue.looseToNumber.
  destruct (String.eqb type "number"); [|done].
  destruct (String.eqb text "") eqn:He.
  - apply String.eqb_eq in He. by subst text.
  - destruct (isNaN (parseFloat_str text)); cbn; unfold str_truthy; by rewrite ?He.
Qed.

Lemma single_control_operator (s : State) :
  valueControl dataTypes s = SingleInput ∨ valueControl dataTypes s = FreeText →
  str_truthy (selectedOperator s) = true
  ∧ String.eqb (selectedOperator s) "between" = false
  ∧ String.eqb (selectedOperator s) "in" = false.
Proof.
  unfold valueControl.
  destruct (str_truthy (selectedOperator s)); cbn [negb]; [|intros [?|?]; done].
  destruct (String.eqb (selectedOperator s) "between"); [intros [?|?]; done|].
  destruct (String.eqb (selectedOperator s) "in"); [intros [?|?]; done|].
  done.
Qed.

Lemma canApply_single (s : State) :
  selectedColumn s ≠ "" →
  str_truthy (selectedOperator s) = true →
  String.eqb (selectedOperator s) "between" = false →
  String.eqb (selectedOperator s) "in" = false →
  canApply s = not_empty_string (filterValue s).
Proof.
  intros Hc Ho Hb Hi. unfold canApply.
  by rewrite (proj2 (str_truthy_true _) Hc), Ho, Hb, Hi.
Qed.
End SingleValue.

(** X28. For an operator that takes one typed value (every one but
    [between] and [in], outside the dropdown of known values), the filter
    can be applied exactly when the value the input reports is not the
    empty text.  A number input reports the empty text unless what was
    typed is a valid floating-point number, so on a numeric column the
    filter can be applied exactly when a valid number has been typed: 0
    is accepted, a text that is not a number is not. *)
Theorem single_value_gate
    (dataTypes : gmap string string) (s : FilterBuilder.State) :
  FilterBuilder.selectedColumn s ≠ "" →
  FilterBuilder.valueControl dataTypes s = FilterBuilder.SingleInput
  ∨ FilterBuilder.valueControl dataTypes s = FilterBuilder.FreeText →
  let type :=
    match FilterBuilder.valueControl dataTypes s with
    | FilterBuilder.FreeText => "text"
    | _ => FilterBuilder.valueInputType dataTypes s
    end in
  (∀ text, Html.reports type text →
     FilterBuilder.canApply
       (FilterBuilder.handle dataTypes (FilterBuilder.TypeValue text) s) = true
     ↔ text ≠ "")
  ∧ (type = "number" →
     ∀ typed,
       Html.reports type (Html.number_input_value typed)
       ∧ (FilterBuilder.canApply
            (FilterBuilder.handle dataTypes
               (FilterBuilder.TypeValue (Html.number_input_value typed)) s) = true
          ↔ Html.valid_floating_point_number typed = true)).
Proof.
  intros Hc Hctl type.
  destruct (single_control_operator dataTypes s Hctl) as (Ho & Hb & Hi).
  assert (Hgate : ∀ type text,
            FilterBuilder.canApply
              (FilterBuilder.flush s
                 (FilterBuilder.with_value (Vue.vmodel_input type text) s))
            = JS.str_truthy text).
  { intros ty text.
    destruct (flush_frame s
                (FilterBuilder.with_value (Vue.vmodel_input ty text) s))
      as (Fc & Fo & Fv & _). cbn in Fc, Fo, Fv.
    rewrite canApply_single by (by rewrite ?Fc, ?Fo).
    by rewrite Fv, vmodel_input_not_empty. }
  assert (Hreported : ∀ text,
            FilterBuilder.canApply
              (FilterBuilder.handle dataTypes (FilterBuilder.TypeValue text) s)
            = true ↔ text ≠ "").
  { intros text. rewrite <- str_truthy_true. cbn [FilterBuilder.handle].
    destruct Hctl as [-> | ->]; by rewrite Hgate. }
  split; [intros text _; apply Hreported|].
  intros _ typed.
  assert (Hempty : Html.valid_floating_point_number "" = false) by reflexivity.
  split.
  - intros _. unfold Html.number_input_value.
    destruct (Html.valid_floating_point_number typed) eqn:Hvalid.
    + by rewrite Hvalid.
    + by rewrite Hempty.
  - rewrite Hreported. unfold Html.number_input_value.
    destruct (Html.valid_floating_point_number typed) eqn:Hvalid.
    + split; [done|]. intros _ ->. congruence.
    + split; [done|]. discriminate.
Qed.

Lemma single_value_gate_witness :
  let s :=
    FilterBuilder.run example_dataTypes
      [FilterBuilder.SelectColumn "age" None;
       FilterBuilder.SelectOperator "gt" None] FilterBuilder.initial in
  FilterBuilder.canApply
    (FilterBuilder.handle example_dataTypes
       (FilterBuilder.TypeValue (Html.number_input_value "0")) s) = true
  ∧ FilterBuilder.canApply
      (FilterBuilder.handle example_dataTypes
         (FilterBuilder.TypeValue (Html.number_input_value "abc")) s) = false.
Proof.
  intros s.
  destruct (single_value_gate example_dataTypes s) as [_ Hnumber].
  - discriminate.
  - left. reflexivity.
  - split.
    + apply (Hnumber eq_refl "0"). reflexivity.
    + apply not_true_is_false. intros H.
      apply (Hnumber eq_refl "abc") in H. discriminate H.
Defined.
